(** * Jarr: the add/search queue of the *Arr tabs, and the worker that runs
its network tasks.

The development follows the Python sources

  - [core/api_client.py]        ([ApiWorker]),
  - [plugins/plugin_arr_base.py] ([ArrTab]),
  - [plugins/plugin_radarr.py], [plugins/plugin_lidarr.py]
    (the per-service overrides),
  - [ui/dialogs.py]             (what [SelectionDialog] hands back).

Python values are embedded as a small JSON-like datatype, exceptions as
values carrying their [str()], worker-side code in a state-and-exception
monad whose state records every HTTP request and log line, and the
UI-thread code of the tab as functions on an explicit tab record. *)

From Stdlib Require Import List String Ascii ZArith Arith Bool Lia DecimalString.
Import ListNotations.

Set Implicit Arguments.
Set Warnings "-register-all".

(* ===================================================================== *)
(** ** Python values *)
(* ===================================================================== *)

Module Py.

(** Decoded JSON, as [response.json()] returns it.  [JNull] is [None];
  numbers are integers (the identifiers the code reads are). *)
Inductive json : Type :=
| JNull
| JBool (b : bool)
| JInt (z : Z)
| JStr (s : string)
| JList (l : list json)
| JDict (d : list (string * json)).

Definition dict := list (string * json).

(** Python truthiness: [if v:]. *)
Definition truthy (v : json) : bool :=
match v with
| JNull => false
| JBool b => b
| JInt z => negb (Z.eqb z 0)
| JStr s => negb (String.eqb s EmptyString)
| JList l => match l with [] => false | _ => true end
| JDict d => match d with [] => false | _ => true end
end.

(** [k in d]. *)
Fixpoint has_key (d : dict) (k : string) : bool :=
match d with
| [] => false
| (k', _) :: d' => if String.eqb k' k then true else has_key d' k
end.

(** [d.get(k, default)]. *)
Fixpoint get_default (d : dict) (k : string) (default : json) : json :=
match d with
| [] => default
| (k', v) :: d' => if String.eqb k' k then v else get_default d' k default
end.

(** [d.get(k)]: [None] when the key is absent. *)
Definition get (d : dict) (k : string) : json := get_default d k JNull.

(** [result is None]. *)
Definition is_None (v : json) : bool :=
match v with JNull => true | _ => false end.

(** An exception derived from [Exception] (what [except Exception]
  catches): its class and its [str(e)]. *)
Record Exception : Type := Exc { exc_class : string; exc_str : string }.

Definition ValueError (msg : string) : Exception :=
  {| exc_class := "ValueError"; exc_str := msg |}.

Definition AttributeError (msg : string) : Exception :=
  {| exc_class := "AttributeError"; exc_str := msg |}.

Definition TypeError (msg : string) : Exception :=
  {| exc_class := "TypeError"; exc_str := msg |}.

Definition KeyError (msg : string) : Exception :=
  {| exc_class := "KeyError"; exc_str := msg |}.

(** How a call ends. *)
Inductive outcome (A : Type) : Type :=
| Returned (a : A)
| Raised (e : Exception).
Arguments Returned {A} a.
Arguments Raised {A} e.

(** *** Strings *)

(** [needle in hay]. *)
Fixpoint contains (needle hay : string) : bool :=
if String.prefix needle hay then true
else match hay with
     | EmptyString => false
     | String _ hay' => contains needle hay'
     end.

Definition lower_ascii (c : ascii) : ascii :=
let n := nat_of_ascii c in
if (65 <=? n) && (n <=? 90) then ascii_of_nat (n + 32) else c.

(** [s.lower()], on ASCII text. *)
Fixpoint lower (s : string) : string :=
match s with
| EmptyString => EmptyString
| String c s' => String (lower_ascii c) (lower s')
end.

(** [not s] for a string. *)
Definition str_empty (s : string) : bool :=
match s with EmptyString => true | _ => false end.

Definition upper_ascii (c : ascii) : ascii :=
let n := nat_of_ascii c in
if (97 <=? n) && (n <=? 122) then ascii_of_nat (n - 32) else c.

(** [s.upper()], on ASCII text. *)
Fixpoint upper (s : string) : string :=
match s with
| EmptyString => EmptyString
| String c s' => String (upper_ascii c) (upper s')
end.

(** [s.rstrip("/")]. *)
Fixpoint rstrip_slash (s : string) : string :=
match s with
| EmptyString => EmptyString
| String c s' =>
    match rstrip_slash s' with
    | EmptyString => if Ascii.eqb c "/" then EmptyString else String c EmptyString
    | r => String c r
    end
end.

(** [d[k] = v]: an existing key keeps its place. *)
Fixpoint set_item (d : dict) (k : string) (v : json) : dict :=
match d with
| [] => [(k, v)]
| (k', v') :: d' =>
    if String.eqb k' k then (k', v) :: d' else (k', v') :: set_item d' k v
end.

(** [{**d, **extra}]. *)
Definition update (d extra : dict) : dict :=
fold_left (fun acc kv => set_item acc (fst kv) (snd kv)) extra d.

(** What the interpreter supplies: [str(v)] of a decoded value (the
  text an f-string puts for [{v}]) and [s.title()]. *)
Class Runtime : Type := {
  str_of : json -> string;
  title_of : string -> string
}.

Definition str_of_nat `{Runtime} (n : nat) : string := str_of (JInt (Z.of_nat n)).

End Py.

Import Py.

(* ===================================================================== *)
(** ** A state-and-exception monad for code that can raise *)
(* ===================================================================== *)

Module Eff.

Definition M (S A : Type) : Type := S -> outcome A * S.

Definition ret {S A} (a : A) : M S A := fun s => (Returned a, s).

Definition raise {S A} (e : Exception) : M S A := fun s => (Raised e, s).

Definition bind {S A B} (m : M S A) (k : A -> M S B) : M S B :=
fun s =>
  match m s with
  | (Returned a, s') => k a s'
  | (Raised e, s') => (Raised e, s')
  end.

(** [try: body  except Exception as e: handler(e)]. *)
Definition try_except {S A} (body : M S A) (handler : Exception -> M S A)
: M S A :=
fun s =>
  match body s with
  | (Returned a, s') => (Returned a, s')
  | (Raised e, s') => handler e s'
  end.

(** [try: body  finally: fin]; an exception of [fin] replaces the
  outcome of [body]. *)
Definition try_finally {S A} (body : M S A) (fin : M S unit) : M S A :=
fun s =>
  match body s with
  | (o, s') =>
      match fin s' with
      | (Returned _, s'') => (o, s'')
      | (Raised e, s'') => (Raised e, s'')
      end
  end.

Definition modify {S} (f : S -> S) : M S unit := fun s => (Returned tt, f s).

Definition when_ {S} (b : bool) (m : M S unit) : M S unit :=
if b then m else ret tt.

End Eff.

Declare Scope eff_scope.
Delimit Scope eff_scope with eff.
Notation "x <- m ;; k" := (Eff.bind m (fun x => k))
(at level 61, m at next level, right associativity) : eff_scope.
Notation "m ;;; k" := (Eff.bind m (fun _ => k))
(at level 61, right associativity) : eff_scope.

Inductive level : Type := DEBUG | INFO | WARNING | ERROR.

(* ===================================================================== *)
(** ** core/api_client.py: ApiWorker *)
(* ===================================================================== *)

Module ApiWorker.

Section Worker.

(** Whatever the task callable touches (the network, the settings). *)
Variable World : Type.

(** Signals of the worker, and the lines it logs. *)
Inductive emission : Type :=
| progress (msg : string)
| finished (result : json) (error : string)
| logged (lvl : level) (msg : string).

(** [task_callable] with its [*args, **kwargs] already bound. *)
Record t : Type := Build {
  task_name : string;
  task_callable : World -> outcome json * World;
  is_running : bool
}.

(** [__init__]. *)
Definition init (name : string)
           (task : World -> outcome json * World) : t :=
  {| task_name := name; task_callable := task; is_running := true |}.

(** [stop]. *)
Definition stop (w : t) : t :=
  {| task_name := task_name w;
     task_callable := task_callable w;
     is_running := false |}.

Record run_state : Type := {
  emitted : list emission;
  world : World
}.

Definition emit (e : emission) : Eff.M run_state unit :=
  Eff.modify (fun s => {| emitted := emitted s ++ [e]; world := world s |}).

Definition call_task (w : t) : Eff.M run_state json :=
  fun s =>
    let (o, wd) := task_callable w (world s) in
    (o, {| emitted := emitted s; world := wd |}).

#[local] Open Scope eff_scope.
#[local] Open Scope string_scope.

(** [run].  [w] is the worker as the two [if self.is_running] tests
    see it: [stop] may have been called from the UI thread any time
    before the task returned or raised. *)
Definition run (w : t) : Eff.M run_state unit :=
  emit (progress ("Starting task: " ++ task_name w ++ "...")) ;;;
  Eff.try_finally
    (Eff.try_except
       (result <- call_task w ;;
        Eff.when_ (is_running w) (emit (finished result "")))
       (fun e =>
          emit (logged ERROR ("Error in worker task '" ++ task_name w
                              ++ "': " ++ exc_str e)) ;;;
          Eff.when_ (is_running w)
                    (emit (finished JNull (exc_str e)))))
    (emit (progress ("Task finished: " ++ task_name w))).

(** The [finished] emissions of a run, in order. *)
Definition finished_of (l : list emission) : list (json * string) :=
  flat_map (fun e => match e with
                     | finished r err => [(r, err)]
                     | _ => []
                     end) l.

Definition start (wd : World) : run_state :=
  {| emitted := []; world := wd |}.

End Worker.

End ApiWorker.

(* ===================================================================== *)
(** ** core/api_client.py: ApiClient.api_request *)
(* ===================================================================== *)

Module Http.

Inductive verb : Type := GET | POST | PUT | DELETE.

(** One call of [session.get], [session.post], [session.put] or
[session.delete], with the arguments [api_request] passes. *)
Record request : Type := {
  req_verb : verb;
  req_url : string;
  req_headers : list (string * string);
  req_params : option dict;
  req_json : option dict;
  req_timeout : nat
}.

(** A response that passed [raise_for_status]. *)
Record response : Type := {
  status_code : nat;
  content_empty : bool;
  json_body : outcome json
}.

(** The other end of the session: its answer to a request, given the
requests sent before it.  [Raised] stands for a transport failure and for
the [HTTPError] of [raise_for_status]. *)
Definition network : Type := list request -> request -> outcome response.

End Http.

(* ===================================================================== *)
(** ** plugins/plugin_arr_base.py: the worker-side tasks *)
(* ===================================================================== *)

Module Task.

Import Http.

(** The three tab classes of the repository: Sonarr instantiates [ArrTab]
itself, Radarr and Lidarr subclass it. *)
Inductive tab_class : Type := ArrTab | RadarrTab | LidarrTab.

(** A resolved candidate together with the destination read when it was
selected (the dict built by [on_item_selected]). *)
Record item_data : Type := {
  item_json : dict;
  root_folder_id : json;
  root_folder_path : json;
  quality_profile_id : json;
  search_type : string
}.

(** The collaborators a task reads: the settings store, the credential
vault, the HTTP session and the client's default timeout. *)
Record Env : Type := {
  qsettings : string -> option json;
  keyring_password : string -> option string;
  net : network;
  client_timeout : nat
}.

(** What a task leaves behind: the requests it sent, in order, and the
lines it logged on the tab's logger. *)
Record state : Type := {
  sent : list request;
  logs : list (level * string)
}.

Definition M (A : Type) : Type := Eff.M state A.

Definition log (lvl : level) (msg : string) : M unit :=
Eff.modify (fun s => {| sent := sent s; logs := logs s ++ [(lvl, msg)] |}).

#[local] Open Scope eff_scope.
#[local] Open Scope string_scope.

Section Tasks.

Context `{Runtime}.
Variable env : Env.

(** [session.<verb>(...)] followed by [response.raise_for_status()]. *)
Definition send (r : request) : M response :=
fun s => (net env (sent s) r,
          {| sent := (sent s ++ [r])%list; logs := logs s |}).

(** [SettingsManager.get_plugin_setting]. *)
Definition get_plugin_setting (plugin_name key : string) (default : json)
  : json :=
let value := match qsettings env (plugin_name ++ "/" ++ key) with
             | Some v => v
             | None => default
             end in
match default, value with
| JBool _, JStr s => JBool (String.eqb (lower s) "true")
| _, _ => value
end.

(** [SecureStorage.get_credential]. *)
Definition get_credential (key : string) : json :=
match keyring_password env key with
| Some p => JStr p
| None => JNull
end.

(** [ApiClient.api_request]; the module's own debug and error log lines
are not recorded. *)
Definition api_request (url api_key service_name : string)
  (params : option dict) (method : string) (json_payload : option dict)
  (timeout : option nat) : M json :=
let headers :=
  if str_empty api_key then []
  else if String.eqb (lower service_name) "jellyfin"
       then [("X-Emby-Token", api_key)]
       else [("X-Api-Key", api_key)] in
let request_timeout :=
  match timeout with Some t => t | None => client_timeout env end in
let json_headers := (headers ++ [("Content-Type", "application/json")])%list in
response <-
  (if String.eqb (upper method) "GET" then
     send {| req_verb := GET; req_url := url; req_headers := headers;
             req_params := params; req_json := None;
             req_timeout := request_timeout |}
   else if String.eqb (upper method) "POST" then
     send {| req_verb := POST; req_url := url; req_headers := json_headers;
             req_params := params; req_json := json_payload;
             req_timeout := request_timeout |}
   else if String.eqb (upper method) "PUT" then
     send {| req_verb := PUT; req_url := url; req_headers := json_headers;
             req_params := params; req_json := json_payload;
             req_timeout := request_timeout |}
   else if String.eqb (upper method) "DELETE" then
     send {| req_verb := DELETE; req_url := url; req_headers := headers;
             req_params := params; req_json := None;
             req_timeout := request_timeout |}
   else Eff.raise (ValueError ("Unsupported HTTP method: " ++ method))) ;;
if (status_code response =? 201)%nat || (status_code response =? 204)%nat then
  Eff.ret (JDict [("status", JStr "success");
                  ("message", JStr ("Status Code "
                                    ++ str_of_nat (status_code response)))])
else if content_empty response then
  Eff.ret (JDict [("status", JStr "success")])
else
  fun s => (json_body response, s).

(** What [api_request] returns for the session's answer. *)
Definition read_answer (o : outcome response) : outcome json :=
match o with
| Raised e => Raised e
| Returned response =>
    if (status_code response =? 201)%nat
       || (status_code response =? 204)%nat
    then Returned (JDict [("status", JStr "success");
                          ("message",
                           JStr ("Status Code "
                                 ++ str_of_nat (status_code response)))])
    else if content_empty response
         then Returned (JDict [("status", JStr "success")])
         else json_body response
end.

Definition headers_for (api_key service_name : string)
  : list (string * string) :=
if str_empty api_key then []
else if String.eqb (lower service_name) "jellyfin"
     then [("X-Emby-Token", api_key)]
     else [("X-Api-Key", api_key)].

(** *** Attribute access and iteration on decoded values *)

Definition type_name (v : json) : string :=
match v with
| JNull => "NoneType"
| JBool _ => "bool"
| JInt _ => "int"
| JStr _ => "str"
| JList _ => "list"
| JDict _ => "dict"
end.

(** [v.get(k, default)]: only a dict has [get]. *)
Definition attr_get_default (v : json) (k : string) (default : json) : M json :=
match v with
| JDict d => Eff.ret (get_default d k default)
| _ => Eff.raise (AttributeError ("'" ++ type_name v
                                  ++ "' object has no attribute 'get'"))
end.

Definition attr_get (v : json) (k : string) : M json :=
attr_get_default v k JNull.

Fixpoint chars (s : string) : list json :=
match s with
| EmptyString => []
| String c s' => JStr (String c EmptyString) :: chars s'
end.

(** [for item in v]. *)
Definition iterate (v : json) : M (list json) :=
match v with
| JList l => Eff.ret l
| JStr s => Eff.ret (chars s)
| JDict d => Eff.ret (map (fun kv => JStr (fst kv)) d)
| _ => Eff.raise (TypeError ("'" ++ type_name v ++ "' object is not iterable"))
end.

(** [v[:10]]. *)
Definition slice10 (v : json) : M json :=
match v with
| JList l => Eff.ret (JList (firstn 10 l))
| JStr s => Eff.ret (JStr (substring 0 10 s))
| _ => Eff.raise (TypeError ("'" ++ type_name v
                             ++ "' object is not subscriptable"))
end.

(** *** The tab whose task runs *)

Variable cls : tab_class.
Variable service_name : string.

(** The overridable properties. *)
Definition api_version : string :=
match cls with
| ArrTab => "v3"
| RadarrTab => "v3"
| LidarrTab => "v1"
end.

Definition item_search_endpoint : string :=
match cls with
| ArrTab => "movie/lookup"
| RadarrTab => "movie/lookup"
| LidarrTab => ""
end.

Definition item_add_endpoint : string :=
match cls with
| ArrTab => "movie"
| RadarrTab => "movie"
| LidarrTab => "artist"
end.

(** [_get_arr_base_url]. *)
Definition _get_arr_base_url : M (string * string) :=
let base_url := get_plugin_setting service_name "url" JNull in
let api_key := get_credential (service_name ++ "_api_key") in
if negb (truthy base_url) || negb (truthy api_key) then
  Eff.raise (ValueError (service_name
                         ++ " URL or API Key is not set in settings."))
else
  match base_url, api_key with
  | JStr u, JStr k => Eff.ret (rstrip_slash u, k)
  | _, _ => Eff.raise (AttributeError ("'" ++ type_name base_url
                                       ++ "' object has no attribute 'rstrip'"))
  end.

(** The URL [f"{base_url}/api/{self.api_version}/{path}"]. *)
Definition api_url (base_url path : string) : string :=
base_url ++ "/api/" ++ api_version ++ "/" ++ path.

(** [_task_get_status]. *)
Definition _task_get_status : M json :=
cfg <- _get_arr_base_url ;;
Eff.try_except
  (response <- api_request (api_url (fst cfg) "system/status") (snd cfg)
                 service_name None "GET" None None ;;
   version <- attr_get_default response "version" (JStr "Unknown") ;;
   log INFO (title_of service_name ++ " is UP. Version: " ++ str_of version) ;;;
   Eff.ret (JDict [("status", JStr "up"); ("data", response)]))
  (fun e =>
     log ERROR (title_of service_name ++ " is DOWN or unreachable: "
                ++ exc_str e) ;;;
     Eff.ret (JDict [("status", JStr "down"); ("error", JStr (exc_str e))])).

(** [_task_get_root_folders]. *)
Definition _task_get_root_folders : M json :=
cfg <- _get_arr_base_url ;;
response <- api_request (api_url (fst cfg) "rootfolder") (snd cfg)
              service_name None "GET" None None ;;
Eff.ret (if truthy response then response else JList []).

(** [_task_get_quality_profiles]. *)
Definition _task_get_quality_profiles : M json :=
cfg <- _get_arr_base_url ;;
response <- api_request (api_url (fst cfg) "qualityprofile") (snd cfg)
              service_name None "GET" None None ;;
Eff.ret (if truthy response then response else JList []).

(** [_task_prowlarr_search]. *)
Definition _task_prowlarr_search (query : string) : M json :=
prowlarr_url <-
  match get_plugin_setting "prowlarr" "url" JNull with
  | JStr u => Eff.ret (rstrip_slash u)
  | v => Eff.raise (AttributeError ("'" ++ type_name v
                                    ++ "' object has no attribute 'rstrip'"))
  end ;;
let prowlarr_api := get_credential "prowlarr_api_key" in
if str_empty prowlarr_url || negb (truthy prowlarr_api)
   || negb (truthy (get_plugin_setting "prowlarr" "enabled" (JBool false)))
then Eff.raise (ValueError "Prowlarr not enabled or configured.")
else
  let media_type := if String.eqb service_name "sonarr" then "tv" else "movie" in
  let categories := if String.eqb media_type "movie" then "2000" else "5000" in
  let params := [("query", JStr query); ("categories", JStr categories);
                 ("type", JStr "search")] in
  api_request (prowlarr_url ++ "/api/v1/search")
              (match prowlarr_api with JStr k => k | _ => "" end)
              "prowlarr" (Some params) "GET" None (Some 30).

(** The identifier one Prowlarr result is looked up by, if any: the body
of the loop of [_task_prowlarr_to_arr_lookup] down to [lookup_id]. *)
Definition lookup_id_of (item : json) : M (option string) :=
is_tvdb <-
  (if String.eqb service_name "sonarr"
   then v <- attr_get item "tvdbId" ;; Eff.ret (truthy v)
   else Eff.ret false) ;;
if is_tvdb then
  v <- attr_get item "tvdbId" ;; Eff.ret (Some ("tvdb:" ++ str_of v))
else if String.eqb service_name "radarr" then
  tmdb <- attr_get item "tmdbId" ;;
  if truthy tmdb then Eff.ret (Some ("tmdb:" ++ str_of tmdb))
  else
    imdb <- attr_get item "imdbId" ;;
    if truthy imdb then Eff.ret (Some ("imdb:" ++ str_of imdb))
    else Eff.ret None
else Eff.ret None.

(** [lookup_id in seen_ids]. *)
Definition seen (lookup_id : string) (seen_ids : list string) : bool :=
existsb (String.eqb lookup_id) seen_ids.

(** The [try] statement of the loop: one lookup, its first hit appended
when the answer is a non-empty list, the results left alone when the
lookup raises. *)
Definition lookup_one (cfg : string * string) (lookup_id : string)
  (arr_results : list json) : M (list json) :=
Eff.try_except
  (arr_lookup <- api_request (api_url (fst cfg) item_search_endpoint)
                   (snd cfg) service_name
                   (Some [("term", JStr lookup_id)]) "GET" None (Some 10) ;;
   match arr_lookup with
   | JList (first :: _) => Eff.ret (arr_results ++ [first])%list
   | _ => Eff.ret arr_results
   end)
  (fun _ => Eff.ret arr_results).

(** The [for] loop of [_task_prowlarr_to_arr_lookup]. *)
Fixpoint lookup_loop (cfg : string * string) (items : list json)
  (arr_results : list json) (seen_ids : list string) : M (list json) :=
match items with
| [] => Eff.ret arr_results
| item :: rest =>
    lookup_id <- lookup_id_of item ;;
    match lookup_id with
    | None => lookup_loop cfg rest arr_results seen_ids
    | Some id =>
        if seen id seen_ids then lookup_loop cfg rest arr_results seen_ids
        else
          arr_results' <- lookup_one cfg id arr_results ;;
          lookup_loop cfg rest arr_results' (id :: seen_ids)
    end
end.

(** [_task_prowlarr_to_arr_lookup]. *)
Definition _task_prowlarr_to_arr_lookup (prowlarr_results : json)
  : M (list json) :=
cfg <- _get_arr_base_url ;;
first10 <- slice10 prowlarr_results ;;
items <- iterate first10 ;;
lookup_loop cfg items [] [].





(** [LidarrTab._task_search_item]. *)
Definition LidarrTab_task_search_item (term search_type : string) : M json :=
cfg <- _get_arr_base_url ;;
response <-
  (if String.eqb search_type "album" then
     log INFO ("Lidarr searching for ALBUM: " ++ term ++ "...") ;;;
     api_request (fst cfg ++ "/api/v1/album/lookup") (snd cfg) service_name
                 (Some [("term", JStr term)]) "GET" None None
   else
     log INFO ("Lidarr searching for ARTIST: " ++ term ++ "...") ;;;
     response <- api_request (fst cfg ++ "/api/v1/search") (snd cfg)
                   service_name (Some [("term", JStr term)]) "GET" None None ;;
     items <- iterate response ;;
     artists <-
       (fix unwrap (l : list json) : M (list json) :=
          match l with
          | [] => Eff.ret []
          | item :: l' =>
              a <- attr_get item "artist" ;;
              if truthy a
              then (a' <- attr_get item "artist" ;;
                    rest <- unwrap l' ;; Eff.ret (a' :: rest))
              else unwrap l'
          end) items ;;
     Eff.ret (JList artists)) ;;
Eff.ret (if truthy response then response else JList []).


(** [{k: item_json[k] for k in keys if k in item_json}]. *)
Definition pick (item_json : dict) (keys : list string) : dict :=
flat_map (fun k => if has_key item_json k then [(k, get item_json k)] else [])
         keys.

(** [ArrTab._build_add_payload], which [RadarrTab] repeats word for word. *)
Definition ArrTab_build_add_payload (item_json : dict) (item : item_data)
  : M dict :=
Eff.ret (update
           [("tmdbId", get item_json "tmdbId");
            ("title", get item_json "title");
            ("qualityProfileId", quality_profile_id item);
            ("rootFolderPath", root_folder_path item);
            ("monitored", JBool true);
            ("addOptions", JDict [("searchForMovie", JBool true)])]
           (pick item_json ["titleSlug"; "images"; "year"])).

Definition album_error : Exception :=
ValueError "Adding albums directly is not supported by this tool. Please search for and add the artist.".

(** [LidarrTab._build_add_payload]. *)
Definition LidarrTab_build_add_payload (item_json : dict) (item : item_data)
  : M dict :=
if String.eqb (search_type item) "album" then Eff.raise album_error
else
  Eff.ret (update
             [("foreignArtistId", get item_json "foreignArtistId");
              ("artistName", get item_json "artistName");
              ("qualityProfileId", quality_profile_id item);
              ("metadataProfileId", JInt 1);
              ("rootFolderPath", root_folder_path item);
              ("monitored", JBool true);
              ("addOptions", JDict [("searchForMissingAlbums", JBool true);
                                    ("monitor", JStr "all")])]
             (pick item_json ["artistName"; "foreignArtistId"; "images"])).

(** [_build_add_payload], by the class of the tab. *)
Definition _build_add_payload (item_json : dict) (item : item_data) : M dict :=
match cls with
| LidarrTab => LidarrTab_build_add_payload item_json item
| _ => ArrTab_build_add_payload item_json item
end.

(** [_task_add_item]. *)
Definition _task_add_item (item : item_data) : M json :=
cfg <- _get_arr_base_url ;;
payload <- _build_add_payload (item_json item) item ;;
api_request (api_url (fst cfg) item_add_endpoint) (snd cfg) service_name
            None "POST" (Some payload) None.

End Tasks.

Definition start : state := {| sent := []; logs := [] |}.



(** The requests of a trace that create something. *)
Definition posts (l : list request) : list request :=
filter (fun r => match req_verb r with POST => true | _ => false end) l.

End Task.

(* ===================================================================== *)
(** ** plugins/plugin_arr_base.py: the tab, on the UI thread *)
(* ===================================================================== *)

Module Tab.

Import Task.
#[local] Open Scope string_scope.

(** The four thread attributes of a tab ([status_thread],
[folders_thread], [profiles_thread], [search_thread]); the worker
attribute of each is set and cleared together with it. *)
Inductive slot : Type := Status | Folders | Profiles | Search.

(** The task functions a worker is given, with their keyword arguments. *)
Inductive task : Type :=
| get_status
| get_root_folders
| get_quality_profiles
| search_item (term search_type : string)
| add_item (item : item_data).

(** The [on_finished_slot] a worker is connected to. *)
Inductive callback : Type :=
| status_finished
| root_folders_finished
| quality_profiles_finished
| search_finished
| add_finished.

(** A started [QThread] with its [ApiWorker]. *)
Record worker : Type := {
  w_id : nat;
  w_slot : slot;
  w_task : task;
  w_callback : callback
}.

Inductive box : Type := warning | critical | information.

(** What the tab does to the outside, in order. *)
Inductive effect : Type :=
| Logged (lvl : level) (msg : string)
| MessageBox (kind : box) (title text : string)
| Chooser (search_term : string) (results : list dict) (search_type : string)
| Published (event_name : string) (args : list json)
| Started (w : worker).

(** A [QComboBox], by the user data of its entries (the texts shown are
not read back by any code). *)
Record combo : Type := {
  entries : list dict;
  current_index : nat
}.

Definition count (c : combo) : nat := List.length (entries c).

Definition currentData (c : combo) : option dict :=
nth_error (entries c) (current_index c).

Definition clear (c : combo) : combo :=
{| entries := []; current_index := 0 |}.

Definition addItem (c : combo) (data : dict) : combo :=
{| entries := (entries c ++ [data])%list; current_index := current_index c |}.

(** [ArrTab], and [LidarrTab] when [cls] says so. *)
Record t : Type := {
  cls : tab_class;
  service_name : string;
  status_thread : option worker;
  folders_thread : option worker;
  profiles_thread : option worker;
  search_thread : option worker;
  terms_to_add_queue : list string;
  items_to_add_queue : list item_data;
  terms_to_add_total_count : nat;
  current_search_term : option string;
  current_search_type : string;
  combo_root_folder : combo;
  combo_quality_profile : combo;
  search_input : string;
  btn_check_status : bool;
  btn_refresh_folders : bool;
  btn_refresh_profiles : bool;
  status_label : string;
  next_id : nat;
  trace : list effect
}.

(** Field updates. *)
Definition set_thread (k : slot) (v : option worker) (s : t) : t :=
{| cls := cls s; service_name := service_name s;
   status_thread := match k with Status => v | _ => status_thread s end;
   folders_thread := match k with Folders => v | _ => folders_thread s end;
   profiles_thread := match k with Profiles => v | _ => profiles_thread s end;
   search_thread := match k with Search => v | _ => search_thread s end;
   terms_to_add_queue := terms_to_add_queue s;
   items_to_add_queue := items_to_add_queue s;
   terms_to_add_total_count := terms_to_add_total_count s;
   current_search_term := current_search_term s;
   current_search_type := current_search_type s;
   combo_root_folder := combo_root_folder s;
   combo_quality_profile := combo_quality_profile s;
   search_input := search_input s;
   btn_check_status := btn_check_status s;
   btn_refresh_folders := btn_refresh_folders s;
   btn_refresh_profiles := btn_refresh_profiles s;
   status_label := status_label s;
   next_id := next_id s; trace := trace s |}.

Definition set_terms (v : list string) (s : t) : t :=
{| cls := cls s; service_name := service_name s;
   status_thread := status_thread s; folders_thread := folders_thread s;
   profiles_thread := profiles_thread s; search_thread := search_thread s;
   terms_to_add_queue := v;
   items_to_add_queue := items_to_add_queue s;
   terms_to_add_total_count := terms_to_add_total_count s;
   current_search_term := current_search_term s;
   current_search_type := current_search_type s;
   combo_root_folder := combo_root_folder s;
   combo_quality_profile := combo_quality_profile s;
   search_input := search_input s;
   btn_check_status := btn_check_status s;
   btn_refresh_folders := btn_refresh_folders s;
   btn_refresh_profiles := btn_refresh_profiles s;
   status_label := status_label s;
   next_id := next_id s; trace := trace s |}.

Definition set_items (v : list item_data) (s : t) : t :=
{| cls := cls s; service_name := service_name s;
   status_thread := status_thread s; folders_thread := folders_thread s;
   profiles_thread := profiles_thread s; search_thread := search_thread s;
   terms_to_add_queue := terms_to_add_queue s;
   items_to_add_queue := v;
   terms_to_add_total_count := terms_to_add_total_count s;
   current_search_term := current_search_term s;
   current_search_type := current_search_type s;
   combo_root_folder := combo_root_folder s;
   combo_quality_profile := combo_quality_profile s;
   search_input := search_input s;
   btn_check_status := btn_check_status s;
   btn_refresh_folders := btn_refresh_folders s;
   btn_refresh_profiles := btn_refresh_profiles s;
   status_label := status_label s;
   next_id := next_id s; trace := trace s |}.

Definition set_total (v : nat) (s : t) : t :=
{| cls := cls s; service_name := service_name s;
   status_thread := status_thread s; folders_thread := folders_thread s;
   profiles_thread := profiles_thread s; search_thread := search_thread s;
   terms_to_add_queue := terms_to_add_queue s;
   items_to_add_queue := items_to_add_queue s;
   terms_to_add_total_count := v;
   current_search_term := current_search_term s;
   current_search_type := current_search_type s;
   combo_root_folder := combo_root_folder s;
   combo_quality_profile := combo_quality_profile s;
   search_input := search_input s;
   btn_check_status := btn_check_status s;
   btn_refresh_folders := btn_refresh_folders s;
   btn_refresh_profiles := btn_refresh_profiles s;
   status_label := status_label s;
   next_id := next_id s; trace := trace s |}.

Definition set_search_term (v : option string) (s : t) : t :=
{| cls := cls s; service_name := service_name s;
   status_thread := status_thread s; folders_thread := folders_thread s;
   profiles_thread := profiles_thread s; search_thread := search_thread s;
   terms_to_add_queue := terms_to_add_queue s;
   items_to_add_queue := items_to_add_queue s;
   terms_to_add_total_count := terms_to_add_total_count s;
   current_search_term := v;
   current_search_type := current_search_type s;
   combo_root_folder := combo_root_folder s;
   combo_quality_profile := combo_quality_profile s;
   search_input := search_input s;
   btn_check_status := btn_check_status s;
   btn_refresh_folders := btn_refresh_folders s;
   btn_refresh_profiles := btn_refresh_profiles s;
   status_label := status_label s;
   next_id := next_id s; trace := trace s |}.

Definition set_search_type (v : string) (s : t) : t :=
{| cls := cls s; service_name := service_name s;
   status_thread := status_thread s; folders_thread := folders_thread s;
   profiles_thread := profiles_thread s; search_thread := search_thread s;
   terms_to_add_queue := terms_to_add_queue s;
   items_to_add_queue := items_to_add_queue s;
   terms_to_add_total_count := terms_to_add_total_count s;
   current_search_term := current_search_term s;
   current_search_type := v;
   combo_root_folder := combo_root_folder s;
   combo_quality_profile := combo_quality_profile s;
   search_input := search_input s;
   btn_check_status := btn_check_status s;
   btn_refresh_folders := btn_refresh_folders s;
   btn_refresh_profiles := btn_refresh_profiles s;
   status_label := status_label s;
   next_id := next_id s; trace := trace s |}.

Definition set_root_folder (v : combo) (s : t) : t :=
{| cls := cls s; service_name := service_name s;
   status_thread := status_thread s; folders_thread := folders_thread s;
   profiles_thread := profiles_thread s; search_thread := search_thread s;
   terms_to_add_queue := terms_to_add_queue s;
   items_to_add_queue := items_to_add_queue s;
   terms_to_add_total_count := terms_to_add_total_count s;
   current_search_term := current_search_term s;
   current_search_type := current_search_type s;
   combo_root_folder := v;
   combo_quality_profile := combo_quality_profile s;
   search_input := search_input s;
   btn_check_status := btn_check_status s;
   btn_refresh_folders := btn_refresh_folders s;
   btn_refresh_profiles := btn_refresh_profiles s;
   status_label := status_label s;
   next_id := next_id s; trace := trace s |}.

Definition set_quality_profile (v : combo) (s : t) : t :=
{| cls := cls s; service_name := service_name s;
   status_thread := status_thread s; folders_thread := folders_thread s;
   profiles_thread := profiles_thread s; search_thread := search_thread s;
   terms_to_add_queue := terms_to_add_queue s;
   items_to_add_queue := items_to_add_queue s;
   terms_to_add_total_count := terms_to_add_total_count s;
   current_search_term := current_search_term s;
   current_search_type := current_search_type s;
   combo_root_folder := combo_root_folder s;
   combo_quality_profile := v;
   search_input := search_input s;
   btn_check_status := btn_check_status s;
   btn_refresh_folders := btn_refresh_folders s;
   btn_refresh_profiles := btn_refresh_profiles s;
   status_label := status_label s;
   next_id := next_id s; trace := trace s |}.

Definition set_search_input (v : string) (s : t) : t :=
{| cls := cls s; service_name := service_name s;
   status_thread := status_thread s; folders_thread := folders_thread s;
   profiles_thread := profiles_thread s; search_thread := search_thread s;
   terms_to_add_queue := terms_to_add_queue s;
   items_to_add_queue := items_to_add_queue s;
   terms_to_add_total_count := terms_to_add_total_count s;
   current_search_term := current_search_term s;
   current_search_type := current_search_type s;
   combo_root_folder := combo_root_folder s;
   combo_quality_profile := combo_quality_profile s;
   search_input := v;
   btn_check_status := btn_check_status s;
   btn_refresh_folders := btn_refresh_folders s;
   btn_refresh_profiles := btn_refresh_profiles s;
   status_label := status_label s;
   next_id := next_id s; trace := trace s |}.

(** The three buttons and the status label. *)
Definition set_widgets (check folders profiles : bool) (label : string)
  (s : t) : t :=
{| cls := cls s; service_name := service_name s;
   status_thread := status_thread s; folders_thread := folders_thread s;
   profiles_thread := profiles_thread s; search_thread := search_thread s;
   terms_to_add_queue := terms_to_add_queue s;
   items_to_add_queue := items_to_add_queue s;
   terms_to_add_total_count := terms_to_add_total_count s;
   current_search_term := current_search_term s;
   current_search_type := current_search_type s;
   combo_root_folder := combo_root_folder s;
   combo_quality_profile := combo_quality_profile s;
   search_input := search_input s;
   btn_check_status := check;
   btn_refresh_folders := folders;
   btn_refresh_profiles := profiles;
   status_label := label;
   next_id := next_id s; trace := trace s |}.

Definition set_next_id (v : nat) (s : t) : t :=
{| cls := cls s; service_name := service_name s;
   status_thread := status_thread s; folders_thread := folders_thread s;
   profiles_thread := profiles_thread s; search_thread := search_thread s;
   terms_to_add_queue := terms_to_add_queue s;
   items_to_add_queue := items_to_add_queue s;
   terms_to_add_total_count := terms_to_add_total_count s;
   current_search_term := current_search_term s;
   current_search_type := current_search_type s;
   combo_root_folder := combo_root_folder s;
   combo_quality_profile := combo_quality_profile s;
   search_input := search_input s;
   btn_check_status := btn_check_status s;
   btn_refresh_folders := btn_refresh_folders s;
   btn_refresh_profiles := btn_refresh_profiles s;
   status_label := status_label s;
   next_id := v; trace := trace s |}.

(** One more effect at the end of the trace. *)
Definition does (e : effect) (s : t) : t :=
{| cls := cls s; service_name := service_name s;
   status_thread := status_thread s; folders_thread := folders_thread s;
   profiles_thread := profiles_thread s; search_thread := search_thread s;
   terms_to_add_queue := terms_to_add_queue s;
   items_to_add_queue := items_to_add_queue s;
   terms_to_add_total_count := terms_to_add_total_count s;
   current_search_term := current_search_term s;
   current_search_type := current_search_type s;
   combo_root_folder := combo_root_folder s;
   combo_quality_profile := combo_quality_profile s;
   search_input := search_input s;
   btn_check_status := btn_check_status s;
   btn_refresh_folders := btn_refresh_folders s;
   btn_refresh_profiles := btn_refresh_profiles s;
   status_label := status_label s;
   next_id := next_id s; trace := (trace s ++ [e])%list |}.

Definition thread_of (k : slot) (s : t) : option worker :=
match k with
| Status => status_thread s
| Folders => folders_thread s
| Profiles => profiles_thread s
| Search => search_thread s
end.

Definition thread_attr (k : slot) : string :=
match k with
| Status => "status_thread"
| Folders => "folders_thread"
| Profiles => "profiles_thread"
| Search => "search_thread"
end%string.

(** ["\n"]. *)
Definition nl : string := String (ascii_of_nat 10) EmptyString.

Definition is_space (c : ascii) : bool :=
let n := nat_of_ascii c in
((n =? 32) || ((9 <=? n) && (n <=? 13)) || ((28 <=? n) && (n <=? 31)))%nat.

Fixpoint lstrip (s : string) : string :=
match s with
| EmptyString => EmptyString
| String c s' => if is_space c then lstrip s' else s
end.

Fixpoint rstrip (s : string) : string :=
match s with
| EmptyString => EmptyString
| String c s' =>
    match rstrip s' with
    | EmptyString => if is_space c then EmptyString else String c EmptyString
    | r => String c r
    end
end.

(** [s.strip()], on ASCII text. *)
Definition strip (s : string) : string := rstrip (lstrip s).

(** What the user did with the [SelectionDialog]: the value of
[dialog.exec()] and of [dialog.get_selected_items()]. *)
Record answer : Type := {
  accepted : bool;
  selected_items : list dict
}.

Section Handlers.

Context `{Runtime}.

(** [__init__] (the widgets start empty; [LidarrTab.__init__] sets the
search type to "artist"). *)
Definition init (c : tab_class) (name : string) : t :=
{| cls := c; service_name := name;
   status_thread := None; folders_thread := None;
   profiles_thread := None; search_thread := None;
   terms_to_add_queue := []; items_to_add_queue := [];
   terms_to_add_total_count := 0;
   current_search_term := None;
   current_search_type := match c with LidarrTab => "artist" | _ => "item" end;
   combo_root_folder := clear {| entries := []; current_index := 0 |};
   combo_quality_profile := clear {| entries := []; current_index := 0 |};
   search_input := "";
   btn_check_status := true; btn_refresh_folders := true;
   btn_refresh_profiles := true;
   status_label := "Unknown";
   next_id := 0; trace := [] |}.

Definition log (lvl : level) (msg : string) (s : t) : t := does (Logged lvl msg) s.

(** [EventBus.publish] of an event the bus declares. *)
Definition publish (event_name : string) (args : list json) (s : t) : t :=
does (Published event_name args) s.

(** [_start_worker]. *)
Definition _start_worker (k : slot) (tk : task) (cb : callback) (s : t) : t :=
match thread_of k s with
| Some _ => log WARNING ("Task for " ++ thread_attr k ++ " is already running.") s
| None =>
    let w := {| w_id := next_id s; w_slot := k; w_task := tk;
                w_callback := cb |} in
    does (Started w) (set_next_id (S (next_id s)) (set_thread k (Some w) s))
end.

(** [check_status]. *)
Definition check_status (s : t) : t :=
_start_worker Status get_status status_finished
  (set_widgets false (btn_refresh_folders s) (btn_refresh_profiles s)
               "Checking..." s).

(** [refresh_root_folders]. *)
Definition refresh_root_folders (s : t) : t :=
_start_worker Folders get_root_folders root_folders_finished
  (set_widgets (btn_check_status s) false (btn_refresh_profiles s)
               (status_label s) s).

(** [refresh_quality_profiles]. *)
Definition refresh_quality_profiles (s : t) : t :=
_start_worker Profiles get_quality_profiles quality_profiles_finished
  (set_widgets (btn_check_status s) (btn_refresh_folders s) false
               (status_label s) s).

Definition is_str (v : json) (x : string) : bool :=
match v with JStr y => String.eqb y x | _ => false end.

(** [on_status_finished]. *)
Definition on_status_finished (result : option dict) (error : string)
  (s : t) : t :=
let s := set_widgets true (btn_refresh_folders s) (btn_refresh_profiles s)
                     (status_label s) s in
let down := negb (str_empty error)
            || match result with
               | None => true
               | Some r => is_str (get r "status") "down"
               end in
if down then
  let s := set_widgets (btn_check_status s) (btn_refresh_folders s)
                       (btn_refresh_profiles s) "UNAVAILABLE" s in
  let s := log WARNING (title_of (service_name s)
                        ++ " service is unavailable: " ++ error) s in
  publish "service_status_changed" [JStr (service_name s); JStr "down"] s
else
  let s := set_widgets (btn_check_status s) (btn_refresh_folders s)
                       (btn_refresh_profiles s) "UP" s in
  let s := publish "service_status_changed"
                   [JStr (service_name s); JStr "up"] s in
  refresh_quality_profiles (refresh_root_folders s).

(** [on_root_folders_finished]. *)
Definition on_root_folders_finished (result : option (list dict))
  (error : string) (s : t) : t :=
let s := set_widgets (btn_check_status s) true (btn_refresh_profiles s)
                     (status_label s) s in
match (if str_empty error then result else None) with
| None => log ERROR ("Failed to fetch root folders: " ++ error) s
| Some folders =>
    set_root_folder
      (fold_left (fun c folder =>
                    addItem c [("id", get folder "id");
                               ("path", get folder "path")])
                 folders (clear (combo_root_folder s))) s
end.

(** [on_quality_profiles_finished]. *)
Definition on_quality_profiles_finished (result : option (list dict))
  (error : string) (s : t) : t :=
let s := set_widgets (btn_check_status s) (btn_refresh_folders s) true
                     (status_label s) s in
match (if str_empty error then result else None) with
| None => log ERROR ("Failed to fetch quality profiles: " ++ error) s
| Some profiles =>
    set_quality_profile
      (fold_left (fun c profile => addItem c [("id", get profile "id")])
                 profiles (clear (combo_quality_profile s))) s
end.

(** [_run_search_worker]. *)
Definition _run_search_worker (term : string) (s : t) : t :=
_start_worker Search (search_item term (current_search_type s))
              search_finished s.

(** [_run_add_worker]. *)
Definition _run_add_worker (item : item_data) (s : t) : t :=
_start_worker Search (add_item item) add_finished s.

(** The title a log line shows for a candidate. *)
Definition title_or (item_json : dict) (unknown : string) : json :=
get_default item_json "title"
            (get_default item_json "artistName" (JStr unknown)).

(** [process_next_item_in_queue], the [advance()] of the queue. *)
Definition process_next_item_in_queue (s : t) : t :=
match search_thread s with
| Some _ => log WARNING "Search/add queue is already processing." s
| None =>
    match items_to_add_queue s with
    | item :: rest =>
        let s := set_items rest s in
        let s := log INFO ("Processing ADD for: '"
                           ++ str_of (title_or (item_json item) "Unknown")
                           ++ "'") s in
        _run_add_worker item s
    | [] =>
        match terms_to_add_queue s with
        | term :: rest =>
            let s := set_search_term (Some term) (set_terms rest s) in
            let s := log INFO
                       ("Processing SEARCH "
                        ++ str_of (JInt (Z.of_nat (terms_to_add_total_count s)
                                         - Z.of_nat (List.length rest)))
                        ++ "/" ++ str_of_nat (terms_to_add_total_count s)
                        ++ ": '" ++ term ++ "'") s in
            _run_search_worker term s
        | [] =>
            let s := log INFO "Batch add complete." s in
            if (0 <? terms_to_add_total_count s)%nat then
              set_total 0
                (does (MessageBox information "Complete"
                                  "All items have been processed.") s)
            else s
        end
    end
end.

(** [_validate_inputs]; [search_term] defaults to "N/A". *)
Definition _validate_inputs (search_term : string) (s : t) : bool * t :=
if negb (String.eqb search_term "N/A") && str_empty search_term then
  (false, does (MessageBox warning "No Input"
                           "Please enter a search term.") s)
else if (count (combo_root_folder s) =? 0)%nat then
  (false, does (MessageBox warning "No Root Folder"
                           "Please select a root folder first.") s)
else if (count (combo_quality_profile s) =? 0)%nat then
  (false, does (MessageBox warning "No Quality Profile"
                           "Please select a quality profile first.") s)
else
  (true, set_items [] (set_terms [] s)).

(** [add_from_text], on the text the input line holds. *)
Definition add_from_text (s : t) : t :=
let search_term := strip (search_input s) in
match _validate_inputs search_term s with
| (false, s) => s
| (true, s) =>
    let s := set_total 1 (set_terms [search_term] s) in
    process_next_item_in_queue (set_search_input "" s)
end.

(** The terms of a CSV file: the first column of every row after the
header, stripped, when it is not empty. *)
Definition csv_terms (rows : list (list string)) : list string :=
flat_map (fun row => match row with
                     | [] => []
                     | cell :: _ =>
                         if str_empty (strip cell) then [] else [strip cell]
                     end)
         (tl rows).

(** [import_from_csv]: [file_path] is what the file dialog returned and
[rows] what reading that file gives. *)
Definition import_from_csv (file_path : string)
  (rows : outcome (list (list string))) (s : t) : t :=
if str_empty file_path then s
else
  match _validate_inputs "N/A" s with
  | (false, s) => s
  | (true, s) =>
      match rows with
      | Raised e =>
          does (MessageBox critical "CSV Error"
                           ("Failed to read CSV:" ++ nl ++ exc_str e))
               (log ERROR ("Failed to read CSV: " ++ exc_str e) s)
      | Returned rows =>
          match csv_terms rows with
          | [] => does (MessageBox warning "Empty CSV"
                                   "No valid terms found in CSV.") s
          | terms =>
              let s := set_total (List.length terms) (set_terms terms s) in
              let s := log INFO ("Loaded " ++ str_of_nat (List.length terms)
                                 ++ " terms from CSV. Starting batch add...") s in
              process_next_item_in_queue s
          end
      end
  end.

(** [on_item_selected]. *)
Definition on_item_selected (item_json : dict) (s : t) : t :=
match currentData (combo_root_folder s),
      currentData (combo_quality_profile s) with
| Some ((_ :: _) as root_data), Some ((_ :: _) as profile_data) =>
    let item := {| item_json := item_json;
                   root_folder_id := get root_data "id";
                   root_folder_path := get root_data "path";
                   quality_profile_id := get profile_data "id";
                   search_type := current_search_type s |} in
    let s := set_items (items_to_add_queue s ++ [item])%list s in
    log INFO ("Queued item for adding: '"
              ++ str_of (title_or item_json "Unknown") ++ "'") s
| _, _ => log ERROR "Root folder or quality profile not selected properly." s
end.

Definition shown (term : option string) : string :=
match term with
| Some x => x
| None => str_of JNull
end.

(** [on_search_finished]; [dlg] is what the user does with the chooser
if one is opened. *)
Definition on_search_finished (result : option (list dict)) (error : string)
  (dlg : answer) (s : t) : t :=
let term := shown (current_search_term s) in
let s :=
  match (if str_empty error then result else None) with
  | None =>
      does (MessageBox critical "Search Error"
                       ("Search failed for '" ++ term ++ "':" ++ nl ++ error))
           (log ERROR ("Search failed for '" ++ term ++ "': " ++ error) s)
  | Some [] =>
      log WARNING ("No results found for '" ++ term ++ "'. Skipping.") s
  | Some [only] =>
      on_item_selected only
        (log INFO ("Found 1 result for '" ++ term
                   ++ "'. Auto-queueing for add.") s)
  | Some results =>
      let s := log INFO ("Found " ++ str_of_nat (List.length results)
                         ++ " results for '" ++ term ++ "'. Asking user.") s in
      let s := does (Chooser term results (current_search_type s)) s in
      if accepted dlg then
        match selected_items dlg with
        | [] => log WARNING "User closed dialog without selection. Skipping." s
        | selected => fold_left (fun s item => on_item_selected item s)
                                selected s
        end
      else log WARNING "User cancelled selection. Skipping." s
  end in
process_next_item_in_queue s.

(** The test of [on_add_finished] for an item the service already has. *)
Definition already_exists (error : string) : bool :=
contains "400" error
&& (contains "already" (lower error) || contains "exist" (lower error)).

(** [on_add_finished]. *)
Definition on_add_finished (result : option dict) (error : string)
  (s : t) : t :=
let s :=
  match (if str_empty error then result else None) with
  | None =>
      if already_exists error then
        log WARNING ("Item already exists in " ++ service_name s
                     ++ ". Skipping.") s
      else
        does (MessageBox critical "Add Error"
                         ("Failed to add item:" ++ nl ++ error))
             (log ERROR ("Failed to add item: " ++ error) s)
  | Some r =>
      let s := log INFO ("Successfully added '"
                         ++ str_of (title_or r "Unknown Item") ++ "'.") s in
      publish "item_added" [JStr (service_name s); JDict r] s
  end in
process_next_item_in_queue s.

(** [start_search_and_add]. *)
Definition start_search_and_add (search_term : string)
  (search_type : option string) (s : t) : t :=
if str_empty search_term then s
else
  match _validate_inputs search_term s with
  | (false, s) => s
  | (true, s) =>
      let s := match search_type with
               | Some ty => if str_empty ty then s else set_search_type ty s
               | None => s
               end in
      process_next_item_in_queue (set_total 1 (set_terms [search_term] s))
  end.

(** [_on_add_request], the slot of the bus event "add_to_arr_requested". *)
Definition _on_add_request (name search_term search_type : string) (s : t)
  : t :=
if String.eqb (lower name) (lower (service_name s)) then
  start_search_and_add search_term (Some search_type)
    (log INFO ("'" ++ service_name s
               ++ "' tab handling event bus request for '"
               ++ search_term ++ "'") s)
else s.

(** The destination [on_item_selected] reads off the two combo boxes,
when both have a current entry with data. *)
Definition destination (s : t) : option (dict * dict) :=
match currentData (combo_root_folder s),
      currentData (combo_quality_profile s) with
| Some ((_ :: _) as root_data), Some ((_ :: _) as profile_data) =>
    Some (root_data, profile_data)
| _, _ => None
end.

(** The dict [on_item_selected] queues for a candidate. *)
Definition pending (s : t) (to : dict * dict) (item_json : dict) : item_data :=
{| item_json := item_json;
   root_folder_id := get (fst to) "id";
   root_folder_path := get (fst to) "path";
   quality_profile_id := get (snd to) "id";
   search_type := current_search_type s |}.

(** The chooser dialogs of a trace. *)
Definition choosers (tr : list effect) : list effect :=
filter (fun e => match e with Chooser _ _ _ => true | _ => false end) tr.

(** The message boxes of a trace. *)
Definition boxes (tr : list effect) : list effect :=
filter (fun e => match e with MessageBox _ _ _ => true | _ => false end) tr.

(** Both combo boxes have entries: what [_validate_inputs] asks for. *)
Definition has_destination (s : t) : bool :=
negb (count (combo_root_folder s) =? 0)%nat
&& negb (count (combo_quality_profile s) =? 0)%nat.

(** [LidarrTab._on_search_type_changed]. *)
Definition _on_search_type_changed (text : string) (s : t) : t :=
set_search_type (lower text) s.

End Handlers.

End Tab.

(* ===================================================================== *)
(** ** One tab and its worker threads *)
(* ===================================================================== *)

Module App.

Import Tab.
#[local] Open Scope string_scope.

(** The tab together with what the thread machinery holds for it: which
started workers have returned from [ApiWorker.run], and which [finished]
signals wait to be delivered to the UI thread. *)
Record system : Type := {
  ui : Tab.t;
  returned : list nat;
  posted : list (worker * json * string)
}.

(** The workers a trace started, oldest first. *)
Definition started (tr : list effect) : list worker :=
flat_map (fun e => match e with Started w => [w] | _ => [] end) tr.

Definition has_returned (sys : system) (w : worker) : bool :=
existsb (Nat.eqb (w_id w)) (returned sys).

(** The workers whose task is still running. *)
Definition in_flight (sys : system) : list worker :=
filter (fun w => negb (has_returned sys w)) (started (trace (ui sys))).

Definition slot_eqb (a b : slot) : bool :=
match a, b with
| Status, Status | Folders, Folders | Profiles, Profiles | Search, Search => true
| _, _ => false
end.

(** The workers of one thread attribute whose task is still running. *)
Definition in_flight_on (k : slot) (sys : system) : list worker :=
filter (fun w => slot_eqb (w_slot w) k) (in_flight sys).

(** What the user and the event bus can do to the tab. *)
Inductive action : Type :=
| click_check_status
| click_refresh_folders
| click_refresh_profiles
| edit_search_input (text : string)
| click_add
| pick_csv (file_path : string) (rows : outcome (list (list string)))
| add_to_arr_requested (name search_term search_type : string)
| request_all_status
| select_root_folder (index : nat)
| select_quality_profile (index : nat)
| change_search_type (text : string).

Definition select (index : nat) (c : combo) : combo :=
if (index <? count c)%nat
then {| entries := entries c; current_index := index |}
else c.

(** The result a callback is declared to take, read off the object the
signal carries: [None] when the object is of another type. *)
Definition as_dict (v : json) : option (option dict) :=
match v with
| JNull => Some None
| JDict d => Some (Some d)
| _ => None
end.

Fixpoint dicts_of (l : list json) : option (list dict) :=
match l with
| [] => Some []
| JDict d :: l' =>
    match dicts_of l' with
    | Some ds => Some (d :: ds)
    | None => None
    end
| _ :: _ => None
end.

Definition as_dicts (v : json) : option (option (list dict)) :=
match v with
| JNull => Some None
| JList l =>
    match dicts_of l with
    | Some ds => Some (Some ds)
    | None => None
    end
| _ => None
end.

Section Run.

Context `{Runtime}.

Definition perform (a : action) (s : Tab.t) : Tab.t :=
match a with
| click_check_status => check_status s
| click_refresh_folders => refresh_root_folders s
| click_refresh_profiles => refresh_quality_profiles s
| edit_search_input text => set_search_input text s
| click_add => add_from_text s
| pick_csv file_path rows => import_from_csv file_path rows s
| add_to_arr_requested name term ty => _on_add_request name term ty s
| request_all_status => check_status s
| select_root_folder i => set_root_folder (select i (combo_root_folder s)) s
| select_quality_profile i =>
    set_quality_profile (select i (combo_quality_profile s)) s
| change_search_type text =>
    match cls s with
    | Task.LidarrTab => _on_search_type_changed text s
    | _ => s
    end
end.

(** The slot connected to the worker's [finished] signal, called with
what the signal carries. *)
Definition deliver (w : worker) (result : json) (error : string)
  (dlg : answer) (s : Tab.t) : option Tab.t :=
match w_callback w with
| status_finished =>
    option_map (fun r => on_status_finished r error s) (as_dict result)
| root_folders_finished =>
    option_map (fun r => on_root_folders_finished r error s) (as_dicts result)
| quality_profiles_finished =>
    option_map (fun r => on_quality_profiles_finished r error s)
               (as_dicts result)
| search_finished =>
    option_map (fun r => on_search_finished r error dlg s) (as_dicts result)
| add_finished =>
    option_map (fun r => on_add_finished r error s) (as_dict result)
end.

Definition task_name (tk : task) : string :=
match tk with
| get_status => "_task_get_status"
| get_root_folders => "_task_get_root_folders"
| get_quality_profiles => "_task_get_quality_profiles"
| search_item _ _ => "_task_search_item"
| add_item _ => "_task_add_item"
end.

(** The [finished] signals of the run of [w] when its task ends as [o]:
the tab never calls [stop] on its workers. *)
Definition signals (w : worker) (o : outcome json)
  : list (worker * json * string) :=
map (fun re => (w, fst re, snd re))
    (ApiWorker.finished_of
       (ApiWorker.emitted
          (snd (ApiWorker.run
                  (ApiWorker.init (task_name (w_task w))
                                  (fun wd : unit => (o, wd)))
                  (ApiWorker.start tt))))).

(** One step of the tab and its threads.  Every handler runs to its end
before the next event; the order in which the UI thread sees a worker's
[finished] signal and its thread's [finished] signal is left open. *)
Inductive step : system -> system -> Prop :=
| step_action (a : action) (sys : system) :
    step sys {| ui := perform a (ui sys);
                returned := returned sys;
                posted := posted sys |}
| step_run (w : worker) (o : outcome json) (sys : system) :
    In w (in_flight sys) ->
    step sys {| ui := ui sys;
                returned := w_id w :: returned sys;
                posted := (posted sys ++ signals w o)%list |}
| step_deliver (w : worker) (result : json) (error : string) (dlg : answer)
    (rest : list (worker * json * string)) (ui' : Tab.t) (sys : system) :
    posted sys = (w, result, error) :: rest ->
    deliver w result error dlg (ui sys) = Some ui' ->
    step sys {| ui := ui'; returned := returned sys; posted := rest |}
| step_thread_finished (k : slot) (w : worker) (sys : system) :
    thread_of k (ui sys) = Some w ->
    has_returned sys w = true ->
    step sys {| ui := set_thread k None (ui sys);
                returned := returned sys;
                posted := posted sys |}.

Definition boot (c : Task.tab_class) (name : string) : system :=
{| ui := Tab.init c name; returned := []; posted := [] |}.

(** The states a tab goes through. *)
Inductive reachable (c : Task.tab_class) (name : string) : system -> Prop :=
| reach_boot : reachable c name (boot c name)
| reach_step (sys sys' : system) :
    reachable c name sys -> step sys sys' -> reachable c name sys'.

(** *** Event scripts *)

Inductive event : Type :=
| Act (a : action)
| Return (id : nat) (o : outcome json)
| Deliver (dlg : answer)
| Finish (k : slot).

(** One event of a script, where the system allows it. *)
Definition apply_event (ev : event) (sys : system) : option system :=
match ev with
| Act a =>
    Some {| ui := perform a (ui sys); returned := returned sys;
            posted := posted sys |}
| Return id o =>
    match find (fun w => Nat.eqb (w_id w) id) (in_flight sys) with
    | Some w => Some {| ui := ui sys; returned := w_id w :: returned sys;
                        posted := (posted sys ++ signals w o)%list |}
    | None => None
    end
| Deliver dlg =>
    match posted sys with
    | (w, result, error) :: rest =>
        option_map (fun ui' => {| ui := ui'; returned := returned sys;
                                  posted := rest |})
                   (deliver w result error dlg (ui sys))
    | [] => None
    end
| Finish k =>
    match thread_of k (ui sys) with
    | Some w =>
        if has_returned sys w
        then Some {| ui := set_thread k None (ui sys);
                     returned := returned sys; posted := posted sys |}
        else None
    | None => None
    end
end.

Fixpoint play (script : list event) (sys : system) : option system :=
match script with
| [] => Some sys
| ev :: rest =>
    match apply_event ev sys with
    | Some sys' => play rest sys'
    | None => None
    end
end.

End Run.

(** *** What every handler respects *)

(** [s'] is [s] after some handlers ran: a thread attribute that was set
is still set to the same worker, and every worker started in between has
a fresh number and sits in its thread attribute. *)
Definition grows (s s' : Tab.t) : Prop :=
(forall k w, thread_of k s = Some w -> thread_of k s' = Some w)
/\ next_id s <= next_id s'
/\ exists new,
     started (trace s') = (started (trace s) ++ new)%list
     /\ (forall w, In w new ->
                   thread_of (w_slot w) s' = Some w
                   /\ next_id s <= w_id w /\ w_id w < next_id s')
     /\ NoDup (map w_id new).

(** The bookkeeping of a system is in order: a worker whose task runs
sits in its thread attribute, and no two started workers share a
number. *)
Definition tidy (sys : system) : Prop :=
(forall w, In w (in_flight sys) -> thread_of (w_slot w) (ui sys) = Some w)
/\ NoDup (map w_id (started (trace (ui sys))))
/\ (forall w, In w (started (trace (ui sys))) -> w_id w < next_id (ui sys)).

End App.

(* ===================================================================== *)
(** ** The resolver and the duplicate test, as the specification words
them *)
(* ===================================================================== *)

Module Spec.

Import Http Task.
#[local] Open Scope string_scope.

(** [needle] occurs in [hay]. *)
Definition occurs (needle hay : string) : Prop :=
exists pre post, hay = pre ++ needle ++ post.

(** [word] (in lower case) occurs in [text] whatever the case of the
letters of [text]. *)
Definition occurs_ignoring_case (word text : string) : Prop :=
exists pre w post, text = pre ++ w ++ post /\ lower w = word.

(** "HTTP 400 ... wording indicating the item already exists". *)
Definition duplicate_wording (error : string) : Prop :=
occurs "400" error
/\ (occurs_ignoring_case "already" error
    \/ occurs_ignoring_case "exist" error).

Section Resolver.

Context `{Runtime}.

(** "one external provider identifier per result (tvdb id for Sonarr;
tmdb id, else imdb id, for Radarr)". *)
Definition provider_id (service_name : string) (result : dict)
  : option string :=
if String.eqb service_name "sonarr" then
  if truthy (get result "tvdbId")
  then Some ("tvdb:" ++ str_of (get result "tvdbId")) else None
else if String.eqb service_name "radarr" then
  if truthy (get result "tmdbId")
  then Some ("tmdb:" ++ str_of (get result "tmdbId"))
  else if truthy (get result "imdbId")
       then Some ("imdb:" ++ str_of (get result "imdbId")) else None
else None.

(** "deduplicate by identifier": the first occurrence of each. *)
Fixpoint unique_after (earlier ids : list string) : list string :=
match ids with
| [] => []
| id :: rest =>
    if existsb (String.eqb id) earlier then unique_after earlier rest
    else id :: unique_after (id :: earlier) rest
end.

Definition unique (ids : list string) : list string := unique_after [] ids.

(** The identifiers of "up to the first 10 results". *)
Definition identifiers (service_name : string) (results : list dict)
  : list string :=
unique (flat_map (fun r => match provider_id service_name r with
                           | Some id => [id]
                           | None => []
                           end)
                 (firstn 10 results)).

Variable env : Env.
Variable cls : tab_class.
Variable service_name : string.

(** "one direct lookup ... against the target service" for an
identifier. *)
Definition lookup_request (cfg : string * string) (id : string) : request :=
{| req_verb := GET;
   req_url := api_url cls (fst cfg) (item_search_endpoint cls);
   req_headers := if str_empty (snd cfg) then []
                  else if String.eqb (lower service_name) "jellyfin"
                       then [("X-Emby-Token", snd cfg)]
                       else [("X-Api-Key", snd cfg)];
   req_params := Some [("term", JStr id)];
   req_json := None;
   req_timeout := 10 |}.

(** What the client makes of the answer to a lookup sent after the
requests [history]. *)
Definition lookup_answer (cfg : string * string) (history : list request)
  (id : string) : outcome json :=
fst (api_request env (api_url cls (fst cfg) (item_search_endpoint cls))
                 (snd cfg) service_name (Some [("term", JStr id)])
                 "GET" None (Some 10)
                 {| sent := history; logs := [] |}).

(** "the first hit" of a lookup, none when it raised or found nothing. *)
Definition first_hit (answer : outcome json) : list json :=
match answer with
| Returned (JList (first :: _)) => [first]
| _ => []
end.

(** "collecting the first hit from each", in the order of the
identifiers. *)
Fixpoint first_hits (cfg : string * string) (history : list request)
  (ids : list string) : list json :=
match ids with
| [] => []
| id :: rest =>
    (first_hit (lookup_answer cfg history id)
     ++ first_hits cfg (history ++ [lookup_request cfg id]) rest)%list
end.

End Resolver.

End Spec.

(* ===================================================================== *)
(** ** Concrete inputs for the worked examples *)
(* ===================================================================== *)

Module Example.

Import Http Task Tab.
#[local] Open Scope string_scope.

Definition is_letter (c : ascii) : bool :=
let n := nat_of_ascii c in
(((65 <=? n) && (n <=? 90)) || ((97 <=? n) && (n <=? 122)))%nat.

Fixpoint title_from (after_letter : bool) (s : string) : string :=
match s with
| EmptyString => EmptyString
| String c s' =>
    String (if after_letter then lower_ascii c else upper_ascii c)
           (title_from (is_letter c) s')
end.

(** A runtime that is exact on [None], booleans, integers and ASCII
strings, which is all the examples print. *)
#[export] Instance runtime : Runtime := {|
  str_of := fun v =>
    match v with
    | JNull => "None"
    | JBool true => "True"
    | JBool false => "False"
    | JInt z => DecimalString.NilZero.string_of_int (Z.to_int z)
    | JStr s => s
    | JList _ => "[...]"
    | JDict _ => "{...}"
    end;
  title_of := title_from false
|}.

(** A session whose every request fails to connect. *)
Definition offline : network :=
fun _ _ => Raised {| exc_class := "ConnectionError";
                     exc_str := "connection refused" |}.

(** Nothing configured. *)
Definition bare (n : network) : Env :=
{| qsettings := fun _ => None;
   keyring_password := fun _ => None;
   net := n;
   client_timeout := 30 |}.

(** One service configured, Prowlarr not. *)
Definition configured (service_name url key : string) (n : network) : Env :=
{| qsettings := fun k => if String.eqb k (service_name ++ "/url")
                         then Some (JStr url) else None;
   keyring_password := fun k => if String.eqb k (service_name ++ "_api_key")
                                then Some key else None;
   net := n;
   client_timeout := 30 |}.

(** A service and Prowlarr configured, Prowlarr enabled. *)
Definition with_prowlarr (service_name url key : string) (n : network) : Env :=
{| qsettings := fun k =>
     if String.eqb k (service_name ++ "/url") then Some (JStr url)
     else if String.eqb k "prowlarr/url" then Some (JStr "http://prowlarr:9696/")
     else if String.eqb k "prowlarr/enabled" then Some (JStr "true")
     else None;
   keyring_password := fun k =>
     if String.eqb k (service_name ++ "_api_key") then Some key
     else if String.eqb k "prowlarr_api_key" then Some "pk"
     else None;
   net := n;
   client_timeout := 30 |}.

Definition ok (v : json) : outcome response :=
Returned {| status_code := 200; content_empty := false;
            json_body := Returned v |}.

Definition dune : dict :=
[("title", JStr "Dune"); ("tmdbId", JInt 438631); ("year", JInt 2021)].

Definition arrival : dict :=
[("title", JStr "Arrival"); ("tmdbId", JInt 329865); ("year", JInt 2016)].

Definition movies_root : dict := [("id", JInt 1); ("path", JStr "/movies")].

Definition hd_profile : dict := [("id", JInt 5)].

(** An album candidate as [LidarrTab] queues it. *)
Definition album_item : item_data :=
{| item_json := [("title", JStr "Kind of Blue")];
   root_folder_id := JInt 1;
   root_folder_path := JStr "/music";
   quality_profile_id := JInt 2;
   search_type := "album" |}.

(** A tab whose two combo boxes have been filled. *)
Definition ready (c : tab_class) (name : string) : Tab.t :=
set_quality_profile {| entries := [hd_profile]; current_index := 0 |}
  (set_root_folder {| entries := [movies_root]; current_index := 0 |}
     (Tab.init c name)).

(** The value of an option, or a default. *)
Definition or_else {A : Type} (o : option A) (default : A) : A :=
match o with
| Some a => a
| None => default
end.

Definition no_answer : answer := {| accepted := false; selected_items := [] |}.

(** The status check of a tab finds the service up. *)
Definition status_up : list App.event :=
[App.Act App.click_check_status;
 App.Return 0 (Returned (JDict [("status", JStr "up")]));
 App.Deliver no_answer].

(** The tab fills its two combo boxes. *)
Definition boxes_filled : list App.event :=
(status_up
 ++ [App.Return 1 (Returned (JList [JDict movies_root]));
     App.Deliver no_answer;
     App.Finish Folders;
     App.Return 2 (Returned (JList [JDict hd_profile]));
     App.Deliver no_answer;
     App.Finish Profiles;
     App.Finish Status])%list.


(** The user imports a CSV file with two titles; the search for the first
is running. *)
Definition csv_imported : list App.event :=
(boxes_filled
 ++ [App.Act (App.pick_csv "movies.csv"
                (Returned [["title"]; ["Interstellar"]; ["Arrival"]]))])%list.

(** The first title of the CSV file resolves to two candidates, the user
picks one while the thread of the search ends, the pick is submitted, and
the service answers that it has the movie already; the callback of the
submission runs, and then its thread ends. *)
Definition duplicate_reported : list App.event :=
(csv_imported
 ++ [App.Return 3 (Returned (JList [JDict dune; JDict arrival]));
     App.Finish Search;
     App.Deliver {| accepted := true; selected_items := [dune] |};
     App.Return 4 (Raised {| exc_class := "HTTPError";
                             exc_str := "400 Client Error: Bad Request: This movie has already been added" |});
     App.Deliver no_answer;
     App.Finish Search])%list.

(** The same up to the moment the answer of the service has been posted
to the UI thread. *)
Definition duplicate_pending : list App.event :=
(csv_imported
 ++ [App.Return 3 (Returned (JList [JDict dune; JDict arrival]));
     App.Finish Search;
     App.Deliver {| accepted := true; selected_items := [dune] |};
     App.Return 4 (Raised {| exc_class := "HTTPError";
                             exc_str := "400 Client Error: Bad Request: This movie has already been added" |})])%list.



End Example.

(* ===================================================================== *)
(** ** Views on strings, requests and traces *)
(* ===================================================================== *)

Module View.

Import Http Task Tab App.
#[local] Open Scope string_scope.

(** The last character of a string. *)
Fixpoint last_char (s : string) : option ascii :=
match s with
| EmptyString => None
| String c EmptyString => Some c
| String _ s' => last_char s'
end.


(** A run of [n] slashes. *)
Fixpoint slashes (n : nat) : string :=
match n with
| O => EmptyString
| S n' => String "/" (slashes n')
end.


(** The session method [api_request] calls for a method name, if any. *)
Definition verb_of (method : string) : option verb :=
if String.eqb (upper method) "GET" then Some GET
else if String.eqb (upper method) "POST" then Some POST
else if String.eqb (upper method) "PUT" then Some PUT
else if String.eqb (upper method) "DELETE" then Some DELETE
else None.

(** The value of a header of a request. *)
Fixpoint header_value (headers : list (string * string)) (name : string)
  : option string :=
match headers with
| [] => None
| (n, v) :: rest => if String.eqb n name then Some v else header_value rest name
end.

(** The events a trace published on the bus. *)
Definition published (tr : list effect) : list effect :=
filter (fun e => match e with Published _ _ => true | _ => false end) tr.

(** The lines a trace logged. *)
Definition logged (tr : list effect) : list effect :=
filter (fun e => match e with Logged _ _ => true | _ => false end) tr.

(** The keys of a dict, in order. *)
Definition keys (d : dict) : list string := map fst d.

(** The [progress] emissions of a run, in order. *)
Definition progress_of (l : list ApiWorker.emission) : list string :=
flat_map (fun e => match e with
                   | ApiWorker.progress msg => [msg]
                   | _ => []
                   end) l.

(** The worker runs the task of its thread attribute and reports to the
callback of that task. *)
Definition matched (w : worker) : bool :=
match w_slot w, w_task w, w_callback w with
| Status, get_status, status_finished => true
| Folders, get_root_folders, root_folders_finished => true
| Profiles, get_quality_profiles, quality_profiles_finished => true
| Search, search_item _ _, search_finished => true
| Search, add_item _, add_finished => true
| _, _, _ => false
end.

(** No more terms wait than the batch counts. *)
Definition counted (s : Tab.t) : Prop :=
List.length (terms_to_add_queue s) <= terms_to_add_total_count s.

(** The waiting terms and the counter of [s'] are those of [s]. *)
Definition keeps (s s' : Tab.t) : Prop :=
terms_to_add_queue s' = terms_to_add_queue s
/\ terms_to_add_total_count s' = terms_to_add_total_count s.

(** Every worker started so far is matched. *)
Definition paired (s : Tab.t) : Prop :=
Forall (fun w => matched w = true) (started (trace s)).

(** No worker was started between [s] and [s']. *)
Definition quiet (s s' : Tab.t) : Prop :=
started (trace s') = started (trace s).

(** The numbers go up strictly. *)
Fixpoint ascending (l : list nat) : bool :=
match l with
| [] => true
| n :: l' =>
    match l' with
    | [] => true
    | m :: _ => (n <? m)%nat && ascending l'
    end
end.

End View.

(* ===================================================================== *)
(** ** ui/dialogs.py: SelectionDialog *)
(* ===================================================================== *)

Module Dialog.

#[local] Open Scope string_scope.

Definition IndexError (msg : string) : Exception :=
{| exc_class := "IndexError"; exc_str := msg |}.

(** [sorted(set(rows))]: the rows in ascending order, each once. *)
Fixpoint insert (row : nat) (rows : list nat) : list nat :=
match rows with
| [] => [row]
| r :: rows' =>
    if (row <? r)%nat then row :: rows
    else if (row =? r)%nat then rows
    else r :: insert row rows'
end.

Definition sorted_set (rows : list nat) : list nat := fold_right insert [] rows.

(** The dialog: the results it was given, [selected_items], the value of
[exec()] once it is closed, and the warning boxes it has shown. *)
Record t : Type := {
  results : list dict;
  selected_items : list dict;
  closed : option bool;
  warnings : list (string * string)
}.

(** [__init__], as far as the selection goes. *)
Definition init (results : list dict) : t :=
{| results := results; selected_items := []; closed := None; warnings := [] |}.

(** [self.results[row]]. *)
Definition item_at (d : t) (row : nat) : outcome dict :=
match nth_error (results d) row with
| Some item => Returned item
| None => Raised (IndexError "list index out of range")
end.

(** [[self.results[row] for row in selected_rows]]. *)
Fixpoint items_at (d : t) (rows : list nat) : outcome (list dict) :=
match rows with
| [] => Returned []
| row :: rows' =>
    match item_at d row with
    | Raised e => Raised e
    | Returned item =>
        match items_at d rows' with
        | Raised e => Raised e
        | Returned items => Returned (item :: items)
        end
    end
end.

(** [validate_and_accept]; [rows] is [item.row()] of every selected item
of the table. *)
Definition validate_and_accept (rows : list nat) (d : t) : outcome t :=
match sorted_set rows with
| [] =>
    Returned {| results := results d; selected_items := selected_items d;
                closed := closed d;
                warnings := (warnings d
                             ++ [("No Selection",
                                  "Please select at least one item, or click Skip.")])%list |}
| selected_rows =>
    match items_at d selected_rows with
    | Raised e => Raised e
    | Returned items =>
        Returned {| results := results d; selected_items := items;
                    closed := Some true; warnings := warnings d |}
    end
end.

(** [on_double_click], on an item of row [row]. *)
Definition on_double_click (row : nat) (d : t) : outcome t :=
match item_at d row with
| Raised e => Raised e
| Returned item =>
    Returned {| results := results d; selected_items := [item];
                closed := Some true; warnings := warnings d |}
end.

(** The "Skip" button: [QDialog.reject]. *)
Definition reject (d : t) : t :=
{| results := results d; selected_items := selected_items d;
   closed := Some false; warnings := warnings d |}.

(** [get_selected_items]. *)
Definition get_selected_items (d : t) : list dict := selected_items d.

(** What the user can do with the open dialog. *)
Inductive gesture : Type :=
| press_select (rows : list nat)
| double_click (row : nat)
| press_skip.

(** The gestures of a user, up to the one that closes the dialog. *)
Fixpoint use (gestures : list gesture) (d : t) : outcome t :=
match closed d, gestures with
| Some _, _ => Returned d
| None, [] => Returned d
| None, g :: rest =>
    match (match g with
           | press_select rows => validate_and_accept rows d
           | double_click row => on_double_click row d
           | press_skip => Returned (reject d)
           end) with
    | Raised e => Raised e
    | Returned d' => use rest d'
    end
end.

(** What [on_search_finished] reads off the dialog after [exec()]. *)
Definition answer_of (d : t) : Tab.answer :=
{| Tab.accepted := match closed d with Some true => true | _ => false end;
   Tab.selected_items := get_selected_items d |}.

End Dialog.

(* ===================================================================== *)
(** * Properties *)
(* ===================================================================== *)

Import Task Tab App.
#[local] Open Scope string_scope.
#[local] Open Scope list_scope.

(* ===================================================================== *)
(** ** ApiWorker.run *)
(* ===================================================================== *)

Section WorkerFacts.

Variable World : Type.

(** What a run leaves behind, by how the task ends and by the flag the
two tests read. *)
Lemma run_unfold (w : ApiWorker.t World) (wd : World) :
  ApiWorker.run w (ApiWorker.start wd)
  = match ApiWorker.task_callable w wd with
    | (Returned v, wd') =>
        (Returned tt,
         {| ApiWorker.emitted :=
              [ApiWorker.progress ("Starting task: " ++ ApiWorker.task_name w ++ "...")]
              ++ (if ApiWorker.is_running w
                  then [ApiWorker.finished v ""] else [])
              ++ [ApiWorker.progress ("Task finished: " ++ ApiWorker.task_name w)];
            ApiWorker.world := wd' |})
    | (Raised e, wd') =>
        (Returned tt,
         {| ApiWorker.emitted :=
              [ApiWorker.progress ("Starting task: " ++ ApiWorker.task_name w ++ "...");
               ApiWorker.logged ERROR ("Error in worker task '"
                                       ++ ApiWorker.task_name w ++ "': "
                                       ++ exc_str e)]
              ++ (if ApiWorker.is_running w
                  then [ApiWorker.finished JNull (exc_str e)] else [])
              ++ [ApiWorker.progress ("Task finished: " ++ ApiWorker.task_name w)];
            ApiWorker.world := wd' |})
    end.
Proof.
  unfold ApiWorker.run, ApiWorker.start, Eff.bind, Eff.try_finally,
    Eff.try_except, ApiWorker.call_task, ApiWorker.emit, Eff.modify,
    Eff.when_, Eff.ret.
  cbn [ApiWorker.emitted ApiWorker.world].
  destruct (ApiWorker.task_callable w wd) as [[v | e] wd'];
    destruct (ApiWorker.is_running w); reflexivity.
Qed.

End WorkerFacts.

(** C10, as stated, fails: a task that raises an exception whose [str()]
is empty makes the worker emit [finished(None, "")], which is neither the
task's result with an empty error string nor [None] with a non-empty
one. *)
Lemma C10_empty_message_counterexample :
  let w := ApiWorker.init "task"
             (fun wd : unit => (Raised (ValueError ""), wd)) in
  ~ (forall result error,
        In (result, error)
           (ApiWorker.finished_of
              (ApiWorker.emitted (snd (ApiWorker.run w (ApiWorker.start tt))))) ->
        (fst (ApiWorker.task_callable w tt) = Returned result /\ error = "")
        \/ (result = JNull /\ error <> "")).
Proof.
  intros w Hall.
  destruct (Hall JNull "") as [[Hret _] | [_ Hne]].
  - vm_compute. left. reflexivity.
  - discriminate Hret.
  - apply Hne. reflexivity.
Qed.

(** C10, amended: [ApiWorker.run] never raises to its caller; it emits
[finished] exactly once, with [(result, "")] when the task returns and
with [(None, str(e))] when it raises, unless [stop] was called by then, in
which case it emits none; so a callback receives the task's result with an
empty error string or [None] with the exception's string (which may itself
be empty), and a non-empty error string always comes with [None]. *)
Theorem C10_worker_result_discipline :
  forall (World : Type) (w : ApiWorker.t World) (wd : World),
    let outcome_of_task := fst (ApiWorker.task_callable w wd) in
    let signals_of w' :=
      ApiWorker.finished_of
        (ApiWorker.emitted (snd (ApiWorker.run w' (ApiWorker.start wd)))) in
    fst (ApiWorker.run w (ApiWorker.start wd)) = Returned tt
    /\ signals_of (ApiWorker.init (ApiWorker.task_name w)
                                  (ApiWorker.task_callable w))
       = match outcome_of_task with
         | Returned result => [(result, "")]
         | Raised e => [(JNull, exc_str e)]
         end
    /\ signals_of (ApiWorker.stop w) = []
    /\ (forall result error,
           In (result, error) (signals_of w) ->
           match outcome_of_task with
           | Returned r => result = r /\ error = ""
           | Raised e => result = JNull /\ error = exc_str e
           end)
    /\ (forall result error,
           In (result, error) (signals_of w) ->
           error <> "" -> result = JNull).
Proof.
  intros World w wd outcome_of_task signals_of.
  assert (Hsig : forall w',
             ApiWorker.task_callable w' = ApiWorker.task_callable w ->
             signals_of w'
             = if ApiWorker.is_running w'
               then match outcome_of_task with
                    | Returned result => [(result, "")]
                    | Raised e => [(JNull, exc_str e)]
                    end
               else []).
  { intros w' Htask. unfold signals_of, outcome_of_task.
    rewrite run_unfold, Htask.
    destruct (ApiWorker.task_callable w wd) as [[v | e] wd'];
      destruct (ApiWorker.is_running w'); reflexivity. }
  assert (Hin : forall result error,
             In (result, error) (signals_of w) ->
             match outcome_of_task with
             | Returned r => result = r /\ error = ""
             | Raised e => result = JNull /\ error = exc_str e
             end).
  { intros result error. rewrite (Hsig w eq_refl).
    destruct (ApiWorker.is_running w); [| intros []].
    destruct outcome_of_task; intros [Heq | []]; inversion Heq; auto. }
  repeat split.
  - rewrite run_unfold.
    destruct (ApiWorker.task_callable w wd) as [[v | e] wd']; reflexivity.
  - apply (Hsig (ApiWorker.init _ _) eq_refl).
  - apply (Hsig (ApiWorker.stop w) eq_refl).
  - exact Hin.
  - intros result error HIn Hne. specialize (Hin _ _ HIn).
    destruct outcome_of_task as [r | e].
    + destruct Hin as [_ He]. contradiction.
    + apply Hin.
Qed.

(* ===================================================================== *)
(** ** The worker-side tasks *)
(* ===================================================================== *)

Section TaskFacts.

Context `{Runtime}.
Variable env : Env.

(** A GET sends exactly one request, whatever comes back. *)
Lemma api_request_GET (url api_key name : string) (params : option dict)
  (timeout : option nat) (st : Task.state) :
  let r := {| Http.req_verb := Http.GET; Http.req_url := url;
              Http.req_headers := headers_for api_key name;
              Http.req_params := params; Http.req_json := None;
              Http.req_timeout := match timeout with
                                  | Some t => t
                                  | None => client_timeout env
                                  end |} in
  api_request env url api_key name params "GET" None timeout st
  = (read_answer (net env (sent st) r),
     {| sent := sent st ++ [r]; logs := logs st |}).
Proof.
  intros r. unfold api_request.
  change (String.eqb (upper "GET") "GET") with true. cbv iota.
  unfold Eff.bind, send, read_answer, Eff.ret.
  fold (headers_for api_key name). fold r.
  destruct (net env (sent st) r) as [resp | e]; [| reflexivity].
  destruct ((Http.status_code resp =? 201)%nat
            || (Http.status_code resp =? 204)%nat); [reflexivity |].
  destruct (Http.content_empty resp); reflexivity.
Qed.

(** A POST sends exactly one request, whatever comes back. *)
Lemma api_request_POST (url api_key name : string) (params : option dict)
  (payload : option dict) (timeout : option nat) (st : Task.state) :
  let r := {| Http.req_verb := Http.POST; Http.req_url := url;
              Http.req_headers := headers_for api_key name
                                  ++ [("Content-Type", "application/json")];
              Http.req_params := params; Http.req_json := payload;
              Http.req_timeout := match timeout with
                                  | Some t => t
                                  | None => client_timeout env
                                  end |} in
  api_request env url api_key name params "POST" payload timeout st
  = (read_answer (net env (sent st) r),
     {| sent := sent st ++ [r]; logs := logs st |}).
Proof.
  intros r. unfold api_request.
  change (String.eqb (upper "POST") "GET") with false.
  change (String.eqb (upper "POST") "POST") with true. cbv iota.
  unfold Eff.bind, send, read_answer, Eff.ret.
  fold (headers_for api_key name). fold r.
  destruct (net env (sent st) r) as [resp | e]; [| reflexivity].
  destruct ((Http.status_code resp =? 201)%nat
            || (Http.status_code resp =? 204)%nat); [reflexivity |].
  destruct (Http.content_empty resp); reflexivity.
Qed.

Variable cls : tab_class.
Variable service_name : string.

(** [_get_arr_base_url] reads and never writes. *)
Lemma get_arr_base_url_pure (st : Task.state) :
  snd (_get_arr_base_url env service_name st) = st
  /\ fst (_get_arr_base_url env service_name st)
     = fst (_get_arr_base_url env service_name Task.start).
Proof.
  unfold _get_arr_base_url.
  destruct (negb (truthy (get_plugin_setting env service_name "url" JNull))
            || negb (truthy (get_credential env (service_name ++ "_api_key")))).
  - split; reflexivity.
  - destruct (get_plugin_setting env service_name "url" JNull);
      try (split; reflexivity).
    destruct (get_credential env (service_name ++ "_api_key"));
      split; reflexivity.
Qed.

Lemma get_arr_base_url_eq (st : Task.state) :
  _get_arr_base_url env service_name st
  = (fst (_get_arr_base_url env service_name Task.start), st).
Proof.
  destruct (get_arr_base_url_pure st) as [Hs Hf].
  destruct (_get_arr_base_url env service_name st) as [o s'].
  cbn in Hs, Hf. now subst.
Qed.

End TaskFacts.

(* ===================================================================== *)
(** ** The cross-reference of Prowlarr results *)
(* ===================================================================== *)

Section Deduplication.

Lemma existsb_eqb_In (x : string) (l : list string) :
  existsb (String.eqb x) l = true <-> In x l.
Proof.
  rewrite existsb_exists. split.
  - intros [y [Hy Heq]]. apply String.eqb_eq in Heq. now subst.
  - intros Hx. exists x. split; [assumption | apply String.eqb_refl].
Qed.

Lemma unique_after_In (ids earlier : list string) (x : string) :
  In x (Spec.unique_after earlier ids) <-> In x ids /\ ~ In x earlier.
Proof.
  revert earlier. induction ids as [| id rest IH]; intros earlier; cbn.
  - tauto.
  - destruct (existsb (String.eqb id) earlier) eqn:E.
    + apply existsb_eqb_In in E. rewrite IH. split.
      * intros [Hin Hn]. auto.
      * intros [[Heq | Hin] Hn]; [subst; contradiction | auto].
    + assert (Hid : ~ In id earlier).
      { intros Hin. apply existsb_eqb_In in Hin. congruence. }
      cbn. rewrite IH. cbn. split.
      * intros [Heq | [Hin Hn]]; [subst; auto | ].
        split; [auto | intros Hx; apply Hn; auto].
      * intros [[Heq | Hin] Hn]; [auto |].
        destruct (string_dec id x) as [-> | Hne]; [auto |].
        right. split; [assumption | intros [Heq | Hx]; auto].
Qed.

Lemma unique_after_NoDup (ids earlier : list string) :
  NoDup (Spec.unique_after earlier ids).
Proof.
  revert earlier. induction ids as [| id rest IH]; intros earlier; cbn.
  - constructor.
  - destruct (existsb (String.eqb id) earlier); [apply IH |].
    constructor; [| apply IH].
    rewrite unique_after_In. cbn. tauto.
Qed.

Lemma unique_after_length (ids earlier : list string) :
  List.length (Spec.unique_after earlier ids) <= List.length ids.
Proof.
  revert earlier. induction ids as [| id rest IH]; intros earlier; cbn.
  - constructor.
  - destruct (existsb (String.eqb id) earlier); cbn.
    + specialize (IH earlier). lia.
    + specialize (IH (id :: earlier)). lia.
Qed.

Lemma flat_map_option_length {A B} (f : A -> option B) (l : list A) :
  List.length (flat_map (fun a => match f a with
                                  | Some b => [b]
                                  | None => []
                                  end) l)
  <= List.length l.
Proof.
  induction l as [| a l IH]; cbn; [constructor |].
  rewrite length_app. destruct (f a); cbn; lia.
Qed.

End Deduplication.

Section CrossReference.

Context `{Runtime}.
Variable env : Env.
Variable cls : tab_class.
Variable service_name : string.

Lemma lookup_id_of_dict (d : dict) (st : Task.state) :
  lookup_id_of service_name (JDict d) st
  = (Returned (Spec.provider_id service_name d), st).
Proof.
  unfold lookup_id_of, Spec.provider_id, Eff.bind, attr_get,
    attr_get_default, Eff.ret, get.
  destruct (String.eqb service_name "sonarr") eqn:E.
  - apply String.eqb_eq in E. rewrite E.
    cbn. destruct (truthy (get_default d "tvdbId" JNull)); reflexivity.
  - cbn. destruct (String.eqb service_name "radarr"); [| reflexivity].
    cbn. destruct (truthy (get_default d "tmdbId" JNull)); [reflexivity |].
    cbn. destruct (truthy (get_default d "imdbId" JNull)); reflexivity.
Qed.

Lemma lookup_one_eq (cfg : string * string) (id : string)
  (arr_results : list json) (st : Task.state) :
  lookup_one env cls service_name cfg id arr_results st
  = (Returned (arr_results
               ++ Spec.first_hit
                    (Spec.lookup_answer env cls service_name cfg (sent st) id)),
     {| sent := sent st ++ [Spec.lookup_request cls service_name cfg id];
        logs := logs st |}).
Proof.
  unfold lookup_one, Spec.lookup_answer, Eff.try_except, Eff.bind.
  rewrite !api_request_GET. cbn [fst snd sent logs].
  unfold Spec.lookup_request, headers_for, Spec.first_hit, Eff.ret.
  match goal with
  | |- context [read_answer ?x] => destruct (read_answer x) as [v | e]
  end.
  - destruct v as [| | | | [| first rest] |];
      rewrite ?app_nil_r; reflexivity.
  - rewrite app_nil_r. reflexivity.
Qed.

(** The loop, from any point on: it appends the first hits of the
identifiers not seen before, sends one lookup for each, and returns. *)
Lemma lookup_loop_eq (cfg : string * string) (items : list dict) :
  forall (arr_results : list json) (seen_ids : list string) (st : Task.state),
    let ids := Spec.unique_after seen_ids
                 (flat_map (fun r =>
                              match Spec.provider_id service_name r with
                              | Some id => [id]
                              | None => []
                              end) items) in
    lookup_loop env cls service_name cfg (map JDict items) arr_results
                seen_ids st
    = (Returned (arr_results
                 ++ Spec.first_hits env cls service_name cfg (sent st) ids),
       {| sent := sent st
                  ++ map (Spec.lookup_request cls service_name cfg) ids;
          logs := logs st |}).
Proof.
  induction items as [| item rest IH]; intros arr_results seen_ids st.
  - cbn. rewrite !app_nil_r. destruct st; reflexivity.
  - cbn [map lookup_loop flat_map]. unfold Eff.bind at 1.
    rewrite lookup_id_of_dict.
    destruct (Spec.provider_id service_name item) as [id |].
    + cbn [app Spec.unique_after]. unfold seen.
      destruct (existsb (String.eqb id) seen_ids).
      * apply IH.
      * unfold Eff.bind. rewrite lookup_one_eq, IH.
        cbn [sent logs Spec.first_hits map].
        rewrite <- !app_assoc. reflexivity.
    + cbn [app]. apply IH.
Qed.

Lemma iterate_slice10 (results : list dict) (st : Task.state) :
  Eff.bind (slice10 (JList (map JDict results))) iterate st
  = (Returned (map JDict (firstn 10 results)), st).
Proof.
  unfold Eff.bind, slice10, iterate, Eff.ret.
  now rewrite firstn_map.
Qed.

End CrossReference.

(** C8, as stated, fails: on a Sonarr tab whose URL and API key are not
set the cross-reference raises before its loop, so the one identifier of
the result list gets no lookup at all. *)
Lemma C8_unconfigured_counterexample :
  let results := [[("tvdbId", JInt 81189)]] in
  let r := _task_prowlarr_to_arr_lookup (H := Example.runtime)
             (Example.bare Example.offline) ArrTab "sonarr"
             (JList (map JDict results)) Task.start in
  Spec.identifiers (H := Example.runtime) "sonarr" results = ["tvdb:81189"]
  /\ fst r = Raised (ValueError "sonarr URL or API Key is not set in settings.")
  /\ ~ (List.length (sent (snd r))
        = List.length (Spec.identifiers (H := Example.runtime)
                                        "sonarr" results)).
Proof.
  cbv zeta. repeat split; try reflexivity.
  vm_compute. discriminate.
Qed.

(** C8, amended: when the URL and API key of the target service are set,
the cross-reference takes the first 10 results, reads one identifier per
result (tvdb for Sonarr; tmdb, else imdb, for Radarr), drops results
without one and identifiers already seen, sends exactly one lookup per
remaining identifier, in order, returns the first hit of every lookup that
answered with a non-empty list, and never raises because of a lookup; when
they are not set it raises the configuration error before any lookup. *)
Theorem C8_cross_reference :
  forall (H : Runtime) (env : Env) (cls : tab_class) (service_name : string)
         (results : list dict) (st : Task.state),
    let ids := Spec.identifiers service_name results in
    let r := _task_prowlarr_to_arr_lookup env cls service_name
               (JList (map JDict results)) st in
    match fst (_get_arr_base_url env service_name st) with
    | Raised e => r = (Raised e, st)
    | Returned cfg =>
        fst r = Returned (Spec.first_hits env cls service_name cfg (sent st) ids)
        /\ sent (snd r)
           = sent st ++ map (Spec.lookup_request cls service_name cfg) ids
        /\ logs (snd r) = logs st
    end
    /\ NoDup ids
    /\ List.length ids <= 10
    /\ (forall id,
           In id ids
           <-> exists result,
                 In result (firstn 10 results)
                 /\ Spec.provider_id service_name result = Some id)
    /\ r = _task_prowlarr_to_arr_lookup env cls service_name
             (JList (map JDict (firstn 10 results))) st.
Proof.
  intros H env cls service_name results st ids r.
  assert (Hr : forall l,
             _task_prowlarr_to_arr_lookup env cls service_name
               (JList (map JDict l)) st
             = match fst (_get_arr_base_url env service_name st) with
               | Raised e => (Raised e, st)
               | Returned cfg =>
                   (Returned (Spec.first_hits env cls service_name cfg (sent st)
                                (Spec.identifiers service_name l)),
                    {| sent := sent st
                               ++ map (Spec.lookup_request cls service_name cfg)
                                      (Spec.identifiers service_name l);
                       logs := logs st |})
               end).
  { intros l. unfold _task_prowlarr_to_arr_lookup.
    unfold Eff.bind at 1. rewrite get_arr_base_url_eq. cbn [fst].
    destruct (fst (_get_arr_base_url env service_name start)) as [cfg | e];
      [| reflexivity].
    pose proof (iterate_slice10 l st) as Hit. unfold Eff.bind in Hit |- *.
    destruct (slice10 (JList (map JDict l)) st) as [[v | e] st1] eqn:E1;
      [| discriminate Hit].
    rewrite Hit. rewrite lookup_loop_eq. reflexivity. }
  repeat split.
  - subst r. rewrite Hr.
    destruct (fst (_get_arr_base_url env service_name st)); cbn; auto.
  - apply unique_after_NoDup.
  - unfold ids, Spec.identifiers, Spec.unique.
    etransitivity; [apply unique_after_length |].
    etransitivity; [apply flat_map_option_length |].
    rewrite length_firstn. lia.
  - unfold ids, Spec.identifiers, Spec.unique.
    rewrite unique_after_In, in_flat_map.
    intros [[result [Hin Hid]] _]. exists result. split; [assumption |].
    destruct (Spec.provider_id service_name result); cbn in Hid;
      [destruct Hid as [-> | []]; reflexivity | contradiction].
  - intros [result [Hin Hid]].
    unfold ids, Spec.identifiers, Spec.unique.
    rewrite unique_after_In, in_flat_map. split; [| intros []].
    exists result. split; [assumption |]. rewrite Hid. now left.
  - subst r. rewrite !Hr. unfold Spec.identifiers.
    rewrite firstn_firstn. reflexivity.
Qed.

(* ===================================================================== *)
(** ** Adding an album on the Lidarr tab *)
(* ===================================================================== *)

(** C7, as stated, fails: on a Lidarr tab whose URL and API key are not set
the add task raises the configuration error before it builds any payload,
not the usage error of the payload builder. *)
Lemma C7_unconfigured_counterexample :
  let r := _task_add_item (H := Example.runtime)
             (Example.bare Example.offline) LidarrTab "lidarr"
             Example.album_item Task.start in
  search_type Example.album_item = "album"
  /\ fst r = Raised (ValueError "lidarr URL or API Key is not set in settings.")
  /\ fst r <> Raised album_error.
Proof.
  cbv zeta. repeat split. vm_compute. discriminate.
Qed.

(** C7, amended: for every item queued from an "album" search the Lidarr
payload builder raises the usage error, and the add task raises without
sending any request, so no POST is made; what the task raises is that
usage error when the URL and API key of the service are set, and the
configuration error otherwise. *)
Theorem C7_album_rejected :
  forall (H : Runtime) (env : Env) (service_name : string) (item : item_data)
         (st : Task.state),
    search_type item = "album" ->
    let r := _task_add_item env LidarrTab service_name item st in
    _build_add_payload LidarrTab (item_json item) item st
    = (Raised album_error, st)
    /\ fst r = match fst (_get_arr_base_url env service_name st) with
               | Returned _ => Raised album_error
               | Raised e => Raised e
               end
    /\ snd r = st
    /\ Task.posts (sent (snd r)) = Task.posts (sent st).
Proof.
  intros H env service_name item st Halbum r.
  assert (Hbuild : _build_add_payload LidarrTab (item_json item) item st
                   = (Raised album_error, st)).
  { unfold _build_add_payload, LidarrTab_build_add_payload.
    rewrite Halbum. reflexivity. }
  assert (Hr : r = (match fst (_get_arr_base_url env service_name st) with
                    | Returned _ => Raised album_error
                    | Raised e => Raised e
                    end, st)).
  { subst r. unfold _task_add_item. unfold Eff.bind at 1.
    rewrite get_arr_base_url_eq. cbn [fst].
    destruct (fst (_get_arr_base_url env service_name start)); [| reflexivity].
    unfold Eff.bind. rewrite Hbuild. reflexivity. }
  rewrite Hr. cbn [fst snd]. repeat split. exact Hbuild.
Qed.

(** C7 at an album candidate, on a configured Lidarr tab. *)
Lemma C7_album_rejected_witness :
  search_type Example.album_item = "album"
  /\ fst (_task_add_item (H := Example.runtime)
            (Example.configured "lidarr" "http://lidarr:8686/" "key"
                                Example.offline)
            LidarrTab "lidarr" Example.album_item Task.start)
     = Raised album_error.
Proof.
  split; [reflexivity |].
  destruct (@C7_album_rejected Example.runtime
              (Example.configured "lidarr" "http://lidarr:8686/" "key"
                                  Example.offline)
              "lidarr" Example.album_item Task.start eq_refl)
    as [_ [Hfst _]].
  rewrite Hfst. reflexivity.
Defined.

(* ===================================================================== *)
(** ** The resolver of the video tabs *)
(* ===================================================================== *)


(* ===================================================================== *)
(** ** Substrings and lower case *)
(* ===================================================================== *)

Section Strings.

#[local] Open Scope string_scope.

Lemma prefix_occurs (needle hay : string) :
  String.prefix needle hay = true <-> exists post, hay = needle ++ post.
Proof.
  revert hay. induction needle as [| c needle IH]; intros hay.
  - split; [intros _; now exists hay | intros _; now destruct hay].
  - destruct hay as [| d hay]; cbn.
    + split; [discriminate | intros [post Hpost]; discriminate].
    + destruct (ascii_dec c d) as [-> | Hne].
      * rewrite IH. split; intros [post Hpost]; exists post.
        -- now rewrite Hpost.
        -- now inversion Hpost.
      * split; [discriminate |].
        intros [post Hpost]. inversion Hpost. congruence.
Qed.

Lemma contains_cons (needle : string) (c : ascii) (hay : string) :
  contains needle (String c hay)
  = if String.prefix needle (String c hay) then true else contains needle hay.
Proof. reflexivity. Qed.

Lemma contains_nil (needle : string) :
  contains needle "" = String.prefix needle "".
Proof.
  change (contains needle "")
    with (if String.prefix needle "" then true else false).
  now destruct (String.prefix needle "").
Qed.

Lemma contains_occurs (needle hay : string) :
  contains needle hay = true <-> Spec.occurs needle hay.
Proof.
  unfold Spec.occurs. split.
  - induction hay as [| c hay IH]; intros Hc.
    + rewrite contains_nil in Hc.
      apply prefix_occurs in Hc. destruct Hc as [post Hpost].
      now exists "", post.
    + rewrite contains_cons in Hc.
      destruct (String.prefix needle (String c hay)) eqn:E.
      * apply prefix_occurs in E. destruct E as [post Hpost].
        now exists "", post.
      * destruct (IH Hc) as [pre [post Hpost]].
        exists (String c pre), post. cbn. now rewrite Hpost.
  - intros [pre [post Hpost]]. revert hay Hpost.
    induction pre as [| c pre IH]; intros hay Hpost.
    + cbn in Hpost.
      assert (E : String.prefix needle hay = true)
        by (apply prefix_occurs; now exists post).
      destruct hay; [now rewrite contains_nil |].
      now rewrite contains_cons, E.
    + cbn in Hpost. subst hay. rewrite contains_cons.
      destruct (String.prefix needle _); [reflexivity |].
      now apply IH.
Qed.

Lemma lower_app (a b : string) : lower (a ++ b) = lower a ++ lower b.
Proof. induction a as [| c a IH]; cbn; [reflexivity | now rewrite IH]. Qed.

Lemma lower_split (s a b : string) :
  lower s = a ++ b ->
  exists s1 s2, s = s1 ++ s2 /\ lower s1 = a /\ lower s2 = b.
Proof.
  revert s. induction a as [| c a IH]; intros s Hs.
  - exists "", s. auto.
  - destruct s as [| d s]; [discriminate |].
    cbn in Hs. inversion Hs as [[Hc Hrest]].
    destruct (IH _ Hrest) as [s1 [s2 [Hs12 [H1 H2]]]].
    exists (String d s1), s2. cbn. now rewrite Hs12, H1.
Qed.

(** [word in text.lower()] is an occurrence of [word] in [text] up to the
case of the letters of [text]. *)
Lemma contains_lower (word text : string) :
  contains word (lower text) = true <-> Spec.occurs_ignoring_case word text.
Proof.
  rewrite contains_occurs. unfold Spec.occurs, Spec.occurs_ignoring_case.
  split.
  - intros [pre [post Hpost]].
    destruct (lower_split _ _ _ Hpost) as [s1 [s' [Hs [H1 H']]]].
    destruct (lower_split _ _ _ H') as [w [s2 [Hs' [Hw H2]]]].
    exists s1, w, s2. split; [now rewrite Hs, Hs' | assumption].
  - intros [pre [w [post [Htext Hw]]]].
    exists (lower pre), (lower post).
    now rewrite Htext, !lower_app, Hw.
Qed.

(** The test of [on_add_finished] is the wording of the specification. *)
Lemma already_exists_spec (error : string) :
  already_exists error = true <-> Spec.duplicate_wording error.
Proof.
  unfold already_exists, Spec.duplicate_wording.
  rewrite andb_true_iff, orb_true_iff, contains_occurs, !contains_lower.
  reflexivity.
Qed.

End Strings.

(* ===================================================================== *)
(** ** What the handlers of the tab leave alone *)
(* ===================================================================== *)

Create HintDb grows.

Section TabFrame.

Context `{Runtime}.

Lemma started_app (l1 l2 : list effect) :
  started (l1 ++ l2) = started l1 ++ started l2.
Proof. unfold started. apply flat_map_app. Qed.

Lemma grows_refl (s : Tab.t) : grows s s.
Proof.
  split; [auto |]. split; [lia |]. exists []. rewrite app_nil_r.
  split; [reflexivity |]. split; [intros w [] | constructor].
Qed.

Lemma grows_trans (s1 s2 s3 : Tab.t) :
  grows s1 s2 -> grows s2 s3 -> grows s1 s3.
Proof.
  intros [Hk12 [Hn12 [new1 [Hs1 [Hw1 Hd1]]]]]
         [Hk23 [Hn23 [new2 [Hs2 [Hw2 Hd2]]]]].
  split; [auto |]. split; [lia |].
  exists (new1 ++ new2). split; [| split].
  - rewrite Hs2, Hs1, app_assoc. reflexivity.
  - intros w Hin. apply in_app_or in Hin. destruct Hin as [Hin | Hin].
    + destruct (Hw1 w Hin) as [Ht [Hlo Hhi]]. repeat split; [auto | lia | lia].
    + destruct (Hw2 w Hin) as [Ht [Hlo Hhi]]. repeat split; [auto | lia | lia].
  - rewrite map_app. apply NoDup_app; [assumption | assumption |].
    intros n Hin1 Hin2.
    apply in_map_iff in Hin1. destruct Hin1 as [w1 [<- Hin1]].
    apply in_map_iff in Hin2. destruct Hin2 as [w2 [Heq Hin2]].
    destruct (Hw1 w1 Hin1) as [_ [_ Hhi]].
    destruct (Hw2 w2 Hin2) as [_ [Hlo _]]. lia.
Qed.

(** A state that differs from [s] in nothing the threads depend on. *)
Lemma grows_same (s0 s s' : Tab.t) :
  (forall k, thread_of k s' = thread_of k s) ->
  next_id s' = next_id s ->
  started (trace s') = started (trace s) ->
  grows s0 s -> grows s0 s'.
Proof.
  intros Hk Hn Hs Hg. apply (grows_trans Hg).
  split; [intros k w; now rewrite Hk |]. split; [lia |].
  exists []. rewrite app_nil_r.
  split; [assumption |]. split; [intros w [] | constructor].
Qed.

Ltac same :=
  intros;
  match goal with
  | Hg : grows ?s0 ?s |- _ =>
      apply (@grows_same s0 s);
      [ intros []; reflexivity
      | reflexivity
      | first [ reflexivity
              | cbn; rewrite started_app, app_nil_r; reflexivity ]
      | exact Hg ]
  end.

Lemma grows_set_terms v s0 s : grows s0 s -> grows s0 (set_terms v s).
Proof. same. Qed.
Lemma grows_set_items v s0 s : grows s0 s -> grows s0 (set_items v s).
Proof. same. Qed.
Lemma grows_set_total v s0 s : grows s0 s -> grows s0 (set_total v s).
Proof. same. Qed.
Lemma grows_set_search_term v s0 s :
  grows s0 s -> grows s0 (set_search_term v s).
Proof. same. Qed.
Lemma grows_set_search_type v s0 s :
  grows s0 s -> grows s0 (set_search_type v s).
Proof. same. Qed.
Lemma grows_set_root_folder v s0 s :
  grows s0 s -> grows s0 (set_root_folder v s).
Proof. same. Qed.
Lemma grows_set_quality_profile v s0 s :
  grows s0 s -> grows s0 (set_quality_profile v s).
Proof. same. Qed.
Lemma grows_set_search_input v s0 s :
  grows s0 s -> grows s0 (set_search_input v s).
Proof. same. Qed.
Lemma grows_set_widgets a b c d s0 s :
  grows s0 s -> grows s0 (set_widgets a b c d s).
Proof. same. Qed.
Lemma grows_log lvl msg s0 s : grows s0 s -> grows s0 (Tab.log lvl msg s).
Proof. same. Qed.
Lemma grows_box kind title text s0 s :
  grows s0 s -> grows s0 (does (MessageBox kind title text) s).
Proof. same. Qed.
Lemma grows_chooser term results ty s0 s :
  grows s0 s -> grows s0 (does (Chooser term results ty) s).
Proof. same. Qed.
Lemma grows_publish name args s0 s :
  grows s0 s -> grows s0 (publish name args s).
Proof. same. Qed.

Lemma grows_start_worker k tk cb s0 s :
  grows s0 s -> grows s0 (_start_worker k tk cb s).
Proof.
  intros Hg. unfold _start_worker.
  destruct (thread_of k s) as [w0 |] eqn:Hk; [now apply grows_log |].
  apply (grows_trans Hg).
  set (w := {| w_id := next_id s; w_slot := k; w_task := tk;
               w_callback := cb |}).
  split; [| split].
  - intros k' w' Hk'. destruct k, k'; cbn in *; congruence.
  - cbn. lia.
  - exists [w]. cbn. rewrite started_app. cbn.
    split; [reflexivity |]. split.
    + intros w' [<- | []]. cbn. split; [destruct k; reflexivity | lia].
    + constructor; [intros [] | constructor].
Qed.

End TabFrame.

#[export] Hint Resolve grows_refl grows_set_terms grows_set_items
  grows_set_total grows_set_search_term grows_set_search_type
  grows_set_root_folder grows_set_quality_profile grows_set_search_input
  grows_set_widgets grows_log grows_box grows_chooser grows_publish
  grows_start_worker : grows.

Ltac grow_case :=
  match goal with
  | |- grows _ (if ?c then _ else _) => destruct c
  | |- grows _ (match ?x with _ => _ end) => destruct x
  | |- grows _ (let (_, _) := ?x in _) => destruct x
  | |- context [if ?c then _ else _] => destruct c
  | |- context [match ?x with _ => _ end] => destruct x
  end.

Ltac grow :=
  repeat first [ progress cbn [fst snd]
               | progress auto 40 with grows
               | grow_case ].

Section HandlersGrow.

Context `{Runtime}.

Lemma grows_check_status s0 s : grows s0 s -> grows s0 (check_status s).
Proof. intros Hg. unfold check_status. grow. Qed.

Lemma grows_refresh_root_folders s0 s :
  grows s0 s -> grows s0 (refresh_root_folders s).
Proof. intros Hg. unfold refresh_root_folders. grow. Qed.

Lemma grows_refresh_quality_profiles s0 s :
  grows s0 s -> grows s0 (refresh_quality_profiles s).
Proof. intros Hg. unfold refresh_quality_profiles. grow. Qed.

#[local] Hint Resolve grows_check_status grows_refresh_root_folders
  grows_refresh_quality_profiles : grows.

Lemma grows_on_status_finished result error s0 s :
  grows s0 s -> grows s0 (on_status_finished result error s).
Proof. intros Hg. unfold on_status_finished. cbv zeta. grow. Qed.

Lemma grows_on_root_folders_finished result error s0 s :
  grows s0 s -> grows s0 (on_root_folders_finished result error s).
Proof. intros Hg. unfold on_root_folders_finished. cbv zeta. grow. Qed.

Lemma grows_on_quality_profiles_finished result error s0 s :
  grows s0 s -> grows s0 (on_quality_profiles_finished result error s).
Proof. intros Hg. unfold on_quality_profiles_finished. cbv zeta. grow. Qed.

Lemma grows_process_next s0 s :
  grows s0 s -> grows s0 (process_next_item_in_queue s).
Proof.
  intros Hg. unfold process_next_item_in_queue, _run_add_worker,
               _run_search_worker.
  cbv zeta. grow.
Qed.

#[local] Hint Resolve grows_process_next : grows.

Lemma grows_validate_inputs term s0 s :
  grows s0 s -> grows s0 (snd (_validate_inputs term s)).
Proof. intros Hg. unfold _validate_inputs. grow. Qed.

Lemma grows_add_from_text s0 s : grows s0 s -> grows s0 (add_from_text s).
Proof.
  intros Hg. unfold add_from_text. cbv zeta.
  pose proof (grows_validate_inputs (strip (search_input s)) Hg) as Hv.
  destruct (_validate_inputs (strip (search_input s)) s) as [[|] s1];
    cbn [snd] in Hv; grow.
Qed.

Lemma grows_import_from_csv file_path rows s0 s :
  grows s0 s -> grows s0 (import_from_csv file_path rows s).
Proof.
  intros Hg. unfold import_from_csv.
  destruct (str_empty file_path); [assumption |].
  pose proof (grows_validate_inputs "N/A" Hg) as Hv.
  destruct (_validate_inputs "N/A" s) as [[|] s1]; cbn [snd] in Hv;
    [| assumption].
  destruct rows as [rows | e]; [| grow].
  destruct (csv_terms rows); cbv zeta; grow.
Qed.

Lemma grows_on_item_selected item s0 s :
  grows s0 s -> grows s0 (on_item_selected item s).
Proof. intros Hg. unfold on_item_selected. cbv zeta. grow. Qed.

#[local] Hint Resolve grows_on_item_selected : grows.

Lemma grows_select_all (selected : list dict) s0 s :
  grows s0 s ->
  grows s0 (fold_left (fun s item => on_item_selected item s) selected s).
Proof.
  revert s. induction selected as [| item rest IH]; intros s Hg; cbn.
  - assumption.
  - apply IH. grow.
Qed.

#[local] Hint Resolve grows_select_all : grows.

Lemma grows_on_search_finished result error dlg s0 s :
  grows s0 s -> grows s0 (on_search_finished result error dlg s).
Proof.
  intros Hg. unfold on_search_finished. cbv zeta.
  apply grows_process_next.
  destruct (if str_empty error then result else None)
    as [[| only [| second rest]] |]; grow.
  all: match goal with
       | |- grows _ (fold_left _ ?l _) => apply (grows_select_all l); grow
       end.
Qed.

Lemma grows_on_add_finished result error s0 s :
  grows s0 s -> grows s0 (on_add_finished result error s).
Proof. intros Hg. unfold on_add_finished. cbv zeta. grow. Qed.

Lemma grows_start_search_and_add term ty s0 s :
  grows s0 s -> grows s0 (start_search_and_add term ty s).
Proof.
  intros Hg. unfold start_search_and_add.
  destruct (str_empty term); [assumption |].
  pose proof (grows_validate_inputs term Hg) as Hv.
  destruct (_validate_inputs term s) as [[|] s1]; cbn [snd] in Hv;
    [| assumption].
  cbv zeta. grow.
Qed.

#[local] Hint Resolve grows_start_search_and_add : grows.

Lemma grows_on_add_request name term ty s0 s :
  grows s0 s -> grows s0 (_on_add_request name term ty s).
Proof. intros Hg. unfold _on_add_request. grow. Qed.

Lemma grows_perform (a : action) (s : Tab.t) : grows s (perform a s).
Proof.
  pose proof (grows_refl s) as Hg.
  destruct a; cbn [perform];
    auto using grows_add_from_text, grows_import_from_csv,
      grows_on_add_request with grows.
  unfold _on_search_type_changed. grow.
Qed.

Lemma grows_deliver (w : worker) (result : json) (error : string)
  (dlg : answer) (s s' : Tab.t) :
  deliver w result error dlg s = Some s' -> grows s s'.
Proof.
  pose proof (grows_refl s) as Hg.
  unfold deliver.
  destruct (w_callback w);
    [ destruct (as_dict result) | destruct (as_dicts result)
    | destruct (as_dicts result) | destruct (as_dicts result)
    | destruct (as_dict result) ];
    cbn; intros Heq; inversion Heq; subst;
    auto using grows_on_status_finished, grows_on_root_folders_finished,
      grows_on_quality_profiles_finished, grows_on_search_finished,
      grows_on_add_finished.
Qed.

End HandlersGrow.

(* ===================================================================== *)
(** ** The threads of a tab *)
(* ===================================================================== *)

Section Threads.

Context `{Runtime}.

Lemma NoDup_map_inv {A B} (f : A -> B) (l : list A) :
  NoDup (map f l) -> NoDup l.
Proof.
  induction l as [| a l IH]; cbn; intros Hd; [constructor |].
  inversion Hd as [| x xs Hn Hd']; subst.
  constructor; [| auto]. intros Hin. apply Hn. now apply in_map.
Qed.

Lemma NoDup_all_equal {A} (l : list A) :
  NoDup l -> (forall x y, In x l -> In y l -> x = y) -> List.length l <= 1.
Proof.
  destruct l as [| a [| b l]]; cbn; intros Hd Heq; [lia | lia |].
  exfalso. inversion Hd as [| x xs Hn _]; subst.
  apply Hn. rewrite (Heq a b); cbn; auto.
Qed.

Lemma slot_eqb_eq (a b : slot) : slot_eqb a b = true <-> a = b.
Proof. destruct a, b; cbn; split; congruence. Qed.

Lemma tidy_boot (c : tab_class) (name : string) : tidy (boot c name).
Proof.
  split; [| split]; cbn.
  - intros w [].
  - constructor.
  - intros w [].
Qed.

(** Running handlers keeps the bookkeeping in order. *)
Lemma tidy_grows (sys : system) (ui' : Tab.t)
  (posted' : list (worker * json * string)) :
  tidy sys -> grows (ui sys) ui' ->
  tidy {| ui := ui'; returned := returned sys; posted := posted' |}.
Proof.
  intros [Hfl [Hnd Hlt]] [Hk [Hn [new [Hs [Hnew Hnd']]]]].
  split; [| split]; cbn [ui].
  - intros w Hin. unfold in_flight in Hin. cbn [ui] in Hin.
    apply filter_In in Hin. destruct Hin as [Hin Hret].
    rewrite Hs in Hin. apply in_app_or in Hin. destruct Hin as [Hin | Hin].
    + apply Hk, Hfl. unfold in_flight. apply filter_In. split; assumption.
    + apply Hnew, Hin.
  - rewrite Hs, map_app. apply NoDup_app; [assumption | assumption |].
    intros n Hin1 Hin2.
    apply in_map_iff in Hin1. destruct Hin1 as [w1 [<- Hin1]].
    apply in_map_iff in Hin2. destruct Hin2 as [w2 [Heq Hin2]].
    specialize (Hlt w1 Hin1). destruct (Hnew w2 Hin2) as [_ [Hlo _]]. lia.
  - intros w Hin. rewrite Hs in Hin. apply in_app_or in Hin.
    destruct Hin as [Hin | Hin].
    + specialize (Hlt w Hin). lia.
    + apply Hnew, Hin.
Qed.

Lemma tidy_step (sys sys' : system) : tidy sys -> step sys sys' -> tidy sys'.
Proof.
  intros Ht Hstep. destruct Hstep as [a sys | w o sys Hin
                                     | w result error dlg rest ui' sys Hp Hd
                                     | k w sys Hk Hret].
  - apply tidy_grows; [assumption | apply grows_perform].
  - destruct Ht as [Hfl [Hnd Hlt]]. split; [| split]; cbn [ui]; auto.
    intros w' Hin'. apply Hfl. unfold in_flight in *. cbn [ui] in Hin'.
    apply filter_In in Hin'. destruct Hin' as [Hs Hr].
    apply filter_In. split; [assumption |].
    unfold has_returned in *. cbn [returned existsb] in Hr.
    apply negb_true_iff in Hr. apply orb_false_iff in Hr.
    apply negb_true_iff. apply Hr.
  - apply tidy_grows; [assumption | eapply grows_deliver; eassumption].
  - destruct Ht as [Hfl [Hnd Hlt]]. split; [| split]; cbn [ui]; auto.
    intros w' Hin'. unfold in_flight in Hin'. cbn [ui] in Hin'.
    assert (Hin : In w' (in_flight sys)) by exact Hin'.
    specialize (Hfl w' Hin).
    destruct (slot_eqb (w_slot w') k) eqn:E.
    + apply slot_eqb_eq in E. subst k.
      assert (w' = w) by congruence. subst w'.
      apply filter_In in Hin. destruct Hin as [_ Hr].
      rewrite Hret in Hr. discriminate.
    + rewrite <- Hfl. destruct k, (w_slot w'); cbn in *; congruence.
Qed.

Lemma tidy_reachable (c : tab_class) (name : string) (sys : system) :
  reachable c name sys -> tidy sys.
Proof.
  induction 1 as [| sys sys' _ IH Hstep]; [apply tidy_boot |].
  eapply tidy_step; eassumption.
Qed.

(** With the bookkeeping in order, a thread attribute has at most one
running worker. *)
Lemma tidy_single (sys : system) (k : slot) :
  tidy sys -> List.length (in_flight_on k sys) <= 1.
Proof.
  intros [Hfl [Hnd _]]. apply NoDup_all_equal.
  - unfold in_flight_on, in_flight. do 2 apply NoDup_filter.
    eapply NoDup_map_inv; eassumption.
  - intros x y Hx Hy. unfold in_flight_on in *.
    apply filter_In in Hx, Hy. destruct Hx as [Hx Ex], Hy as [Hy Ey].
    apply slot_eqb_eq in Ex, Ey.
    pose proof (Hfl x Hx) as Tx. pose proof (Hfl y Hy) as Ty.
    rewrite Ex in Tx. rewrite Ey in Ty. congruence.
Qed.

Lemma in_flight_by_slot (sys : system) :
  List.length (in_flight sys)
  = List.length (in_flight_on Status sys)
    + List.length (in_flight_on Folders sys)
    + List.length (in_flight_on Profiles sys)
    + List.length (in_flight_on Search sys).
Proof.
  unfold in_flight_on. induction (in_flight sys) as [| w l IH];
    [reflexivity |].
  cbn [filter List.length]. destruct (w_slot w); cbn; lia.
Qed.


Lemma apply_event_step (ev : event) (sys sys' : system) :
  apply_event ev sys = Some sys' -> step sys sys'.
Proof.
  destruct ev as [a | id o | dlg | k]; cbn.
  - intros Heq. inversion Heq. constructor.
  - destruct (find (fun w => Nat.eqb (w_id w) id) (in_flight sys))
      as [w |] eqn:E; [| discriminate].
    intros Heq. inversion Heq. apply find_some in E.
    constructor. apply E.
  - destruct (posted sys) as [| [[w result] error] rest] eqn:Hp;
      [discriminate |].
    destruct (deliver w result error dlg (ui sys)) as [ui' |] eqn:Hd;
      [| discriminate].
    cbn. intros Heq. inversion Heq. econstructor; eassumption.
  - destruct (thread_of k (ui sys)) as [w |] eqn:Hk; [| discriminate].
    destruct (has_returned sys w) eqn:Hr; [| discriminate].
    intros Heq. inversion Heq. econstructor; eassumption.
Qed.

(** A script that plays through leads to a state the tab can be in. *)
Lemma play_reachable (c : tab_class) (name : string) (script : list event)
  (sys sys' : system) :
  reachable c name sys -> play script sys = Some sys' ->
  reachable c name sys'.
Proof.
  revert sys. induction script as [| ev rest IH]; intros sys Hr; cbn.
  - intros Heq. inversion Heq. now subst.
  - destruct (apply_event ev sys) as [sys1 |] eqn:E; [| discriminate].
    apply IH. eapply reach_step; [eassumption |].
    eapply apply_event_step. eassumption.
Qed.

End Threads.

(* ===================================================================== *)
(** ** Single flight of the queue *)
(* ===================================================================== *)


(* ===================================================================== *)
(** ** The workers of a tab, all operations together *)
(* ===================================================================== *)

(** C9, as stated, fails: when the status check of a Radarr tab reports
"up", its callback starts the refresh of the root folders and the refresh
of the quality profiles one after the other, and both workers run
together. *)
Lemma C9_two_workers_counterexample :
  exists sys,
    reachable (H := Example.runtime) RadarrTab "radarr" sys
    /\ List.length (in_flight sys) = 2
    /\ ~ (List.length (in_flight sys) <= 1).
Proof.
  exists (Example.or_else
            (play (H := Example.runtime) Example.status_up
                  (boot RadarrTab "radarr"))
            (boot RadarrTab "radarr")).
  split; [| split].
  - apply (@play_reachable Example.runtime RadarrTab "radarr"
             Example.status_up (boot RadarrTab "radarr"));
      [apply reach_boot | vm_compute; reflexivity].
  - vm_compute. reflexivity.
  - vm_compute. lia.
Qed.

(** C9, amended: at every reachable state of a tab, each of its four
thread attributes (status check, root-folder refresh, quality-profile
refresh, and the queue, which resolve and submit share) has at most one
worker running, so the tab has at most four, and at most one of them
resolves or submits. *)
Theorem C9_one_worker_per_thread_attribute :
  forall (H : Runtime) (c : tab_class) (name : string) (sys : system),
    reachable c name sys ->
    (forall k, List.length (in_flight_on k sys) <= 1)
    /\ List.length (in_flight sys) <= 4
    /\ (forall w, In w (in_flight sys) ->
                  thread_of (w_slot w) (ui sys) = Some w).
Proof.
  intros H c name sys Hreach.
  pose proof (tidy_reachable Hreach) as Ht.
  split; [| split].
  - intros k. now apply tidy_single.
  - rewrite in_flight_by_slot.
    pose proof (tidy_single Status Ht). pose proof (tidy_single Folders Ht).
    pose proof (tidy_single Profiles Ht). pose proof (tidy_single Search Ht).
    lia.
  - apply Ht.
Qed.

(** C9 at the state of the counterexample: two workers, on two different
thread attributes. *)
Lemma C9_one_worker_per_thread_attribute_witness :
  let sys := Example.or_else
               (play (H := Example.runtime) Example.status_up
                     (boot RadarrTab "radarr"))
               (boot RadarrTab "radarr") in
  reachable (H := Example.runtime) RadarrTab "radarr" sys
  /\ (forall k, List.length (in_flight_on k sys) <= 1)
  /\ List.length (in_flight sys) <= 4.
Proof.
  intros sys.
  assert (Hreach : reachable (H := Example.runtime) RadarrTab "radarr" sys).
  { apply (@play_reachable Example.runtime RadarrTab "radarr"
             Example.status_up (boot RadarrTab "radarr"));
      [apply reach_boot | vm_compute; reflexivity]. }
  split; [exact Hreach |].
  destruct (@C9_one_worker_per_thread_attribute Example.runtime
              RadarrTab "radarr" sys Hreach) as [H1 [H4 _]].
  split; assumption.
Defined.

(* ===================================================================== *)
(** ** Which queue [advance()] serves *)
(* ===================================================================== *)




(* ===================================================================== *)
(** ** The disambiguation of a resolved term *)
(* ===================================================================== *)

Section Disambiguation.

Context `{Runtime}.

(** [on_item_selected] queues the candidate with the destination of the
moment, or logs an error when there is none. *)
Lemma on_item_selected_eq (item_json : dict) (s : Tab.t) :
  on_item_selected item_json s
  = match destination s with
    | Some to =>
        Tab.log INFO ("Queued item for adding: '"
                      ++ str_of (title_or item_json "Unknown") ++ "'")
          (set_items (items_to_add_queue s ++ [pending s to item_json]) s)
    | None =>
        Tab.log ERROR "Root folder or quality profile not selected properly." s
    end.
Proof.
  unfold on_item_selected, destination.
  destruct (currentData (combo_root_folder s)) as [[| r root] |];
    destruct (currentData (combo_quality_profile s)) as [[| p profile] |];
    reflexivity.
Qed.

Lemma on_item_selected_facts (item_json : dict) (s : Tab.t) :
  let s' := on_item_selected item_json s in
  items_to_add_queue s'
  = items_to_add_queue s
    ++ match destination s with
       | Some to => [pending s to item_json]
       | None => []
       end
  /\ choosers (trace s') = choosers (trace s)
  /\ boxes (trace s') = boxes (trace s)
  /\ started (trace s') = started (trace s)
  /\ terms_to_add_queue s' = terms_to_add_queue s
  /\ search_thread s' = search_thread s
  /\ destination s' = destination s
  /\ (forall to c, pending s' to c = pending s to c).
Proof.
  cbv zeta. rewrite on_item_selected_eq.
  destruct (destination s) as [to |] eqn:Hd; cbn;
    unfold choosers, boxes; rewrite !filter_app, started_app; cbn;
    rewrite !app_nil_r; repeat split; auto.
Qed.

(** What selecting a list of candidates changes and what it keeps. *)
Lemma select_all_eq (selected : list dict) :
  forall s : Tab.t,
    let s' := fold_left (fun s item => on_item_selected item s) selected s in
    items_to_add_queue s'
    = items_to_add_queue s
      ++ match destination s with
         | Some to => map (pending s to) selected
         | None => []
         end
    /\ choosers (trace s') = choosers (trace s)
    /\ boxes (trace s') = boxes (trace s)
    /\ started (trace s') = started (trace s)
    /\ terms_to_add_queue s' = terms_to_add_queue s
    /\ search_thread s' = search_thread s.
Proof.
  induction selected as [| item rest IH]; intros s; cbn [fold_left].
  - cbn. destruct (destination s); rewrite app_nil_r; auto 10.
  - cbv zeta in IH |- *.
    destruct (IH (on_item_selected item s)) as [Hi [Hc [Hb [Hs [Ht Hth]]]]].
    destruct (on_item_selected_facts item s)
      as [Fi [Fc [Fb [Fs [Ft [Fth [Fd Fp]]]]]]].
    cbv zeta in Fi, Fc, Fb, Fs, Ft, Fth, Fd, Fp.
    rewrite Hi, Hc, Hb, Hs, Ht, Hth, Fi, Fc, Fb, Fs, Ft, Fth, Fd.
    repeat split.
    destruct (destination s) as [to |]; [| now rewrite !app_nil_r].
    rewrite (map_ext _ _ (Fp to)), <- app_assoc. reflexivity.
Qed.

End Disambiguation.



(* ===================================================================== *)
(** ** Enqueuing search terms *)
(* ===================================================================== *)

Section Enqueue.

Context `{Runtime}.

Lemma str_empty_false (x : string) : x <> "" -> str_empty x = false.
Proof. destruct x; [congruence | reflexivity]. Qed.

(** [_validate_inputs] on a term that is not empty. *)
Lemma validate_inputs_eq (term : string) (s : Tab.t) :
  term <> "" ->
  _validate_inputs term s
  = if has_destination s then (true, set_items [] (set_terms [] s))
    else (false,
          does (if (count (combo_root_folder s) =? 0)%nat
                then MessageBox warning "No Root Folder"
                                "Please select a root folder first."
                else MessageBox warning "No Quality Profile"
                                "Please select a quality profile first.") s).
Proof.
  intros Hterm. unfold _validate_inputs, has_destination.
  rewrite (str_empty_false Hterm), andb_false_r.
  destruct (count (combo_root_folder s) =? 0)%nat; [reflexivity |].
  destruct (count (combo_quality_profile s) =? 0)%nat; reflexivity.
Qed.

End Enqueue.

(** C5, as stated, fails: while the first title of a two-line CSV import
is being searched and the second waits in the queue, adding a title from
the text line throws the waiting one away instead of queueing behind it. *)
Lemma C5_pending_terms_lost_counterexample :
  let sys := Example.or_else
               (play (H := Example.runtime) Example.csv_imported
                     (boot RadarrTab "radarr"))
               (boot RadarrTab "radarr") in
  let s' := add_from_text (H := Example.runtime)
              (set_search_input "Dune" (ui sys)) in
  reachable (H := Example.runtime) RadarrTab "radarr" sys
  /\ has_destination (ui sys) = true
  /\ terms_to_add_queue (ui sys) = ["Arrival"]
  /\ terms_to_add_queue s' = ["Dune"]
  /\ terms_to_add_queue s' <> ["Arrival"; "Dune"].
Proof.
  cbv zeta. split; [| repeat split].
  - apply (@play_reachable Example.runtime RadarrTab "radarr"
             Example.csv_imported (boot RadarrTab "radarr"));
      [apply reach_boot | vm_compute; reflexivity].
  - vm_compute. discriminate.
Qed.

(** C5, amended: enqueuing a text term, the terms of a CSV file or an
external add request while both combo boxes have entries discards the
search terms and the add items pending from before, makes the new terms
the whole search queue and then calls [advance()]; when the root-folder box
or the quality-profile box is empty, a warning box is shown, nothing is
enqueued and both queues stay as they were (empty, if they were empty). *)
Theorem C5_enqueue_replaces :
  forall (H : Runtime) (s : Tab.t) (term : string) (search_type : option string)
         (file_path : string) (rows : list (list string)),
    strip (search_input s) <> "" ->
    term <> "" ->
    file_path <> "" ->
    csv_terms rows <> [] ->
    let enqueued new_terms s' :=
      exists s1,
        s' = process_next_item_in_queue s1
        /\ terms_to_add_queue s1 = new_terms
        /\ items_to_add_queue s1 = []
        /\ terms_to_add_total_count s1 = List.length new_terms
        /\ search_thread s1 = search_thread s
        /\ started (trace s1) = started (trace s) in
    let rejected s' :=
      terms_to_add_queue s' = terms_to_add_queue s
      /\ items_to_add_queue s' = items_to_add_queue s
      /\ terms_to_add_total_count s' = terms_to_add_total_count s
      /\ exists title text,
           trace s' = trace s ++ [MessageBox warning title text] in
    if has_destination s then
      enqueued [strip (search_input s)] (add_from_text s)
      /\ enqueued (csv_terms rows)
                  (import_from_csv file_path (Returned rows) s)
      /\ enqueued [term] (start_search_and_add term search_type s)
    else
      rejected (add_from_text s)
      /\ rejected (import_from_csv file_path (Returned rows) s)
      /\ rejected (start_search_and_add term search_type s).
Proof.
  intros H s term search_type file_path rows Htext Hterm Hpath Hrows
         enqueued rejected.
  assert (Hna : "N/A" <> "") by discriminate.
  unfold add_from_text, import_from_csv, start_search_and_add.
  cbv zeta.
  rewrite (str_empty_false Hpath), (str_empty_false Hterm).
  rewrite !validate_inputs_eq by assumption.
  destruct (has_destination s).
  - subst enqueued. cbv beta. split; [| split].
    + eexists. split; [reflexivity |]. repeat split.
    + destruct (csv_terms rows) as [| t ts] eqn:Hcsv; [congruence |].
      eexists. split; [reflexivity |]. cbn.
      rewrite started_app. cbn. rewrite app_nil_r. repeat split.
    + eexists. split; [reflexivity |].
      destruct search_type as [ty |]; [destruct (str_empty ty) |];
        repeat split.
  - subst rejected. cbv beta.
    destruct (count (combo_root_folder s) =? 0)%nat;
      repeat split; eexists; eexists; reflexivity.
Qed.

(** C5 on the scenario of the specification: two CSV terms, no root folder
selected. *)
Lemma C5_enqueue_replaces_witness :
  let s := set_search_input "Dune" (Tab.init RadarrTab "radarr") in
  let s' := import_from_csv (H := Example.runtime) "movies.csv"
              (Returned [["title"]; ["Interstellar"]; ["Arrival"]]) s in
  csv_terms [["title"]; ["Interstellar"]; ["Arrival"]]
  = ["Interstellar"; "Arrival"]
  /\ terms_to_add_queue s' = []
  /\ items_to_add_queue s' = []
  /\ exists title text, trace s' = [MessageBox warning title text].
Proof.
  intros s s'. split; [reflexivity |].
  assert (H1 : strip (search_input s) <> "") by (vm_compute; discriminate).
  assert (H2 : "Dune" <> "") by discriminate.
  assert (H3 : "movies.csv" <> "") by discriminate.
  assert (H4 : csv_terms [["title"]; ["Interstellar"]; ["Arrival"]] <> [])
    by (vm_compute; discriminate).
  pose proof (@C5_enqueue_replaces Example.runtime s "Dune" None "movies.csv"
                [["title"]; ["Interstellar"]; ["Arrival"]] H1 H2 H3 H4) as Hc.
  cbv zeta in Hc.
  change (has_destination s) with false in Hc. cbv iota in Hc.
  destruct Hc as [_ [[Ht [Hi [_ Hbox]]] _]].
  split; [exact Ht |]. split; [exact Hi |]. exact Hbox.
Defined.

(* ===================================================================== *)
(** ** The end of a submission *)
(* ===================================================================== *)

(** What [on_add_finished] does with a failed submission, in the words of
the specification: a failure whose message has "400" and wording that the
item exists already is only logged as a warning; any other failure is
logged as an error and shown in an error box; either way the item is not
put back in a queue and [advance()] is called. *)
Lemma on_add_finished_failure :
  forall (H : Runtime) (s : Tab.t) (result : option dict) (error : string),
    error <> "" \/ result = None ->
    exists s1,
      on_add_finished result error s = process_next_item_in_queue s1
      /\ items_to_add_queue s1 = items_to_add_queue s
      /\ terms_to_add_queue s1 = terms_to_add_queue s
      /\ search_thread s1 = search_thread s
      /\ ((Spec.duplicate_wording error
           /\ trace s1
              = trace s ++ [Logged WARNING ("Item already exists in "
                                            ++ service_name s
                                            ++ ". Skipping.")])
          \/ (~ Spec.duplicate_wording error
              /\ trace s1
                 = trace s
                   ++ [Logged ERROR ("Failed to add item: " ++ error);
                       MessageBox critical "Add Error"
                                  ("Failed to add item:" ++ nl ++ error)])).
Proof.
  intros H s result error Hfail. unfold on_add_finished. cbv zeta.
  assert (Hnone : (if str_empty error then result else None) = None).
  { destruct Hfail as [Hne | ->]; [| now destruct (str_empty error)].
    destruct error; [congruence | reflexivity]. }
  rewrite Hnone. eexists. split; [reflexivity |].
  destruct (already_exists error) eqn:E.
  - repeat split. left. split; [now apply already_exists_spec | reflexivity].
  - repeat split. right. split.
    + intros Hdup. apply already_exists_spec in Hdup. congruence.
    + cbn. rewrite <- app_assoc. reflexivity.
Qed.

(** C6 at the input where the code departs from it: the callback of a
submission that the service refused as a duplicate runs while
[search_thread] still holds the thread of that submission, so its call of
[advance()] stops at the guard.  The second title of the CSV file stays in
the queue, and once the thread has ended nothing is left that would call
[advance()] again. *)
Theorem C6_duplicate_does_not_advance :
  let error :=
    "400 Client Error: Bad Request: This movie has already been added" in
  let before := Example.or_else
                  (play (H := Example.runtime) Example.duplicate_pending
                        (boot RadarrTab "radarr"))
                  (boot RadarrTab "radarr") in
  let s' := on_add_finished (H := Example.runtime) None error (ui before) in
  let after := Example.or_else
                 (play (H := Example.runtime) Example.duplicate_reported
                       (boot RadarrTab "radarr"))
                 (boot RadarrTab "radarr") in
  reachable (H := Example.runtime) RadarrTab "radarr" before
  /\ map (fun p => (w_callback (fst (fst p)), snd (fst p), snd p))
         (posted before)
     = [(add_finished, JNull, error)]
  /\ already_exists error = true
  /\ terms_to_add_queue (ui before) = ["Arrival"]
  /\ trace s'
     = trace (ui before)
       ++ [Logged WARNING "Item already exists in radarr. Skipping.";
           Logged WARNING "Search/add queue is already processing."]
  /\ terms_to_add_queue s' = ["Arrival"]
  /\ started (trace s') = started (trace (ui before))
  /\ reachable (H := Example.runtime) RadarrTab "radarr" after
  /\ ui after = set_thread Search None s'
  /\ in_flight after = []
  /\ posted after = []
  /\ terms_to_add_queue (ui after) = ["Arrival"].
Proof.
  cbv zeta. split; [| split; [| split; [| split; [| split; [| split;
    [| split; [| split; [| split; [| split; [| split]]]]]]]]]].
  - apply (@play_reachable Example.runtime RadarrTab "radarr"
             Example.duplicate_pending (boot RadarrTab "radarr"));
      [apply reach_boot | vm_compute; reflexivity].
  - vm_compute. reflexivity.
  - vm_compute. reflexivity.
  - vm_compute. reflexivity.
  - vm_compute. reflexivity.
  - vm_compute. reflexivity.
  - vm_compute. reflexivity.
  - apply (@play_reachable Example.runtime RadarrTab "radarr"
             Example.duplicate_reported (boot RadarrTab "radarr"));
      [apply reach_boot | vm_compute; reflexivity].
  - vm_compute. reflexivity.
  - vm_compute. reflexivity.
  - vm_compute. reflexivity.
  - vm_compute. reflexivity.
Qed.


(* ===================================================================== *)
(** ** The HTTP client *)
(* ===================================================================== *)

Section Client.

Context `{Runtime}.
Variable env : Env.

(** [api_request], by the session method it calls. *)
Lemma api_request_by_verb (url api_key name : string) (params : option dict)
  (method : string) (payload : option dict) (timeout : option nat)
  (st : Task.state) :
  api_request env url api_key name params method payload timeout st
  = match View.verb_of method with
    | None =>
        (Raised (ValueError ("Unsupported HTTP method: " ++ method)), st)
    | Some v =>
        let body := match v with
                    | Http.POST | Http.PUT => true
                    | _ => false
                    end in
        let q := {| Http.req_verb := v; Http.req_url := url;
                    Http.req_headers :=
                      headers_for api_key name
                      ++ (if body
                          then [("Content-Type", "application/json")]
                          else []);
                    Http.req_params := params;
                    Http.req_json := if body then payload else None;
                    Http.req_timeout := match timeout with
                                        | Some t => t
                                        | None => client_timeout env
                                        end |} in
        (read_answer (net env (sent st) q),
         {| sent := sent st ++ [q]; logs := logs st |})
    end.
Proof.
  unfold api_request, View.verb_of.
  fold (headers_for api_key name).
  assert (Hsend : forall q,
             Eff.bind (send env q)
               (fun response =>
                  if (Http.status_code response =? 201)%nat
                     || (Http.status_code response =? 204)%nat
                  then Eff.ret (JDict [("status", JStr "success");
                                       ("message",
                                        JStr ("Status Code "
                                              ++ str_of_nat
                                                   (Http.status_code response)))])
                  else if Http.content_empty response
                       then Eff.ret (JDict [("status", JStr "success")])
                       else fun s => (Http.json_body response, s)) st
             = (read_answer (net env (sent st) q),
                {| sent := sent st ++ [q]; logs := logs st |})).
  { intros q. unfold Eff.bind, send, read_answer, Eff.ret.
    destruct (net env (sent st) q) as [resp | e]; [| reflexivity].
    destruct ((Http.status_code resp =? 201)%nat
              || (Http.status_code resp =? 204)%nat); [reflexivity |].
    destruct (Http.content_empty resp); reflexivity. }
  destruct (String.eqb (upper method) "GET").
  { cbv zeta. rewrite app_nil_r. apply Hsend. }
  destruct (String.eqb (upper method) "POST"); [apply Hsend |].
  destruct (String.eqb (upper method) "PUT"); [apply Hsend |].
  destruct (String.eqb (upper method) "DELETE").
  { cbv zeta. rewrite app_nil_r. apply Hsend. }
  reflexivity.
Qed.

End Client.


(** X2: The request [api_request] sends carries the API key in exactly one
header, [X-Emby-Token] when the service is "jellyfin" in any letter case
and [X-Api-Key] otherwise, and in none when the key is empty; it carries the
JSON payload and a JSON content type for POST and PUT, and neither for GET
and DELETE, whatever payload was passed. *)
Theorem api_request_headers :
  forall (H : Runtime) (env : Env) (url api_key name : string)
         (params : option dict) (method : string) (payload : option dict)
         (timeout : option nat) (st : Task.state) (q : Http.request),
    sent (snd (api_request env url api_key name params method payload
                           timeout st))
    = sent st ++ [q] ->
    let jellyfin := String.eqb (lower name) "jellyfin" in
    View.header_value (Http.req_headers q) "X-Emby-Token"
    = (if negb (str_empty api_key) && jellyfin then Some api_key else None)
    /\ View.header_value (Http.req_headers q) "X-Api-Key"
       = (if negb (str_empty api_key) && negb jellyfin
          then Some api_key else None)
    /\ match Http.req_verb q with
       | Http.POST | Http.PUT =>
           Http.req_json q = payload
           /\ View.header_value (Http.req_headers q) "Content-Type"
              = Some "application/json"
       | Http.GET | Http.DELETE =>
           Http.req_json q = None
           /\ View.header_value (Http.req_headers q) "Content-Type" = None
       end.
Proof.
  intros H env url api_key name params method payload timeout st q Hsent
         jellyfin.
  rewrite api_request_by_verb in Hsent.
  destruct (View.verb_of method) as [v |].
  - cbn in Hsent. apply app_inv_head in Hsent. inversion Hsent; subst q.
    cbn [Http.req_headers Http.req_verb Http.req_json].
    unfold headers_for. fold jellyfin.
    destruct v, (str_empty api_key), jellyfin; cbn; repeat split.
  - cbn in Hsent. rewrite <- (app_nil_r (sent st)) in Hsent at 1.
    apply app_inv_head in Hsent. discriminate.
Qed.

(** A POST of a key to a Jellyfin-like service. *)
Lemma api_request_headers_witness :
  exists q,
    sent (snd (api_request (H := Example.runtime)
                 (Example.bare Example.offline) "http://jf/Items" "tok"
                 "Jellyfin" None "post" (Some Example.dune) None Task.start))
    = [q]
    /\ View.header_value (Http.req_headers q) "X-Emby-Token" = Some "tok"
    /\ View.header_value (Http.req_headers q) "X-Api-Key" = None
    /\ Http.req_json q = Some Example.dune.
Proof.
  eexists. split; [vm_compute; reflexivity |].
  match goal with
  | |- View.header_value (Http.req_headers ?q) _ = _ /\ _ =>
      destruct (@api_request_headers Example.runtime
                  (Example.bare Example.offline) "http://jf/Items" "tok"
                  "Jellyfin" None "post" (Some Example.dune) None Task.start
                  q eq_refl) as [He [Hk Hv]]
  end.
  split; [exact He |]. split; [exact Hk |]. exact (proj1 Hv).
Defined.

(* ===================================================================== *)
(** ** The configuration of a service *)
(* ===================================================================== *)

Section BaseUrl.

#[local] Open Scope string_scope.

Lemma rstrip_slash_cons (c : ascii) (s : string) :
  rstrip_slash (String c s)
  = match rstrip_slash s with
    | EmptyString => if Ascii.eqb c "/" then EmptyString
                     else String c EmptyString
    | r => String c r
    end.
Proof. reflexivity. Qed.

(** [rstrip("/")] cuts a run of slashes off the end, and nothing else. *)
Lemma rstrip_slash_spec (s : string) :
  exists n, s = rstrip_slash s ++ View.slashes n.
Proof.
  induction s as [| c s [n IH]]; [now exists 0 |].
  rewrite rstrip_slash_cons.
  destruct (rstrip_slash s) as [| d r] eqn:E.
  - cbn in IH. destruct (Ascii.eqb c "/") eqn:Ec.
    + apply Ascii.eqb_eq in Ec. subst c. exists (S n). cbn. now rewrite <- IH.
    + exists n. cbn. now rewrite <- IH.
  - exists n. cbn. cbn in IH. now rewrite <- IH.
Qed.

(** What [rstrip("/")] returns does not end in a slash. *)
Lemma rstrip_slash_last (s : string) :
  View.last_char (rstrip_slash s) <> Some "/"%char.
Proof.
  induction s as [| c s IH]; [discriminate |].
  rewrite rstrip_slash_cons.
  destruct (rstrip_slash s) as [| d r] eqn:E.
  - destruct (Ascii.eqb c "/") eqn:Ec; [discriminate |].
    cbn. intros Heq. inversion Heq. subst c. discriminate Ec.
  - exact IH.
Qed.

(** X3: [_get_arr_base_url] returns a pair exactly when the settings hold a
non-empty URL string for the service and the vault a non-empty API key; the
URL it returns is the stored one without the slashes at its end, so it never
ends in a slash; in every other case it raises, and it changes nothing. *)
Theorem base_url_when_configured :
  forall (env : Env) (service_name : string) (st : Task.state),
    snd (_get_arr_base_url env service_name st) = st
    /\ (forall u k,
           fst (_get_arr_base_url env service_name st) = Returned (u, k)
           <-> exists stored,
                 qsettings env (service_name ++ "/url") = Some (JStr stored)
                 /\ stored <> ""
                 /\ keyring_password env (service_name ++ "_api_key") = Some k
                 /\ k <> ""
                 /\ u = rstrip_slash stored)
    /\ (forall u k,
           fst (_get_arr_base_url env service_name st) = Returned (u, k) ->
           View.last_char u <> Some "/"%char
           /\ exists n,
                qsettings env (service_name ++ "/url")
                = Some (JStr (u ++ View.slashes n)))
    /\ ((qsettings env (service_name ++ "/url") = None
         \/ keyring_password env (service_name ++ "_api_key") = None) ->
        fst (_get_arr_base_url env service_name st)
        = Raised (ValueError (service_name
                              ++ " URL or API Key is not set in settings."))).
Proof.
  intros env service_name st.
  assert (Hiff : forall u k,
             fst (_get_arr_base_url env service_name st) = Returned (u, k)
             <-> exists stored,
                   qsettings env (service_name ++ "/url") = Some (JStr stored)
                   /\ stored <> ""
                   /\ keyring_password env (service_name ++ "_api_key") = Some k
                   /\ k <> ""
                   /\ u = rstrip_slash stored).
  { intros u k. unfold _get_arr_base_url, get_plugin_setting, get_credential.
    change (service_name ++ "/" ++ "url")%string with (service_name ++ "/url")%string.
    destruct (qsettings env (service_name ++ "/url")) as [v |];
      destruct (keyring_password env (service_name ++ "_api_key")) as [key |];
      cbn.
    - destruct v as [| b | z | stored | l | d]; cbn.
      + split; [discriminate | intros [x [Hx _]]; discriminate Hx].
      + split; [| intros [x [Hx _]]; discriminate Hx].
        destruct b, key; cbn; discriminate.
      + split; [| intros [x [Hx _]]; discriminate Hx].
        destruct (Z.eqb z 0), key; cbn; discriminate.
      + destruct stored as [| c stored]; cbn.
        * split; [discriminate |].
          intros [x [Hx [Hne _]]]. inversion Hx. congruence.
        * destruct key as [| kc key]; cbn.
          -- split; [discriminate |].
             intros [x [_ [_ [Hk [Hne _]]]]]. inversion Hk. congruence.
          -- split.
             ++ intros Heq. inversion Heq. subst.
                exists (String c stored). repeat split; discriminate.
             ++ intros [x [Hx [_ [Hk [_ Hu]]]]]. inversion Hx. inversion Hk.
                subst. reflexivity.
      + split; [| intros [x [Hx _]]; discriminate Hx].
        destruct l, key; cbn; discriminate.
      + split; [| intros [x [Hx _]]; discriminate Hx].
        destruct d, key; cbn; discriminate.
    - split; [| intros [x [_ [_ [Hk _]]]]; discriminate Hk].
      rewrite orb_true_r. cbn. discriminate.
    - split; [discriminate | intros [x [Hx _]]; discriminate Hx].
    - split; [discriminate | intros [x [Hx _]]; discriminate Hx]. }
  split; [apply get_arr_base_url_pure |]. split; [exact Hiff |]. split.
  - intros u k Hret. apply Hiff in Hret.
    destruct Hret as [stored [Hs [_ [_ [_ ->]]]]].
    split; [apply rstrip_slash_last |].
    destruct (rstrip_slash_spec stored) as [n Hn].
    exists n. now rewrite <- Hn.
  - unfold _get_arr_base_url, get_plugin_setting, get_credential.
    change (service_name ++ "/" ++ "url")%string with (service_name ++ "/url")%string.
    intros [-> | ->]; cbn; [reflexivity |].
    now rewrite orb_true_r.
Qed.

End BaseUrl.

(** A URL stored with two slashes at its end. *)
Lemma base_url_when_configured_witness :
  let env := Example.configured "radarr" "http://radarr:7878//" "rk"
                                Example.offline in
  fst (_get_arr_base_url env "radarr" Task.start)
  = Returned ("http://radarr:7878"%string, "rk"%string)
  /\ View.last_char "http://radarr:7878" <> Some "/"%char
  /\ exists n, qsettings env "radarr/url"
               = Some (JStr ("http://radarr:7878" ++ View.slashes n)).
Proof.
  intros env.
  assert (Hret : fst (_get_arr_base_url env "radarr" Task.start)
                 = Returned ("http://radarr:7878"%string, "rk"%string))
    by reflexivity.
  split; [exact Hret |].
  destruct (base_url_when_configured env "radarr" Task.start)
    as [_ [_ [Hshape _]]].
  exact (Hshape _ _ Hret).
Defined.

(* ===================================================================== *)
(** ** The payload of an addition *)
(* ===================================================================== *)

Section Payload.

#[local] Open Scope string_scope.

(** X4: The payload of the video tabs: it is always built; it holds the six
fixed fields in their order, followed by those of [titleSlug], [images] and
[year] the candidate has, and no key twice; a field the candidate lacks is
null ([tmdbId], [title]) or left out (the optional three). *)
Theorem video_payload_fields :
  forall (item_json : dict) (item : item_data) (st : Task.state),
    exists payload,
      ArrTab_build_add_payload item_json item st = (Returned payload, st)
      /\ _build_add_payload ArrTab item_json item st = (Returned payload, st)
      /\ _build_add_payload RadarrTab item_json item st = (Returned payload, st)
      /\ View.keys payload
         = (["tmdbId"; "title"; "qualityProfileId"; "rootFolderPath";
             "monitored"; "addOptions"]
            ++ filter (has_key item_json) ["titleSlug"; "images"; "year"])%list
      /\ NoDup (View.keys payload)
      /\ get payload "tmdbId" = get item_json "tmdbId"
      /\ get payload "title" = get item_json "title"
      /\ get payload "qualityProfileId" = quality_profile_id item
      /\ get payload "rootFolderPath" = root_folder_path item
      /\ get payload "monitored" = JBool true
      /\ get payload "addOptions" = JDict [("searchForMovie", JBool true)]
      /\ map (has_key payload) ["titleSlug"; "images"; "year"]
         = map (has_key item_json) ["titleSlug"; "images"; "year"]
      /\ map (get payload) ["titleSlug"; "images"; "year"]
         = map (get item_json) ["titleSlug"; "images"; "year"].
Proof.
  intros item_json item st.
  unfold _build_add_payload, ArrTab_build_add_payload, Eff.ret.
  eexists. split; [reflexivity |]. split; [reflexivity |].
  split; [reflexivity |].
  unfold pick. cbn [flat_map filter].
  assert (Hget : forall k, has_key item_json k = false -> get item_json k = JNull).
  { intros k. unfold get. induction item_json as [| [k' v] d IH]; cbn;
      [reflexivity |]. destruct (String.eqb k' k); [discriminate | exact IH]. }
  pose proof (Hget "titleSlug") as Hslug.
  pose proof (Hget "images") as Himages.
  pose proof (Hget "year") as Hyear.
  destruct (has_key item_json "titleSlug") eqn:E1,
    (has_key item_json "images") eqn:E2,
    (has_key item_json "year") eqn:E3; cbn;
    (repeat (split; [first [reflexivity
                           | repeat constructor; cbn; intuition discriminate] |]));
    split; cbn; rewrite ?E1, ?E2, ?E3;
    try rewrite Hslug by reflexivity; try rewrite Himages by reflexivity;
    try rewrite Hyear by reflexivity; reflexivity.
Qed.

(** X5: The payload of the music tab for a candidate of an artist search: the
seven fixed fields in their order and [images] when the candidate has it;
[artistName] and [foreignArtistId] appear once though the source writes them
twice, and the metadata profile is always 1. *)
Theorem lidarr_payload_fields :
  forall (item_json : dict) (item : item_data) (st : Task.state),
    search_type item <> "album" ->
    exists payload,
      _build_add_payload LidarrTab item_json item st = (Returned payload, st)
      /\ View.keys payload
         = (["foreignArtistId"; "artistName"; "qualityProfileId";
             "metadataProfileId"; "rootFolderPath"; "monitored"; "addOptions"]
            ++ filter (has_key item_json) ["images"])%list
      /\ NoDup (View.keys payload)
      /\ get payload "foreignArtistId" = get item_json "foreignArtistId"
      /\ get payload "artistName" = get item_json "artistName"
      /\ get payload "qualityProfileId" = quality_profile_id item
      /\ get payload "metadataProfileId" = JInt 1
      /\ get payload "rootFolderPath" = root_folder_path item
      /\ get payload "monitored" = JBool true
      /\ get payload "addOptions"
         = JDict [("searchForMissingAlbums", JBool true);
                  ("monitor", JStr "all")]
      /\ has_key payload "images" = has_key item_json "images"
      /\ get payload "images" = get item_json "images".
Proof.
  intros item_json item st Hty.
  unfold _build_add_payload, LidarrTab_build_add_payload, Eff.ret.
  destruct (String.eqb (search_type item) "album") eqn:E;
    [apply String.eqb_eq in E; contradiction |].
  eexists. split; [reflexivity |].
  unfold pick. cbn [flat_map filter].
  assert (Hget : forall k, has_key item_json k = false -> get item_json k = JNull).
  { intros k. unfold get. induction item_json as [| [k' v] d IH]; cbn;
      [reflexivity |]. destruct (String.eqb k' k); [discriminate | exact IH]. }
  pose proof (Hget "artistName") as Hname.
  pose proof (Hget "foreignArtistId") as Hid.
  pose proof (Hget "images") as Himages.
  destruct (has_key item_json "artistName") eqn:E1,
    (has_key item_json "foreignArtistId") eqn:E2,
    (has_key item_json "images") eqn:E3; cbn;
    (repeat (split; [first [reflexivity
                           | repeat constructor; cbn; intuition discriminate] |]));
    try reflexivity; symmetry; auto.
Qed.

(** The music payload of a candidate found by an artist search. *)
Lemma lidarr_payload_fields_witness :
  search_type {| item_json := [("artistName", JStr "Can"); ("images", JList [])];
                 root_folder_id := JInt 1;
                 root_folder_path := JStr "/music";
                 quality_profile_id := JInt 2;
                 search_type := "artist" |} <> "album"
  /\ exists payload,
       _build_add_payload LidarrTab
         [("artistName", JStr "Can"); ("images", JList [])]
         {| item_json := [("artistName", JStr "Can"); ("images", JList [])];
            root_folder_id := JInt 1;
            root_folder_path := JStr "/music";
            quality_profile_id := JInt 2;
            search_type := "artist" |} Task.start
       = (Returned payload, Task.start)
       /\ get payload "foreignArtistId" = JNull
       /\ get payload "artistName" = JStr "Can".
Proof.
  split; [discriminate |].
  destruct (@lidarr_payload_fields
              [("artistName", JStr "Can"); ("images", JList [])]
              {| item_json := [("artistName", JStr "Can"); ("images", JList [])];
                 root_folder_id := JInt 1;
                 root_folder_path := JStr "/music";
                 quality_profile_id := JInt 2;
                 search_type := "artist" |} Task.start)
    as [payload [Hp [_ [_ [Hid [Hname _]]]]]]; [discriminate |].
  exists payload. split; [exact Hp |]. split; [exact Hid | exact Hname].
Defined.

End Payload.

(* ===================================================================== *)
(** ** The tasks of a tab *)
(* ===================================================================== *)

Section TaskRequests.

#[local] Open Scope string_scope.

Context `{Runtime}.
Variable env : Env.
Variable cls : tab_class.
Variable service_name : string.

(** Reading the configuration first: the rest of a task runs in the state
the task started in, or not at all. *)
Lemma bind_base_url {B : Type} (k : string * string -> Task.M B)
  (st : Task.state) :
  Eff.bind (_get_arr_base_url env service_name) k st
  = match fst (_get_arr_base_url env service_name st) with
    | Returned cfg => k cfg st
    | Raised e => (Raised e, st)
    end.
Proof.
  unfold Eff.bind.
  destruct (get_arr_base_url_pure env service_name st) as [Hs _].
  destruct (_get_arr_base_url env service_name st) as [[cfg | e] s'];
    cbn in Hs |- *; now subst.
Qed.

(** Building a payload sends and logs nothing. *)
Lemma build_add_payload_eq (item_json : dict) (item : item_data)
  (st : Task.state) :
  _build_add_payload cls item_json item st
  = (fst (_build_add_payload cls item_json item st), st).
Proof.
  unfold _build_add_payload, LidarrTab_build_add_payload,
    ArrTab_build_add_payload.
  destruct cls; try reflexivity.
  destruct (String.eqb (search_type item) "album"); reflexivity.
Qed.

(** X6: [_task_add_item] sends one request or none: none, and the error of the
configuration or of the payload builder, when either raises; otherwise one
POST of the built payload to the add endpoint of the tab's class, with the
client's default timeout, whose answer is the task's result. *)
Theorem add_item_request :
  forall (item : item_data) (st : Task.state),
    let r := _task_add_item env cls service_name item st in
    match fst (_get_arr_base_url env service_name st),
          fst (_build_add_payload cls (item_json item) item st) with
    | Raised e, _ => r = (Raised e, st)
    | Returned _, Raised e => r = (Raised e, st)
    | Returned (u, k), Returned payload =>
        exists q,
          snd r = {| sent := sent st ++ [q]; logs := logs st |}
          /\ fst r = read_answer (net env (sent st) q)
          /\ Http.req_verb q = Http.POST
          /\ Http.req_url q
             = u ++ "/api/" ++ api_version cls ++ "/" ++ item_add_endpoint cls
          /\ Http.req_json q = Some payload
          /\ Http.req_params q = None
          /\ Http.req_timeout q = client_timeout env
          /\ Http.req_headers q
             = (headers_for k service_name
                ++ [("Content-Type", "application/json")])%list
    end.
Proof.
  intros item st r. subst r. unfold _task_add_item.
  rewrite bind_base_url.
  destruct (fst (_get_arr_base_url env service_name st)) as [[u k] | e];
    [| reflexivity].
  unfold Eff.bind. rewrite build_add_payload_eq.
  destruct (fst (_build_add_payload cls (item_json item) item st))
    as [payload | e]; [| reflexivity].
  rewrite api_request_POST. cbn [fst snd].
  eexists. split; [reflexivity |]. split; [reflexivity |].
  cbn. repeat split.
Qed.

(** What [_task_get_status] returns and leaves behind, by the configuration
and by the answer to its request. *)
Lemma get_status_eq :
  forall (st : Task.state),
    let r := _task_get_status env cls service_name st in
    match fst (_get_arr_base_url env service_name st) with
    | Raised e => r = (Raised e, st)
    | Returned (u, k) =>
        let q := {| Http.req_verb := Http.GET;
                    Http.req_url := u ++ "/api/" ++ api_version cls
                                      ++ "/system/status";
                    Http.req_headers := headers_for k service_name;
                    Http.req_params := None; Http.req_json := None;
                    Http.req_timeout := client_timeout env |} in
        let down (msg : string) :=
          (Returned (JDict [("status", JStr "down"); ("error", JStr msg)]),
           {| sent := sent st ++ [q];
              logs := logs st
                      ++ [(ERROR, title_of service_name
                                  ++ " is DOWN or unreachable: " ++ msg)] |}) in
        match read_answer (net env (sent st) q) with
        | Returned (JDict d) =>
            r = (Returned (JDict [("status", JStr "up"); ("data", JDict d)]),
                 {| sent := sent st ++ [q];
                    logs := logs st
                            ++ [(INFO, title_of service_name
                                       ++ " is UP. Version: "
                                       ++ str_of (get_default d "version"
                                                    (JStr "Unknown")))] |})
        | Returned v =>
            r = down ("'" ++ type_name v ++ "' object has no attribute 'get'")
        | Raised e => r = down (exc_str e)
        end
    end.
Proof.
  intros st r.
  assert (Hr : r = _task_get_status env cls service_name st) by reflexivity.
  unfold _task_get_status, api_url in Hr.
  change ("/" ++ "system/status") with "/system/status" in Hr.
  clearbody r. rewrite bind_base_url in Hr.
  destruct (fst (_get_arr_base_url env service_name st)) as [[u k] | e];
    [| exact Hr].
  intros q down. cbn [fst snd] in Hr.
  unfold Eff.try_except in Hr. unfold Eff.bind at 1 in Hr.
  rewrite api_request_GET in Hr. fold q in Hr.
  destruct (read_answer (net env (sent st) q))
    as [[| b | z | s | l | d] | e]; exact Hr.
Qed.

(** X7: [_task_get_status] on a configured tab sends exactly one GET, to
[system/status], and never raises: the service is reported up exactly when
the answer decodes to an object, and down, with the text of the exception,
when the request fails or the answer is anything else; either way one line
is logged.  Without a configuration the task raises before its [try] and
sends nothing. *)
Theorem status_task_contained :
  forall (st : Task.state),
    let r := _task_get_status env cls service_name st in
    match fst (_get_arr_base_url env service_name st) with
    | Raised e => r = (Raised e, st)
    | Returned (u, k) =>
        let q := {| Http.req_verb := Http.GET;
                    Http.req_url := u ++ "/api/" ++ api_version cls
                                      ++ "/system/status";
                    Http.req_headers := headers_for k service_name;
                    Http.req_params := None; Http.req_json := None;
                    Http.req_timeout := client_timeout env |} in
        let down (msg : string) :=
          (Returned (JDict [("status", JStr "down"); ("error", JStr msg)]),
           {| sent := sent st ++ [q];
              logs := logs st
                      ++ [(ERROR, title_of service_name
                                  ++ " is DOWN or unreachable: " ++ msg)] |}) in
        match read_answer (net env (sent st) q) with
        | Returned (JDict d) =>
            r = (Returned (JDict [("status", JStr "up"); ("data", JDict d)]),
                 {| sent := sent st ++ [q];
                    logs := logs st
                            ++ [(INFO, title_of service_name
                                       ++ " is UP. Version: "
                                       ++ str_of (get_default d "version"
                                                    (JStr "Unknown")))] |})
        | Returned v =>
            r = down ("'" ++ type_name v ++ "' object has no attribute 'get'")
        | Raised e => r = down (exc_str e)
        end
    end.
Proof.
  exact get_status_eq.
Qed.

End TaskRequests.

(* ===================================================================== *)
(** ** The searches of a tab *)
(* ===================================================================== *)

Section Searches.

#[local] Open Scope string_scope.

Context `{Runtime}.
Variable env : Env.
Variable service_name : string.

(** X8: [_task_prowlarr_search] logs nothing and either raises without
sending anything or sends exactly one request.  It sends one only when the
Prowlarr URL is a string that is not empty once its final slashes are cut,
the Prowlarr key is not empty and the [enabled] setting is true; the request
is then a GET of [/api/v1/search] under that URL with the key as
[X-Api-Key], a timeout of 30 and the category 5000 on a tab named "sonarr",
2000 on any other; and with such settings it does send it. *)
Theorem prowlarr_search_gate :
  forall (query : string) (st : Task.state),
    let r := _task_prowlarr_search env service_name query st in
    let request (u k : string) :=
      {| Http.req_verb := Http.GET;
         Http.req_url := rstrip_slash u ++ "/api/v1/search";
         Http.req_headers := [("X-Api-Key", k)];
         Http.req_params :=
           Some [("query", JStr query);
                 ("categories",
                  JStr (if String.eqb service_name "sonarr"
                        then "5000" else "2000"));
                 ("type", JStr "search")];
         Http.req_json := None;
         Http.req_timeout := 30 |} in
    let ready (u k : string) :=
      qsettings env "prowlarr/url" = Some (JStr u)
      /\ rstrip_slash u <> ""
      /\ keyring_password env "prowlarr_api_key" = Some k
      /\ k <> ""
      /\ truthy (get_plugin_setting env "prowlarr" "enabled" (JBool false))
         = true in
    ((snd r = st /\ exists e, fst r = Raised e)
     \/ exists u k,
          ready u k
          /\ r = (read_answer (net env (sent st) (request u k)),
                  {| sent := sent st ++ [request u k]; logs := logs st |}))
    /\ (forall u k,
           ready u k ->
           r = (read_answer (net env (sent st) (request u k)),
                {| sent := sent st ++ [request u k]; logs := logs st |})).
Proof.
  intros query st r request ready.
  assert (Hr : r = _task_prowlarr_search env service_name query st)
    by reflexivity.
  clearbody r. unfold _task_prowlarr_search in Hr.
  unfold get_plugin_setting at 1 in Hr. unfold get_credential in Hr.
  change ("prowlarr" ++ "/" ++ "url") with "prowlarr/url" in Hr.
  unfold Eff.bind, Eff.ret, Eff.raise in Hr.
  assert (Hraise : forall e, r = (Raised e, st) ->
                             snd r = st /\ exists e', fst r = Raised e').
  { intros e ->. split; [reflexivity | now exists e]. }
  assert (Hready : forall u k,
             ready u k ->
             r = (read_answer (net env (sent st) (request u k)),
                  {| sent := sent st ++ [request u k]; logs := logs st |})).
  { intros u k [Hu [Hne [Hk [Hkne Hen]]]]. subst request.
    rewrite Hu, Hk, Hen in Hr.
    destruct (rstrip_slash u) as [| c u'] eqn:Eu; [congruence |].
    destruct k as [| kc k']; [congruence |].
    cbn [str_empty truthy negb orb] in Hr.
    change (String.eqb (String kc k') "") with false in Hr.
    cbn [negb orb] in Hr. rewrite api_request_GET in Hr. cbv zeta in Hr.
    rewrite Hr. cbv beta. rewrite Eu.
    destruct (String.eqb service_name "sonarr"); reflexivity. }
  split; [| exact Hready].
  destruct (qsettings env "prowlarr/url") as [[| b | z | u | l | d] |] eqn:Hu;
    try (left; eapply Hraise; exact Hr).
  destruct (rstrip_slash u) as [| c u'] eqn:Eu;
    [left; eapply Hraise; exact Hr |].
  destruct (keyring_password env "prowlarr_api_key") as [[| kc k'] |] eqn:Hk;
    try (left; eapply Hraise; exact Hr).
  destruct (truthy (get_plugin_setting env "prowlarr" "enabled" (JBool false)))
    eqn:Hen; [| left; eapply Hraise; exact Hr].
  right. exists u, (String kc k').
  assert (Hok : ready u (String kc k')).
  { subst ready. cbv beta. rewrite Eu. repeat split; discriminate. }
  split; [exact Hok | apply Hready; exact Hok].
Qed.

(** The comprehension of the artist search over a list of objects. *)
Lemma unwrap_artists (found : list dict) (st : Task.state) :
  (fix unwrap (l : list json) : Task.M (list json) :=
     match l with
     | [] => Eff.ret []
     | item :: l' =>
         Eff.bind (attr_get item "artist")
           (fun a =>
              if truthy a
              then Eff.bind (attr_get item "artist")
                     (fun a' =>
                        Eff.bind (unwrap l')
                          (fun rest => Eff.ret (a' :: rest)))
              else unwrap l')
     end) (map JDict found) st
  = (Returned (filter truthy (map (fun d => get d "artist") found)), st).
Proof.
  unfold attr_get, attr_get_default, Eff.bind, Eff.ret.
  induction found as [| d found IH]; [reflexivity |].
  cbn [map filter]. cbv beta iota fix in IH |- *.
  change (get_default d "artist" JNull) with (get d "artist").
  destruct (truthy (get d "artist")); [| exact IH].
  rewrite IH. reflexivity.
Qed.

(** X9: On a configured Lidarr tab every search type but "album" is an artist
search: one GET of [/api/v1/search] for the term, logged beforehand, and,
when the answer is a list of objects, the task returns the [artist] member
of each hit that has a true one, in their order, and drops the other hits.
Whatever the search type, the task never returns a false value other than
the empty list. *)
Theorem lidarr_artist_search :
  forall (term search_type : string) (st : Task.state) (u k : string)
         (found : list dict),
    let q := {| Http.req_verb := Http.GET;
                Http.req_url := u ++ "/api/v1/search";
                Http.req_headers := headers_for k service_name;
                Http.req_params := Some [("term", JStr term)];
                Http.req_json := None;
                Http.req_timeout := client_timeout env |} in
    fst (_get_arr_base_url env service_name st) = Returned (u, k) ->
    search_type <> "album" ->
    read_answer (net env (sent st) q) = Returned (JList (map JDict found)) ->
    LidarrTab_task_search_item env service_name term search_type st
    = (Returned (JList (filter truthy
                          (map (fun d => get d "artist") found))),
       {| sent := sent st ++ [q];
          logs := logs st
                  ++ [(INFO, "Lidarr searching for ARTIST: " ++ term
                             ++ "...")] |})
    /\ (forall ty v,
           fst (LidarrTab_task_search_item env service_name term ty st)
           = Returned v ->
           truthy v = true \/ v = JList []).
Proof.
  intros term search_type st u k found q Hcfg Hty Hans.
  split.
  - unfold LidarrTab_task_search_item. rewrite bind_base_url, Hcfg.
    destruct (String.eqb search_type "album") eqn:E;
      [apply String.eqb_eq in E; contradiction |].
    cbn [fst snd]. unfold Eff.bind at 1. unfold Eff.bind at 1.
    unfold Eff.bind at 1. unfold Task.log, Eff.modify.
    rewrite api_request_GET. cbn [sent logs]. fold q. rewrite Hans.
    unfold Eff.bind at 1. cbn [iterate]. unfold Eff.ret at 1.
    unfold Eff.bind at 1. rewrite unwrap_artists.
    unfold Eff.ret.
    destruct (filter truthy (map (fun d => get d "artist") found));
      reflexivity.
  - intros ty v. unfold LidarrTab_task_search_item. unfold Eff.bind at 1.
    destruct (_get_arr_base_url env service_name st) as [[cfg | e] s0];
      [| discriminate].
    unfold Eff.bind at 1.
    match goal with
    | |- context [match ?m s0 with _ => _ end] =>
        destruct (m s0) as [[response | e] s1]
    end; [| discriminate].
    unfold Eff.ret. cbn [fst]. intros Hv. inversion Hv.
    destruct (truthy response) eqn:Et; [left; exact Et | right; reflexivity].
Qed.

End Searches.

(** The gate at a Radarr tab with Prowlarr configured and enabled. *)
Lemma prowlarr_search_gate_witness :
  let env := Example.with_prowlarr "radarr" "http://radarr:7878" "rk"
                                   Example.offline in
  (qsettings env "prowlarr/url" = Some (JStr "http://prowlarr:9696/")
   /\ rstrip_slash "http://prowlarr:9696/" <> ""%string
   /\ keyring_password env "prowlarr_api_key" = Some "pk"%string
   /\ "pk"%string <> ""%string
   /\ truthy (get_plugin_setting env "prowlarr" "enabled" (JBool false)) = true)
  /\ map Http.req_url
         (sent (snd (_task_prowlarr_search (H := Example.runtime) env "radarr"
                       "Dune" Task.start)))
     = ["http://prowlarr:9696/api/v1/search"%string].
Proof.
  intros env.
  assert (Hready : qsettings env "prowlarr/url"
                   = Some (JStr "http://prowlarr:9696/")
                   /\ rstrip_slash "http://prowlarr:9696/" <> ""%string
                   /\ keyring_password env "prowlarr_api_key" = Some "pk"%string
                   /\ "pk"%string <> ""%string
                   /\ truthy (get_plugin_setting env "prowlarr" "enabled"
                                (JBool false)) = true).
  { repeat split; try reflexivity; discriminate. }
  split; [exact Hready |].
  destruct (@prowlarr_search_gate Example.runtime env "radarr" "Dune"
              Task.start) as [_ Hsend].
  rewrite (Hsend "http://prowlarr:9696/"%string "pk"%string Hready).
  reflexivity.
Defined.

(** An artist search whose two hits are an artist and an album. *)
Lemma lidarr_artist_search_witness :
  let env := {| qsettings := fun key =>
                  if String.eqb key "lidarr/url"
                  then Some (JStr "http://lidarr:8686/") else None;
                keyring_password := fun key =>
                  if String.eqb key "lidarr_api_key" then Some "lk"%string
                  else None;
                net := fun _ _ =>
                  Example.ok
                    (JList [JDict [("artist", JDict [("artistName", JStr "Can")])];
                            JDict [("album", JDict [("title", JStr "Tago Mago")])]]);
                client_timeout := 30 |} in
  fst (_get_arr_base_url env "lidarr" Task.start)
  = Returned ("http://lidarr:8686"%string, "lk"%string)
  /\ "artist"%string <> "album"%string
  /\ fst (LidarrTab_task_search_item (H := Example.runtime) env "lidarr" "Can"
            "artist" Task.start)
     = Returned (JList [JDict [("artistName", JStr "Can")]]).
Proof.
  intros env.
  split; [reflexivity |]. split; [discriminate |].
  destruct (@lidarr_artist_search Example.runtime env "lidarr" "Can" "artist"
              Task.start "http://lidarr:8686" "lk"
              [[("artist", JDict [("artistName", JStr "Can")])];
               [("album", JDict [("title", JStr "Tago Mago")])]])
    as [Hrun _]; [reflexivity | discriminate | reflexivity |].
  rewrite Hrun. reflexivity.
Defined.

(* ===================================================================== *)
(** ** White space and the terms of a CSV file *)
(* ===================================================================== *)

Section Terms.

#[local] Open Scope string_scope.














End Terms.


(* ===================================================================== *)
(** ** The edges of the handlers *)
(* ===================================================================== *)

Section HandlerEdges.

Context `{Runtime}.


(** X12: A CSV file that cannot be read, or that holds no term, starts nothing
and shows one box; but the queues pending from before are gone by then,
since the inputs were validated first, while the counter of the batch is
kept. *)
Theorem csv_failure_discards :
  forall (s : Tab.t) (file_path : string) (rows : outcome (list (list string))),
    file_path <> "" ->
    has_destination s = true ->
    match rows with
    | Raised _ => True
    | Returned r => csv_terms r = []
    end ->
    let s' := import_from_csv file_path rows s in
    terms_to_add_queue s' = []
    /\ items_to_add_queue s' = []
    /\ terms_to_add_total_count s' = terms_to_add_total_count s
    /\ started (trace s') = started (trace s)
    /\ (forall k, thread_of k s' = thread_of k s)
    /\ boxes (trace s')
       = boxes (trace s)
         ++ [match rows with
             | Raised e => MessageBox critical "CSV Error"
                                      ("Failed to read CSV:" ++ nl ++ exc_str e)
             | Returned _ => MessageBox warning "Empty CSV"
                                        "No valid terms found in CSV."
             end].
Proof.
  intros s file_path rows Hpath Hdest Hrows s'. subst s'.
  unfold import_from_csv. rewrite (str_empty_false Hpath).
  rewrite validate_inputs_eq by discriminate. rewrite Hdest.
  destruct rows as [r | e].
  - rewrite Hrows. cbn. unfold boxes. rewrite filter_app, started_app. cbn.
    rewrite app_nil_r. repeat split.
  - cbn. unfold boxes. rewrite !filter_app, !started_app. cbn.
    rewrite !app_nil_r. repeat split.
Qed.

(** X13: With nothing outstanding and both queues empty, [advance()] shows the
"Complete" box when the counter of the batch is positive, and resets the
counter; so a second call shows nothing, and neither starts a worker. *)
Theorem completion_notice_once :
  forall (s : Tab.t),
    search_thread s = None ->
    items_to_add_queue s = [] ->
    terms_to_add_queue s = [] ->
    let s1 := process_next_item_in_queue s in
    let s2 := process_next_item_in_queue s1 in
    boxes (trace s1)
    = boxes (trace s)
      ++ (if (0 <? terms_to_add_total_count s)%nat
          then [MessageBox information "Complete"
                           "All items have been processed."]
          else [])
    /\ terms_to_add_total_count s1 = 0
    /\ boxes (trace s2) = boxes (trace s1)
    /\ started (trace s2) = started (trace s).
Proof.
  intros s Hidle Hitems Hterms s1 s2.
  assert (H1 : s1 = if (0 <? terms_to_add_total_count s)%nat
                    then set_total 0
                           (does (MessageBox information "Complete"
                                             "All items have been processed.")
                                 (Tab.log INFO "Batch add complete." s))
                    else Tab.log INFO "Batch add complete." s).
  { subst s1. unfold process_next_item_in_queue.
    rewrite Hidle, Hitems, Hterms. reflexivity. }
  subst s2. clearbody s1. subst s1.
  destruct (terms_to_add_total_count s) as [| n] eqn:Htot;
    cbn [Nat.ltb Nat.leb]; unfold process_next_item_in_queue;
    cbn [Tab.log does set_total search_thread items_to_add_queue
         terms_to_add_queue terms_to_add_total_count];
    rewrite Hidle, Hitems, Hterms, ?Htot; cbn; unfold boxes;
    rewrite ?filter_app, ?started_app; cbn; rewrite ?app_nil_r;
    repeat split.
Qed.

(** X14: A refresh that failed leaves the entries of its combo box as they
were, logs the error and enables its button again.  A refresh answered with
an empty list empties the box, and from then on every term is refused for
want of a root folder, or of a quality profile. *)
Theorem refresh_outcomes :
  forall (s : Tab.t) (result : option (list dict)) (error term : string),
    error <> "" ->
    term <> "" ->
    let failed_folders := on_root_folders_finished result error s in
    let failed_profiles := on_quality_profiles_finished result error s in
    let no_folders := on_root_folders_finished (Some []) "" s in
    let no_profiles := on_quality_profiles_finished (Some []) "" s in
    (combo_root_folder failed_folders = combo_root_folder s
     /\ btn_refresh_folders failed_folders = true
     /\ trace failed_folders
        = trace s ++ [Logged ERROR ("Failed to fetch root folders: " ++ error)])
    /\ (combo_quality_profile failed_profiles = combo_quality_profile s
        /\ btn_refresh_profiles failed_profiles = true
        /\ trace failed_profiles
           = trace s
             ++ [Logged ERROR ("Failed to fetch quality profiles: " ++ error)])
    /\ _validate_inputs term no_folders
       = (false, does (MessageBox warning "No Root Folder"
                                  "Please select a root folder first.")
                      no_folders)
    /\ (count (combo_root_folder s) <> 0 ->
        _validate_inputs term no_profiles
        = (false, does (MessageBox warning "No Quality Profile"
                                   "Please select a quality profile first.")
                       no_profiles)).
Proof.
  intros s result error term Herr Hterm ff fp nf np. subst ff fp nf np.
  unfold on_root_folders_finished, on_quality_profiles_finished.
  rewrite (str_empty_false Herr). cbn [str_empty].
  split; [repeat split |]. split; [repeat split |]. split.
  - rewrite validate_inputs_eq by assumption. reflexivity.
  - intros Hcount. rewrite validate_inputs_eq by assumption.
    unfold has_destination. cbn.
    destruct (count (combo_root_folder s)) as [| n]; [congruence |].
    reflexivity.
Qed.

(** X15: [on_status_finished] publishes [service_status_changed] exactly once,
with the name of the tab's service, and enables the check button again.
The verdict is "up" only when the error text is empty and a result came
whose status is not "down": then both refreshes are asked for, so that both
threads are set and both refresh buttons disabled.  Otherwise it is "down",
the label reads UNAVAILABLE and nothing is started. *)
Theorem status_reported_once :
  forall (result : option dict) (error : string) (s : Tab.t),
    let s' := on_status_finished result error s in
    exists verdict,
      View.published (trace s')
      = View.published (trace s)
        ++ [Published "service_status_changed"
                      [JStr (service_name s); JStr verdict]]
      /\ btn_check_status s' = true
      /\ ((verdict = "down"
           /\ status_label s' = "UNAVAILABLE"
           /\ started (trace s') = started (trace s)
           /\ (forall k, thread_of k s' = thread_of k s))
          \/ (verdict = "up"
              /\ error = ""
              /\ (exists r, result = Some r
                            /\ is_str (get r "status") "down" = false)
              /\ status_label s' = "UP"
              /\ folders_thread s' <> None
              /\ profiles_thread s' <> None
              /\ btn_refresh_folders s' = false
              /\ btn_refresh_profiles s' = false)).
Proof.
  intros result error s s'. subst s'. unfold on_status_finished. cbv zeta.
  destruct (negb (str_empty error)
            || match result with
               | Some r => is_str (get r "status") "down"
               | None => true
               end) eqn:Hdown.
  - exists "down". cbn. unfold View.published. rewrite !filter_app. cbn.
    rewrite app_nil_r. split; [reflexivity |]. split; [reflexivity |].
    left. rewrite !started_app. cbn. rewrite !app_nil_r.
    repeat split.
  - apply orb_false_elim in Hdown. destruct Hdown as [Herr Hres].
    destruct error; [| discriminate].
    destruct result as [r |]; [| discriminate].
    exists "up".
    unfold refresh_quality_profiles, refresh_root_folders, _start_worker.
    cbn [thread_of set_widgets folders_thread profiles_thread publish does
         btn_check_status btn_refresh_folders btn_refresh_profiles
         status_label].
    destruct (folders_thread s) as [wf |] eqn:Hf;
      destruct (profiles_thread s) as [wp |] eqn:Hp;
      cbn; rewrite ?Hf, ?Hp; cbn; unfold View.published;
      rewrite !filter_app; cbn; rewrite ?app_nil_r;
      (split; [reflexivity |]); (split; [reflexivity |]); right;
      (split; [reflexivity |]); (split; [reflexivity |]);
      (split; [exists r; split; [reflexivity | exact Hres] |]);
      repeat split; cbn; rewrite ?Hf, ?Hp; discriminate.
Qed.

(** X16: The search type an item is queued with is the one the tab has when the
candidate is selected: once the type box of the music tab reads "Album", in
any letter case, every candidate selected is queued as an album, whatever
search found it, and the payload builder refuses it. *)
Theorem search_type_at_selection :
  forall (s : Tab.t) (text : string) (candidate : dict) (to : dict * dict)
         (st : Task.state),
    lower text = "album" ->
    destination s = Some to ->
    let s' := on_item_selected candidate (_on_search_type_changed text s) in
    exists item,
      items_to_add_queue s' = (items_to_add_queue s ++ [item])%list
      /\ item_json item = candidate
      /\ search_type item = "album"
      /\ _build_add_payload LidarrTab candidate item st
         = (Raised album_error, st).
Proof.
  intros s text candidate to st Htext Hdest s'. subst s'.
  rewrite on_item_selected_eq. unfold _on_search_type_changed.
  change (destination (set_search_type (lower text) s)) with (destination s).
  rewrite Hdest. eexists. split; [reflexivity |]. split; [reflexivity |].
  cbn [pending search_type set_search_type current_search_type].
  split; [exact Htext |].
  unfold _build_add_payload, LidarrTab_build_add_payload.
  cbn [search_type]. rewrite Htext. reflexivity.
Qed.

End HandlerEdges.


(** A file with a header only, picked while a term waits in the queue. *)
Lemma csv_failure_discards_witness :
  let s := set_terms ["Arrival"] (Example.ready RadarrTab "radarr") in
  "movies.csv"%string <> ""%string
  /\ has_destination s = true
  /\ csv_terms [["title"%string]] = []
  /\ terms_to_add_queue
       (import_from_csv (H := Example.runtime) "movies.csv"
                        (Returned [["title"%string]]) s) = [].
Proof.
  intros s.
  assert (Hpath : "movies.csv"%string <> ""%string) by discriminate.
  split; [exact Hpath |]. split; [reflexivity |]. split; [reflexivity |].
  destruct (@csv_failure_discards Example.runtime s "movies.csv"
              (Returned [["title"%string]]) Hpath eq_refl eq_refl)
    as [Hterms _].
  exact Hterms.
Defined.

(** The end of a batch of two terms. *)
Lemma completion_notice_once_witness :
  let s := set_total 2 (Example.ready RadarrTab "radarr") in
  search_thread s = None
  /\ items_to_add_queue s = []
  /\ terms_to_add_queue s = []
  /\ terms_to_add_total_count
       (process_next_item_in_queue (H := Example.runtime) s) = 0.
Proof.
  intros s. split; [reflexivity |]. split; [reflexivity |].
  split; [reflexivity |].
  destruct (@completion_notice_once Example.runtime s eq_refl eq_refl eq_refl)
    as [_ [Hzero _]].
  exact Hzero.
Defined.

(** A refresh of the root folders that failed on a filled tab. *)
Lemma refresh_outcomes_witness :
  let s := Example.ready RadarrTab "radarr" in
  "connection refused"%string <> ""%string
  /\ "Dune"%string <> ""%string
  /\ combo_root_folder
       (on_root_folders_finished None "connection refused" s)
     = combo_root_folder s.
Proof.
  intros s.
  assert (Herr : "connection refused"%string <> ""%string) by discriminate.
  assert (Hterm : "Dune"%string <> ""%string) by discriminate.
  split; [exact Herr |]. split; [exact Hterm |].
  destruct (@refresh_outcomes s None "connection refused" "Dune" Herr Hterm)
    as [[Hcombo _] _].
  exact Hcombo.
Defined.

(** An artist chosen after the type box was set to "Album". *)
Lemma search_type_at_selection_witness :
  let s := Example.ready LidarrTab "lidarr" in
  lower "Album" = "album"%string
  /\ destination s = Some (Example.movies_root, Example.hd_profile)
  /\ exists item,
       items_to_add_queue
         (on_item_selected (H := Example.runtime)
            [("artistName", JStr "Can")]
            (_on_search_type_changed "Album" s)) = [item]
       /\ search_type item = "album"%string.
Proof.
  intros s. split; [reflexivity |]. split; [reflexivity |].
  destruct (@search_type_at_selection Example.runtime s "Album"
              [("artistName", JStr "Can")]
              (Example.movies_root, Example.hd_profile) Task.start
              eq_refl eq_refl) as [item [Hq [_ [Hty _]]]].
  exists item. split; [exact Hq | exact Hty].
Defined.

(* ===================================================================== *)
(** ** From a task to its callback *)
(* ===================================================================== *)

Section EndToEnd.

Context `{Runtime}.
Variable env : Env.
Variable cls : tab_class.
Variable service_name : string.

(** The one [finished] signal of a worker the tab started. *)
Lemma signals_eq (w : worker) (o : outcome json) :
  signals w o
  = [(w,
      match o with Returned v => v | Raised _ => JNull end,
      match o with Returned _ => ""%string | Raised e => exc_str e end)].
Proof. destruct o; reflexivity. Qed.

(** X17: A whole status check: whatever the settings and the service, the task
ends, its worker emits one signal, the callback accepts it and publishes
[service_status_changed] once.  The verdict published is "up" exactly when
the URL and the key are set and the answer to [system/status] decodes to an
object. *)
Theorem status_check_end_to_end :
  forall (st : Task.state) (s : Tab.t) (id : nat) (dlg : answer),
    let w := {| w_id := id; w_slot := Status; w_task := get_status;
                w_callback := status_finished |} in
    let o := fst (_task_get_status env cls service_name st) in
    exists result error s' verdict,
      signals w o = [(w, result, error)]
      /\ deliver w result error dlg s = Some s'
      /\ View.published (trace s')
         = View.published (trace s)
           ++ [Published "service_status_changed"
                         [JStr (Tab.service_name s); JStr verdict]]
      /\ (verdict = "up"%string \/ verdict = "down"%string)
      /\ (verdict = "up"%string
          <-> exists u k d,
                fst (_get_arr_base_url env service_name st) = Returned (u, k)
                /\ read_answer
                     (net env (sent st)
                        {| Http.req_verb := Http.GET;
                           Http.req_url := (u ++ "/api/" ++ api_version cls
                                              ++ "/system/status")%string;
                           Http.req_headers := headers_for k service_name;
                           Http.req_params := None; Http.req_json := None;
                           Http.req_timeout := client_timeout env |})
                   = Returned (JDict d)).
Proof.
  intros st s id dlg w o.
  assert (Hdown : forall (r : option dict) (e : string),
             match r with
             | None => True
             | Some d => is_str (get d "status") "down" = true
             end ->
             View.published (trace (on_status_finished r e s))
             = View.published (trace s)
               ++ [Published "service_status_changed"
                             [JStr (Tab.service_name s); JStr "down"]]).
  { intros r e Hr. unfold on_status_finished. cbv zeta.
    replace (negb (str_empty e)
             || match r with
                | Some r0 => is_str (get r0 "status") "down"
                | None => true
                end) with true
      by (destruct r; [rewrite Hr |]; now rewrite orb_true_r).
    cbn. unfold View.published. rewrite !filter_app. cbn.
    now rewrite app_nil_r. }
  assert (Hup : forall (d : dict),
             is_str (get d "status") "down" = false ->
             View.published (trace (on_status_finished (Some d) "" s))
             = View.published (trace s)
               ++ [Published "service_status_changed"
                             [JStr (Tab.service_name s); JStr "up"]]).
  { intros d Hd. unfold on_status_finished. cbv zeta. cbn [str_empty negb orb].
    rewrite Hd.
    unfold refresh_quality_profiles, refresh_root_folders, _start_worker.
    cbn [thread_of set_widgets folders_thread profiles_thread publish does
         btn_check_status btn_refresh_folders btn_refresh_profiles
         status_label].
    destruct (folders_thread s) as [wf |] eqn:Hf;
      destruct (profiles_thread s) as [wp |] eqn:Hp;
      cbn; rewrite ?Hf, ?Hp; cbn; unfold View.published;
      rewrite !filter_app; cbn; now rewrite ?app_nil_r. }
  pose proof (get_status_eq env cls service_name st) as Htask.
  cbv zeta in Htask. fold o in Htask. rewrite signals_eq.
  assert (Ho : o = fst (_task_get_status env cls service_name st))
    by reflexivity.
  clearbody o.
  destruct (fst (_get_arr_base_url env service_name st)) as [[u k] | e].
  - destruct (read_answer _) as [v | e] eqn:Hans.
    + destruct v as [| b | z | x | l | d];
        try (rewrite Htask in Ho; cbn [fst] in Ho; subst o;
             eexists; eexists; eexists; exists "down"%string;
             split; [reflexivity |]; split; [reflexivity |];
             split; [apply Hdown; reflexivity |];
             split; [right; reflexivity |];
             split; [intros Hv; discriminate Hv |];
             intros [u' [k' [d' [Hcfg Hd']]]]; inversion Hcfg; subst;
             rewrite Hans in Hd'; discriminate Hd').
      rewrite Htask in Ho. cbn [fst] in Ho. subst o.
      eexists. eexists. eexists. exists "up"%string.
      split; [reflexivity |]. split; [reflexivity |].
      split; [apply Hup; reflexivity |]. split; [left; reflexivity |].
      split; [| reflexivity]. intros _. exists u, k, d.
      split; [reflexivity | exact Hans].
    + rewrite Htask in Ho. cbn [fst] in Ho. subst o.
      eexists. eexists. eexists. exists "down"%string.
      split; [reflexivity |]. split; [reflexivity |].
      split; [apply Hdown; reflexivity |]. split; [right; reflexivity |].
      split; [intros Hv; discriminate Hv |].
      intros [u' [k' [d' [Hcfg Hd']]]]. inversion Hcfg. subst.
      rewrite Hans in Hd'. discriminate Hd'.
  - rewrite Htask in Ho. cbn [fst] in Ho. subst o.
    eexists. eexists. eexists. exists "down"%string.
    split; [reflexivity |]. split; [reflexivity |].
    split; [apply Hdown; exact I |]. split; [right; reflexivity |].
    split; [intros Hv; discriminate Hv |].
    intros [u' [k' [d' [Hcfg _]]]]. discriminate Hcfg.
Qed.


End EndToEnd.


(* ===================================================================== *)
(** ** The counter of a batch *)
(* ===================================================================== *)

Section BatchCounter.

Context `{Runtime}.

Lemma keeps_counted (s s' : Tab.t) :
  View.keeps s s' -> View.counted s -> View.counted s'.
Proof. intros [Ht Hc]. unfold View.counted. now rewrite Ht, Hc. Qed.

Lemma keeps_start_worker k tk cb s : View.keeps s (_start_worker k tk cb s).
Proof. unfold _start_worker. destruct (thread_of k s); split; reflexivity. Qed.

Lemma keeps_on_item_selected item s : View.keeps s (on_item_selected item s).
Proof.
  rewrite on_item_selected_eq. destruct (destination s); split; reflexivity.
Qed.

Lemma keeps_select_all (selected : list dict) :
  forall s, View.keeps s (fold_left (fun s item => on_item_selected item s)
                              selected s).
Proof.
  induction selected as [| item rest IH]; intros s; cbn [fold_left].
  - split; reflexivity.
  - destruct (IH (on_item_selected item s)) as [Ht Hc].
    destruct (keeps_on_item_selected item s) as [Ft Fc].
    split; congruence.
Qed.

Lemma counted_process_next s :
  View.counted s -> View.counted (process_next_item_in_queue s).
Proof.
  unfold View.counted, process_next_item_in_queue. intros Hs.
  destruct (search_thread s); [exact Hs |].
  destruct (items_to_add_queue s) as [| item rest].
  - destruct (terms_to_add_queue s) as [| term rest] eqn:Hterms.
    + cbv zeta. cbn [Tab.log does terms_to_add_total_count].
      destruct (0 <? terms_to_add_total_count s)%nat; cbn;
        rewrite Hterms; cbn; lia.
    + cbv zeta. unfold _run_search_worker.
      match goal with
      | |- context [_start_worker ?k ?tk ?cb ?s0] =>
          destruct (keeps_start_worker k tk cb s0) as [-> ->]
      end.
      cbn in Hs |- *. lia.
  - cbv zeta. unfold _run_add_worker.
    match goal with
    | |- context [_start_worker ?k ?tk ?cb ?s0] =>
        destruct (keeps_start_worker k tk cb s0) as [-> ->]
    end.
    exact Hs.
Qed.

Lemma validate_inputs_counted term s :
  View.counted s -> View.counted (snd (_validate_inputs term s)).
Proof.
  unfold View.counted, _validate_inputs. intros Hs.
  destruct (negb (String.eqb term "N/A") && str_empty term); [exact Hs |].
  destruct (count (combo_root_folder s) =? 0)%nat; [exact Hs |].
  destruct (count (combo_quality_profile s) =? 0)%nat; [exact Hs |].
  cbn. lia.
Qed.

Lemma counted_add_from_text s :
  View.counted s -> View.counted (add_from_text s).
Proof.
  intros Hs. unfold add_from_text.
  pose proof (validate_inputs_counted (strip (search_input s)) Hs) as Hv.
  destruct (_validate_inputs (strip (search_input s)) s) as [[|] s1];
    [| exact Hv].
  apply counted_process_next. unfold View.counted. cbn. lia.
Qed.

Lemma counted_import_from_csv file_path rows s :
  View.counted s -> View.counted (import_from_csv file_path rows s).
Proof.
  intros Hs. unfold import_from_csv.
  destruct (str_empty file_path); [exact Hs |].
  pose proof (validate_inputs_counted "N/A" Hs) as Hv.
  destruct (_validate_inputs "N/A" s) as [[|] s1]; [| exact Hv].
  cbn [snd] in Hv. destruct rows as [rows | e]; [| exact Hv].
  destruct (csv_terms rows) as [| t ts]; [exact Hv |].
  apply counted_process_next. unfold View.counted. cbn. lia.
Qed.

Lemma counted_start_search_and_add term ty s :
  View.counted s -> View.counted (start_search_and_add term ty s).
Proof.
  intros Hs. unfold start_search_and_add.
  destruct (str_empty term); [exact Hs |].
  pose proof (validate_inputs_counted term Hs) as Hv.
  destruct (_validate_inputs term s) as [[|] s1]; [| exact Hv].
  apply counted_process_next. unfold View.counted. cbn. lia.
Qed.

Lemma counted_perform (a : action) (s : Tab.t) :
  View.counted s -> View.counted (perform a s).
Proof.
  intros Hs. destruct a; cbn [perform].
  - unfold check_status.
    eapply keeps_counted; [apply keeps_start_worker | exact Hs].
  - unfold refresh_root_folders.
    eapply keeps_counted; [apply keeps_start_worker | exact Hs].
  - unfold refresh_quality_profiles.
    eapply keeps_counted; [apply keeps_start_worker | exact Hs].
  - exact Hs.
  - now apply counted_add_from_text.
  - now apply counted_import_from_csv.
  - unfold _on_add_request.
    destruct (String.eqb (lower name) (lower (Tab.service_name s)));
      [| exact Hs].
    now apply counted_start_search_and_add.
  - unfold check_status.
    eapply keeps_counted; [apply keeps_start_worker | exact Hs].
  - exact Hs.
  - exact Hs.
  - destruct (Tab.cls s); exact Hs.
Qed.

Lemma counted_deliver (w : worker) (result : json) (error : string)
  (dlg : answer) (s s' : Tab.t) :
  deliver w result error dlg s = Some s' -> View.counted s -> View.counted s'.
Proof.
  unfold deliver. intros Hd Hs.
  destruct (w_callback w).
  - destruct (as_dict result) as [r |]; [| discriminate].
    inversion Hd. subst s'. unfold on_status_finished. cbv zeta.
    destruct (negb (str_empty error) || _); [exact Hs |].
    unfold refresh_quality_profiles, refresh_root_folders.
    eapply keeps_counted; [apply keeps_start_worker |].
    eapply keeps_counted; [apply keeps_start_worker |]. exact Hs.
  - destruct (as_dicts result) as [r |]; [| discriminate].
    inversion Hd. subst s'. unfold on_root_folders_finished.
    destruct (if str_empty error then r else None); exact Hs.
  - destruct (as_dicts result) as [r |]; [| discriminate].
    inversion Hd. subst s'. unfold on_quality_profiles_finished.
    destruct (if str_empty error then r else None); exact Hs.
  - destruct (as_dicts result) as [r |]; [| discriminate].
    inversion Hd. subst s'. unfold on_search_finished. cbv zeta.
    apply counted_process_next.
    destruct (if str_empty error then r else None) as [[| c [| c' cs]] |];
      try exact Hs.
    + eapply keeps_counted; [apply keeps_on_item_selected | exact Hs].
    + destruct (accepted dlg); [| exact Hs].
      destruct (selected_items dlg) as [| x xs]; [exact Hs |].
      eapply keeps_counted; [apply keeps_select_all | exact Hs].
  - destruct (as_dict result) as [r |]; [| discriminate].
    inversion Hd. subst s'. unfold on_add_finished. cbv zeta.
    apply counted_process_next.
    destruct (if str_empty error then r else None); [exact Hs |].
    destruct (already_exists error); exact Hs.
Qed.

(** X19: In every state a tab goes through, the search terms waiting are no
more than the counter of the batch; so the progress line of a search,
"Processing SEARCH k/total", always has [k] between 1 and the total. *)
Theorem queue_within_total :
  forall (c : tab_class) (name : string) (sys : system),
    reachable c name sys ->
    List.length (terms_to_add_queue (ui sys))
    <= terms_to_add_total_count (ui sys)
    /\ (forall term rest,
           terms_to_add_queue (ui sys) = term :: rest ->
           (1 <= Z.of_nat (terms_to_add_total_count (ui sys))
                 - Z.of_nat (List.length rest)
            <= Z.of_nat (terms_to_add_total_count (ui sys)))%Z).
Proof.
  intros c name sys Hreach.
  assert (Hc : View.counted (ui sys)).
  { induction Hreach as [| sys sys' _ IH Hstep].
    - unfold View.counted. cbn. lia.
    - destruct Hstep as [a sys | w o sys Hin
                         | w result error dlg rest ui' sys Hp Hd
                         | k w sys Hk Hr]; cbn [ui].
      + now apply counted_perform.
      + exact IH.
      + exact (counted_deliver _ _ _ _ Hd IH).
      + destruct k; exact IH. }
  split; [exact Hc |].
  intros term rest Hq. unfold View.counted in Hc. rewrite Hq in Hc.
  cbn [List.length] in Hc. lia.
Qed.

End BatchCounter.

(** The counter while the first of two imported titles is searched. *)
Lemma queue_within_total_witness :
  let sys := Example.or_else
               (play (H := Example.runtime) Example.csv_imported
                     (boot RadarrTab "radarr"))
               (boot RadarrTab "radarr") in
  reachable (H := Example.runtime) RadarrTab "radarr" sys
  /\ terms_to_add_queue (ui sys) = ["Arrival"%string]
  /\ List.length (terms_to_add_queue (ui sys))
     <= terms_to_add_total_count (ui sys).
Proof.
  intros sys.
  assert (Hreach : reachable (H := Example.runtime) RadarrTab "radarr" sys).
  { apply (@play_reachable Example.runtime RadarrTab "radarr"
             Example.csv_imported (boot RadarrTab "radarr"));
      [apply reach_boot | vm_compute; reflexivity]. }
  split; [exact Hreach |]. split; [vm_compute; reflexivity |].
  destruct (@queue_within_total Example.runtime RadarrTab "radarr" sys Hreach)
    as [Hle _].
  exact Hle.
Defined.

(* ===================================================================== *)
(** ** The chooser *)
(* ===================================================================== *)

Section Chooser.

Lemma insert_In (row : nat) (rows : list nat) (x : nat) :
  In x (Dialog.insert row rows) <-> x = row \/ In x rows.
Proof.
  induction rows as [| r rows IH].
  - cbn. split; [intros [<- | []]; now left | intros [-> | []]; now left].
  - cbn [Dialog.insert]. destruct (row <? r)%nat eqn:Hlt.
    + split; [intros [<- | Hx]; [now left | now right]
             | intros [-> | Hx]; [now left | now right]].
    + destruct (row =? r)%nat eqn:Heq.
      * apply Nat.eqb_eq in Heq. subst r.
        split; [intros Hx; now right | intros [-> | Hx]; [now left | exact Hx]].
      * split.
        -- intros [<- | Hx]; [right; now left |].
           apply IH in Hx. destruct Hx as [-> | Hx];
             [now left | right; now right].
        -- intros [-> | [<- | Hx]].
           ++ right. apply IH. now left.
           ++ now left.
           ++ right. apply IH. now right.
Qed.

Lemma ascending_cons (n : nat) (l : list nat) :
  View.ascending (n :: l) = true
  <-> View.ascending l = true /\ (forall m, In m l -> n < m).
Proof.
  revert n. induction l as [| m l IH]; intros n.
  - cbn. intuition.
  - change (View.ascending (n :: m :: l))
      with ((n <? m)%nat && View.ascending (m :: l)).
    rewrite andb_true_iff, Nat.ltb_lt. split.
    + intros [Hnm Hl]. split; [exact Hl |].
      intros x [<- | Hx]; [exact Hnm |].
      apply IH in Hl. destruct Hl as [_ Hl]. specialize (Hl x Hx). lia.
    + intros [Hl Hall]. split; [apply Hall; now left | exact Hl].
Qed.

Lemma insert_ascending (row : nat) (rows : list nat) :
  View.ascending rows = true -> View.ascending (Dialog.insert row rows) = true.
Proof.
  induction rows as [| r rows IH]; [reflexivity |]. intros Hasc.
  cbn [Dialog.insert]. destruct (row <? r)%nat eqn:Hlt.
  - change (View.ascending (row :: r :: rows))
      with ((row <? r)%nat && View.ascending (r :: rows)).
    now rewrite Hlt, Hasc.
  - destruct (row =? r)%nat eqn:Heq; [exact Hasc |].
    apply Nat.ltb_ge in Hlt. apply Nat.eqb_neq in Heq.
    apply ascending_cons in Hasc. destruct Hasc as [Hrows Hall].
    apply ascending_cons. split; [now apply IH |].
    intros m Hm. apply insert_In in Hm. destruct Hm as [-> | Hm]; [lia |].
    now apply Hall.
Qed.

(** [sorted(set(rows))] holds the rows given, each once, in ascending
order. *)
Lemma sorted_set_spec (rows : list nat) :
  View.ascending (Dialog.sorted_set rows) = true
  /\ (forall x, In x (Dialog.sorted_set rows) <-> In x rows).
Proof.
  induction rows as [| r rows [Hasc Hin]]; [split; [reflexivity | tauto] |].
  cbn. split; [now apply insert_ascending |].
  intros x. rewrite insert_In, Hin.
  split; [intros [-> | Hx]; [now left | now right]
         | intros [<- | Hx]; [now left | now right]].
Qed.

Lemma items_at_spec (d : Dialog.t) (rows : list nat) (items : list dict) :
  Dialog.items_at d rows = Returned items ->
  map Some items = map (nth_error (Dialog.results d)) rows.
Proof.
  revert items. induction rows as [| r rows IH]; intros items; cbn.
  - intros Heq. inversion Heq. reflexivity.
  - unfold Dialog.item_at.
    destruct (nth_error (Dialog.results d) r) as [item |]; [| discriminate].
    destruct (Dialog.items_at d rows) as [rest | e]; [| discriminate].
    intros Heq. inversion Heq. cbn. now rewrite (IH rest eq_refl).
Qed.

(** X20: Whatever the user does with the chooser, when it is closed as accepted
its selection is not empty and is made of results it was given; a "Select"
with nothing selected leaves it open and warns.  After "Select" the
selection is the results of the selected rows, each once, by ascending row.
So the callback of a search never meets an accepted chooser without a
selection. *)
Theorem chooser_selection :
  forall (results : list dict) (gestures : list Dialog.gesture)
         (rows : list nat) (d : Dialog.t),
    (Dialog.use gestures (Dialog.init results) = Returned d ->
     Tab.accepted (Dialog.answer_of d) = true ->
     Tab.selected_items (Dialog.answer_of d) <> []
     /\ (forall item, In item (Tab.selected_items (Dialog.answer_of d)) ->
                      In item results))
    /\ (Dialog.validate_and_accept rows (Dialog.init results) = Returned d ->
        match Dialog.closed d with
        | None => rows = [] /\ Dialog.selected_items d = []
                  /\ List.length (Dialog.warnings d) = 1
        | Some ok =>
            ok = true
            /\ rows <> []
            /\ View.ascending (Dialog.sorted_set rows) = true
            /\ (forall r, In r (Dialog.sorted_set rows) <-> In r rows)
            /\ map Some (Dialog.selected_items d)
               = map (nth_error results) (Dialog.sorted_set rows)
        end).
Proof.
  intros results gestures rows d.
  assert (Hitems : forall (d0 : Dialog.t) rs items,
             Dialog.items_at d0 rs = Returned items ->
             forall item, In item items -> In item (Dialog.results d0)).
  { intros d0 rs items Hat item Hitem. apply items_at_spec in Hat.
    apply (in_map Some) in Hitem. rewrite Hat in Hitem.
    apply in_map_iff in Hitem. destruct Hitem as [r [Hr _]].
    now apply nth_error_In in Hr. }
  split.
  - (* any use of the dialog *)
    assert (Hgen : forall gs (d0 : Dialog.t),
               Dialog.results d0 = results ->
               (Dialog.closed d0 = Some true ->
                Dialog.selected_items d0 <> []
                /\ forall item, In item (Dialog.selected_items d0) ->
                                In item results) ->
               Dialog.use gs d0 = Returned d ->
               Dialog.closed d = Some true ->
               Dialog.selected_items d <> []
               /\ forall item, In item (Dialog.selected_items d) ->
                               In item results).
    { induction gs as [| g gs IH]; intros d0 Hres Hinv Huse Hclosed.
      - cbn in Huse. destruct (Dialog.closed d0) eqn:Hc;
          inversion Huse; subst d0; apply Hinv; congruence.
      - cbn in Huse. destruct (Dialog.closed d0) as [b |] eqn:Hc.
        + inversion Huse. subst d0. apply Hinv. congruence.
        + destruct g as [rs | r |].
          * unfold Dialog.validate_and_accept in Huse.
            destruct (Dialog.sorted_set rs) as [| r0 rs0] eqn:Hs.
            -- eapply IH; [| | exact Huse | exact Hclosed]; cbn;
                 [exact Hres | rewrite Hc; discriminate].
            -- destruct (Dialog.items_at d0 (r0 :: rs0)) as [items | e]
                 eqn:Hat; [| discriminate].
               eapply IH; [| | exact Huse | exact Hclosed]; cbn;
                 [exact Hres |].
               intros _. split.
               ++ cbn in Hat. destruct (Dialog.item_at d0 r0);
                    [| discriminate].
                  destruct (Dialog.items_at d0 rs0); [| discriminate].
                  inversion Hat. discriminate.
               ++ rewrite <- Hres. exact (Hitems d0 _ _ Hat).
          * unfold Dialog.on_double_click, Dialog.item_at in Huse.
            destruct (nth_error (Dialog.results d0) r) as [item |] eqn:Hn;
              [| discriminate].
            eapply IH; [| | exact Huse | exact Hclosed]; cbn;
              [exact Hres |].
            intros _. split; [discriminate |].
            intros x [<- | []]. rewrite <- Hres.
            now apply nth_error_In in Hn.
          * eapply IH; [| | exact Huse | exact Hclosed]; cbn;
              [exact Hres | discriminate]. }
    intros Huse Hacc. unfold Dialog.answer_of in *. cbn in *.
    unfold Dialog.get_selected_items.
    destruct (Dialog.closed d) as [[|] |] eqn:Hc; try discriminate.
    apply (Hgen gestures (Dialog.init results)); auto.
    cbn. discriminate.
  - (* one "Select" *)
    unfold Dialog.validate_and_accept.
    destruct (sorted_set_spec rows) as [Hasc Hin].
    destruct (Dialog.sorted_set rows) as [| r0 rs0] eqn:Hs.
    + intros Heq. inversion Heq. cbn.
      split; [| split; reflexivity].
      destruct rows as [| r rows']; [reflexivity |].
      exfalso. apply (Hin r). now left.
    + destruct (Dialog.items_at (Dialog.init results) (r0 :: rs0))
        as [items | e] eqn:Hat; [| discriminate].
      intros Heq. inversion Heq. cbn.
      split; [reflexivity |]. split.
      * intros ->. destruct (Hin r0) as [Hr _]. apply Hr. now left.
      * split; [exact Hasc |]. split; [exact Hin |].
        apply items_at_spec in Hat. exact Hat.
Qed.

End Chooser.

(** A user who presses "Select" with nothing selected, then selects the
third and the first row, in that order. *)
Lemma chooser_selection_witness :
  let results := [Example.dune; Example.arrival; Example.movies_root] in
  let d := {| Dialog.results := results;
              Dialog.selected_items := [Example.dune; Example.movies_root];
              Dialog.closed := Some true;
              Dialog.warnings :=
                [("No Selection"%string,
                  "Please select at least one item, or click Skip."%string)] |} in
  Dialog.use [Dialog.press_select []; Dialog.press_select [2; 0; 2]]
             (Dialog.init results) = Returned d
  /\ Tab.accepted (Dialog.answer_of d) = true
  /\ Tab.selected_items (Dialog.answer_of d) <> [].
Proof.
  intros results d.
  assert (Huse : Dialog.use [Dialog.press_select [];
                             Dialog.press_select [2; 0; 2]]
                            (Dialog.init results) = Returned d)
    by reflexivity.
  split; [exact Huse |]. split; [reflexivity |].
  destruct (@chooser_selection results
              [Dialog.press_select []; Dialog.press_select [2; 0; 2]]
              [] d) as [Hany _].
  destruct (Hany Huse eq_refl) as [Hne _]. exact Hne.
Defined.

(* ===================================================================== *)
(** ** A worker that was stopped *)
(* ===================================================================== *)

(** X21: [stop] does not cancel anything: a stopped worker still runs its task
to the end, once, and leaves the world as the task leaves it; only the
[finished] signal is withheld.  Stopped or not, and whether the task
returns or raises, a run never raises and emits the same two progress
messages, the first before everything else and the second after. *)
Theorem stopped_worker_still_runs :
  forall (World : Type) (w : ApiWorker.t World) (wd : World),
    let ran w' := ApiWorker.run w' (ApiWorker.start wd) in
    let messages := [("Starting task: " ++ ApiWorker.task_name w ++ "...")%string;
                     ("Task finished: " ++ ApiWorker.task_name w)%string] in
    ApiWorker.world (snd (ran (ApiWorker.stop w)))
    = snd (ApiWorker.task_callable w wd)
    /\ ApiWorker.world (snd (ran w)) = snd (ApiWorker.task_callable w wd)
    /\ fst (ran (ApiWorker.stop w)) = Returned tt
    /\ ApiWorker.finished_of (ApiWorker.emitted (snd (ran (ApiWorker.stop w))))
       = []
    /\ View.progress_of (ApiWorker.emitted (snd (ran (ApiWorker.stop w))))
       = messages
    /\ View.progress_of (ApiWorker.emitted (snd (ran w))) = messages
    /\ hd_error (ApiWorker.emitted (snd (ran w)))
       = Some (ApiWorker.progress
                 ("Starting task: " ++ ApiWorker.task_name w ++ "..."))
    /\ last (ApiWorker.emitted (snd (ran w))) (ApiWorker.logged DEBUG "")
       = ApiWorker.progress ("Task finished: " ++ ApiWorker.task_name w).
Proof.
  intros World w wd ran messages. subst ran messages. cbv beta.
  rewrite !run_unfold. cbn [ApiWorker.stop ApiWorker.task_callable
                            ApiWorker.task_name ApiWorker.is_running].
  destruct (ApiWorker.task_callable w wd) as [[v | e] wd'];
    destruct (ApiWorker.is_running w); cbn; repeat split.
Qed.

(* ===================================================================== *)
(** ** Workers, tasks and callbacks *)
(* ===================================================================== *)

Section Pairing.

Context `{Runtime}.

Lemma quiet_paired (s s' : Tab.t) :
  View.quiet s s' -> View.paired s -> View.paired s'.
Proof. unfold View.quiet, View.paired. now intros ->. Qed.

Lemma paired_start_worker k tk cb s :
  View.matched {| w_id := next_id s; w_slot := k; w_task := tk;
                  w_callback := cb |} = true ->
  View.paired s -> View.paired (_start_worker k tk cb s).
Proof.
  unfold View.paired, _start_worker. intros Hm Hs.
  destruct (thread_of k s); cbn [trace Tab.log does set_next_id set_thread];
    rewrite started_app; cbn [started flat_map app]; rewrite ?app_nil_r;
    [exact Hs |].
  apply Forall_app. split; [exact Hs |]. now constructor.
Qed.

Lemma paired_does e s :
  match e with Started _ => False | _ => True end ->
  View.paired s -> View.paired (does e s).
Proof.
  unfold View.paired. intros He Hs. cbn [trace does]. rewrite started_app.
  destruct e; try destruct He; cbn; now rewrite app_nil_r.
Qed.

Lemma paired_process_next s :
  View.paired s -> View.paired (process_next_item_in_queue s).
Proof.
  intros Hs. unfold process_next_item_in_queue.
  destruct (search_thread s); [now apply paired_does |].
  destruct (items_to_add_queue s) as [| item rest].
  - destruct (terms_to_add_queue s) as [| term rest].
    + cbv zeta.
      destruct (0 <? _)%nat; [| now apply paired_does].
      apply (paired_does (MessageBox information "Complete"
                            "All items have been processed.") I).
      now apply paired_does.
    + cbv zeta. unfold _run_search_worker.
      apply paired_start_worker; [reflexivity |]. now apply paired_does.
  - cbv zeta. unfold _run_add_worker.
    apply paired_start_worker; [reflexivity |]. now apply paired_does.
Qed.

Lemma paired_on_item_selected item s :
  View.paired s -> View.paired (on_item_selected item s).
Proof.
  intros Hs. apply (quiet_paired (s := s)); [| exact Hs].
  apply on_item_selected_facts.
Qed.

Lemma paired_select_all (selected : list dict) (s : Tab.t) :
  View.paired s ->
  View.paired (fold_left (fun s item => on_item_selected item s) selected s).
Proof.
  intros Hs. apply (quiet_paired (s := s)); [| exact Hs].
  apply select_all_eq.
Qed.

Lemma paired_validate_inputs term s :
  View.paired s -> View.paired (snd (_validate_inputs term s)).
Proof.
  unfold _validate_inputs. intros Hs.
  destruct (negb (String.eqb term "N/A") && str_empty term);
    [now apply paired_does |].
  destruct (count (combo_root_folder s) =? 0)%nat; [now apply paired_does |].
  destruct (count (combo_quality_profile s) =? 0)%nat;
    [now apply paired_does | exact Hs].
Qed.

Lemma paired_start_search_and_add term ty s :
  View.paired s -> View.paired (start_search_and_add term ty s).
Proof.
  intros Hs. unfold start_search_and_add.
  destruct (str_empty term); [exact Hs |].
  pose proof (paired_validate_inputs term Hs) as Hv.
  destruct (_validate_inputs term s) as [[|] s1]; [| exact Hv].
  apply paired_process_next. cbn [snd] in Hv.
  destruct ty as [ty |]; [destruct (str_empty ty) |]; exact Hv.
Qed.

Lemma paired_perform (a : action) (s : Tab.t) :
  View.paired s -> View.paired (perform a s).
Proof.
  intros Hs. destruct a; cbn [perform].
  - unfold check_status. apply paired_start_worker; [reflexivity | exact Hs].
  - unfold refresh_root_folders.
    apply paired_start_worker; [reflexivity | exact Hs].
  - unfold refresh_quality_profiles.
    apply paired_start_worker; [reflexivity | exact Hs].
  - exact Hs.
  - unfold add_from_text.
    pose proof (paired_validate_inputs (strip (search_input s)) Hs) as Hv.
    destruct (_validate_inputs (strip (search_input s)) s) as [[|] s1];
      [| exact Hv].
    apply paired_process_next. exact Hv.
  - unfold import_from_csv. destruct (str_empty file_path); [exact Hs |].
    pose proof (paired_validate_inputs "N/A" Hs) as Hv.
    destruct (_validate_inputs "N/A" s) as [[|] s1]; [| exact Hv].
    cbn [snd] in Hv. destruct rows as [rows | e].
    + destruct (csv_terms rows) as [| t ts]; [now apply paired_does |].
      apply paired_process_next. now apply paired_does.
    + apply paired_does; [exact I |]. now apply paired_does.
  - unfold _on_add_request.
    destruct (String.eqb (lower name) (lower (Tab.service_name s)));
      [| exact Hs].
    apply paired_start_search_and_add. now apply paired_does.
  - unfold check_status. apply paired_start_worker; [reflexivity | exact Hs].
  - exact Hs.
  - exact Hs.
  - destruct (Tab.cls s); exact Hs.
Qed.

Lemma paired_deliver (w : worker) (result : json) (error : string)
  (dlg : answer) (s s' : Tab.t) :
  deliver w result error dlg s = Some s' -> View.paired s -> View.paired s'.
Proof.
  unfold deliver. intros Hd Hs.
  destruct (w_callback w).
  - destruct (as_dict result) as [r |]; [| discriminate].
    inversion Hd. subst s'. unfold on_status_finished. cbv zeta.
    destruct (negb (str_empty error) || _).
    + apply paired_does; [exact I |]. now apply paired_does.
    + unfold refresh_quality_profiles, refresh_root_folders.
      apply paired_start_worker; [reflexivity |].
      apply paired_start_worker; [reflexivity |].
      now apply paired_does.
  - destruct (as_dicts result) as [r |]; [| discriminate].
    inversion Hd. subst s'. unfold on_root_folders_finished.
    destruct (if str_empty error then r else None);
      [exact Hs | now apply paired_does].
  - destruct (as_dicts result) as [r |]; [| discriminate].
    inversion Hd. subst s'. unfold on_quality_profiles_finished.
    destruct (if str_empty error then r else None);
      [exact Hs | now apply paired_does].
  - destruct (as_dicts result) as [r |]; [| discriminate].
    inversion Hd. subst s'. unfold on_search_finished. cbv zeta.
    apply paired_process_next.
    destruct (if str_empty error then r else None) as [[| c [| c' cs]] |].
    + now apply paired_does.
    + apply paired_on_item_selected. now apply paired_does.
    + assert (Hc : View.paired
                     (does (Chooser (shown (current_search_term s))
                                    (c :: c' :: cs) (current_search_type s))
                        (Tab.log INFO
                           ("Found "
                            ++ str_of_nat (List.length (c :: c' :: cs))
                            ++ " results for '"
                            ++ shown (current_search_term s)
                            ++ "'. Asking user.") s))).
      { apply paired_does; [exact I |]. now apply paired_does. }
      destruct (accepted dlg); [| now apply paired_does].
      destruct (selected_items dlg) as [| x xs]; [now apply paired_does |].
      now apply paired_select_all.
    + apply paired_does; [exact I |]. now apply paired_does.
  - destruct (as_dict result) as [r |]; [| discriminate].
    inversion Hd. subst s'. unfold on_add_finished. cbv zeta.
    apply paired_process_next.
    destruct (if str_empty error then r else None).
    + apply paired_does; [exact I |]. now apply paired_does.
    + destruct (already_exists error); [now apply paired_does |].
      apply paired_does; [exact I |]. now apply paired_does.
Qed.

(** X22: Every worker a tab ever starts runs the task of the thread attribute
it sits in and is connected to the callback of that task: a status check
reports to [on_status_finished] on the status thread, the two refreshes to
theirs, and a search or an addition, both on the search thread, to
[on_search_finished] or [on_add_finished].  No result is ever handed to the
callback of another task. *)
Theorem workers_match_their_callbacks :
  forall (c : tab_class) (name : string) (sys : system) (w : worker),
    reachable c name sys ->
    In w (started (trace (ui sys))) ->
    View.matched w = true.
Proof.
  intros c name sys w Hreach.
  assert (Hp : View.paired (ui sys)).
  { induction Hreach as [| sys sys' _ IH Hstep].
    - constructor.
    - destruct Hstep as [a sys | w0 o sys Hin
                         | w0 result error dlg rest ui' sys Hp Hd
                         | k w0 sys Hk Hr]; cbn [ui].
      + now apply paired_perform.
      + exact IH.
      + exact (paired_deliver _ _ _ _ Hd IH).
      + destruct k; exact IH. }
  unfold View.paired in Hp. rewrite Forall_forall in Hp. apply Hp.
Qed.

End Pairing.

(** The search a CSV import starts. *)
Lemma workers_match_their_callbacks_witness :
  let sys := Example.or_else
               (play (H := Example.runtime) Example.csv_imported
                     (boot RadarrTab "radarr"))
               (boot RadarrTab "radarr") in
  let w := {| w_id := 3; w_slot := Search;
              w_task := search_item "Interstellar" "item";
              w_callback := search_finished |} in
  reachable (H := Example.runtime) RadarrTab "radarr" sys
  /\ In w (started (trace (ui sys)))
  /\ View.matched w = true.
Proof.
  intros sys w.
  assert (Hreach : reachable (H := Example.runtime) RadarrTab "radarr" sys).
  { apply (@play_reachable Example.runtime RadarrTab "radarr"
             Example.csv_imported (boot RadarrTab "radarr"));
      [apply reach_boot | vm_compute; reflexivity]. }
  assert (Hin : In w (started (trace (ui sys)))).
  { vm_compute. right. right. right. left. reflexivity. }
  split; [exact Hreach |]. split; [exact Hin |].
  exact (@workers_match_their_callbacks Example.runtime RadarrTab "radarr"
           sys w Hreach Hin).
Defined.
